(** * PolyRoots: roots of the monic polynomials with coefficients -1/+1

    A shallow embedding of [main.py]: the enumeration of the coefficient
    vectors, the root collection built by [save_roots], its persistence to an
    [.npy] file, the histogram and log transform of [heat_map], and the
    parameter checks and display path of [PolyRootFrame].

    Conventions of the embedding.
    - Python integers are [Z]; tuples and lists are [list].
    - A finite double is the rational it denotes, so coordinates are [Q]
      and a complex number is a pair of them.  Where the program computes
      with doubles, in [np.linspace], the computation is done in binary64
      and its result read as a rational.  The logarithm of a count is the
      real number [ln (c + 1)].
    - An exception is a value: a computation yields [Returned v] or
      [Raised e], next to the world it leaves behind.  The world holds the
      files on disk, what the machine and the installed libraries allow,
      and the trace of observable events.
    - [numpy], [matplotlib] and [itertools] are outside the repository.
      [itertools.product], [np.concatenate], [np.save], [np.load],
      [np.linspace] and [np.histogram2d] are written out from their
      documented behaviour; [np.roots] and the builtin [int] are parameters
      of the development. *)

From Stdlib Require Import ZArith QArith Qabs List String Ascii.
From Stdlib Require Import DecimalString DecimalZ DecimalPos.
From Stdlib Require Import Lia Reals Lra Floats.
From stdpp Require Import gmap strings.
Import ListNotations.

Set Warnings "-inexact-float".

Open Scope Z_scope.

(** ** The enumeration of coefficient vectors *)

Module Enumerator.

(** [itertools.product(pool, repeat=r)], as the library documents it:
    [result = [[]]], then for each of the [r] pools
    [result = [x + [y] for x in result for y in pool]]. *)
Fixpoint product_repeat {A : Type} (pool : list A) (r : nat) : list (list A) :=
  match r with
  | O => [[]]
  | S r' =>
      flat_map (fun x => map (fun y => x ++ [y]) pool) (product_repeat pool r')
  end.

(** [((1,) + combo for combo in product([-1, 1], repeat=degree))]. *)
Definition coeff_combinations (degree : nat) : list (list Z) :=
  map (fun combo => 1 :: combo) (product_repeat [-1; 1] degree).

(** What the specification calls a coefficient vector of degree [d]. *)
Definition is_coefficient_vector (d : nat) (v : list Z) : Prop :=
  exists tl, v = 1 :: tl /\ length tl = d /\ Forall (fun c => c = -1 \/ c = 1) tl.

(** The counter decoding of the specification: the [d] binary digits of [k],
    most significant first, digit 0 read as -1 and digit 1 as +1. *)
Fixpoint decode_counter (d : nat) (k : nat) : list Z :=
  match d with
  | O => []
  | S d' =>
      decode_counter d' (k / 2)%nat ++ [if Nat.even k then -1 else 1]
  end.

End Enumerator.

(** ** Doubles *)

(** The rational a finite double denotes, in lowest terms: sign, mantissa
    and exponent of the binary64 value. *)
Definition double (x : float) : Q :=
  match Prim2SF x with
  | S754_finite s m e =>
      let n := if s then Z.neg m else Z.pos m in
      match e with
      | Zneg p => Qred (Qmake n (Pos.pow 2 p))
      | _ => inject_Z (n * 2 ^ e)
      end
  | _ => 0%Q
  end.

(** The double of a natural number, as [np.arange] gives it. *)
Definition float_of_nat (i : nat) : float :=
  PrimFloat.of_uint63 (Uint63.of_Z (Z.of_nat i)).

(** ** Exceptions, events and the world *)

(** The exception classes the program can meet.  The last two derive from
    [BaseException] only: [except Exception] lets them through. *)
Inductive exn : Type :=
| ValueError
| FileNotFoundError
| OSError
| LinAlgError
| MemoryError
| KeyboardInterrupt
| SystemExit.

Inductive result (A : Type) : Type :=
| Returned (a : A)
| Raised (e : exn).
Arguments Returned {A} a.
Arguments Raised {A} e.

Inductive level : Type := DEBUG | INFO | WARNING | ERROR.

Inductive icon : Type := ICON_ERROR | ICON_INFORMATION | CONFIRM.

(** The three background jobs a button can start. *)
Inductive job : Type :=
| JobSaveRoots (degree : Z) (datafile : string)
| JobGenerateHeatmap (size : Z) (datafile color_map output : string) (dpi : Z)
| JobSaveAndGenerate (degree size : Z) (datafile color_map output : string) (dpi : Z).

(** What an observer of the program can see, in the order it happens. *)
Inductive event : Type :=
| Log (lvl : level) (msg : string)       (* logging.debug/info/warning/error *)
| Progress (current total : Z)           (* progress_callback(current, total) *)
| Dialog (kind : icon)                   (* wx.MessageDialog(...).ShowModal() *)
| GaugeSet (value : Z)                   (* self.gauge.SetValue(value) *)
| ThreadStart (j : job)                  (* threading.Thread(target=...).start() *)
| FigureClear                            (* self.figure.clf() and the new axes *)
| Imshow (color_map : string)            (* ax.imshow(img, cmap=color_map, norm=...) *)
| CanvasDraw                             (* self.canvas.draw() *)
| Savefig (output : string) (dpi : Z).   (* plt.savefig(output, dpi=dpi) wrote the picture *)

(** A complex double: [f.real] and [f.imag]. *)
Record complex : Type := Complex { real : Q; imag : Q }.

(** What a path on disk may hold. *)
Inductive file_content : Type :=
| NpyArray (a : list complex)   (* a flat numeric array written by np.save *)
| NotNpy.                       (* anything np.load cannot read as an array,
                                   a picture among them *)

Record world : Type := World {
  files : gmap string file_content;   (* the files that exist *)
  writable : string -> bool;          (* may this path be created or overwritten *)
  fits : Z -> bool;                   (* has the machine the memory for the arrays
                                         of a histogram with this many bins an axis *)
  colormaps : string -> bool;         (* the colour map names matplotlib knows *)
  picture_file : string -> Z -> option string;
                                      (* the path plt.savefig writes for a name
                                         and a dpi; None when it refuses them *)
  trace : list event                  (* events so far, oldest first *)
}.

(** A statement: it runs in a world and returns or raises, leaving a world. *)
Definition M (A : Type) : Type := world -> result A * world.

Definition ret {A : Type} (a : A) : M A := fun w => (Returned a, w).

Definition raise {A : Type} (e : exn) : M A := fun w => (Raised e, w).

Definition bind {A B : Type} (m : M A) (k : A -> M B) : M B :=
  fun w =>
    match m w with
    | (Returned a, w') => k a w'
    | (Raised e, w') => (Raised e, w')
    end.

Notation "x <- m ;; k" := (bind m (fun x => k))
  (at level 100, m at next level, k at level 200, right associativity).
Notation "m ;; k" := (bind m (fun _ => k))
  (at level 100, k at level 200, right associativity).

(** [try: body except <classes>: handler]. *)
Definition try_except {A : Type} (body : M A) (catches : exn -> bool)
    (handler : exn -> M A) : M A :=
  fun w =>
    match body w with
    | (Returned a, w') => (Returned a, w')
    | (Raised e, w') => if catches e then handler e w' else (Raised e, w')
    end.

(** [isinstance(e, Exception)]. *)
Definition Exception (e : exn) : bool :=
  match e with
  | KeyboardInterrupt | SystemExit => false
  | _ => true
  end.

Definition only_ValueError (e : exn) : bool :=
  match e with ValueError => true | _ => false end.

(** The world after some more events. *)
Definition add_events (w : world) (evs : list event) : world :=
  {| files := files w; writable := writable w; fits := fits w;
     colormaps := colormaps w; picture_file := picture_file w;
     trace := trace w ++ evs |}.

(** The world after a file was created or overwritten. *)
Definition write_file (w : world) (name : string) (content : file_content) : world :=
  {| files := <[name := content]> (files w); writable := writable w; fits := fits w;
     colormaps := colormaps w; picture_file := picture_file w;
     trace := trace w |}.

Definition emit (ev : event) : M unit :=
  fun w => (Returned tt, add_events w [ev]).

Definition logging (lvl : level) (msg : string) : M unit := emit (Log lvl msg).

Definition lift {A : Type} (r : result A) : M A := fun w => (r, w).

(** The events of a run, the return value put aside. *)
Definition events_of {A : Type} (m : M A) (w : world) : list event := trace (snd (m w)).

Definition is_progress (ev : event) : option (Z * Z) :=
  match ev with Progress c t => Some (c, t) | _ => None end.

(** The calls the progress callback received, in order. *)
Definition progress_calls (tr : list event) : list (Z * Z) := omap is_progress tr.

(** ** The numpy calls of the program *)

Module np.

(** [np.roots(p)] for a solver [solver]: its roots, or the exception of the
    eigenvalue computation, which is a [LinAlgError] whatever the solver
    names under [Raised]. *)
Definition roots (solver : list Z -> result (list complex)) (p : list Z)
  : M (list complex) :=
  match solver p with
  | Returned r => ret r
  | Raised _ => raise LinAlgError
  end.

(** [np.concatenate(arrays)]: at least one array is needed. *)
Definition concatenate (arrays : list (list complex)) : result (list complex) :=
  match arrays with
  | [] => Raised ValueError
  | _ :: _ => Returned (concat arrays)
  end.

(** [file.endswith(suffix)]. *)
Definition endswith (file suffix : string) : bool :=
  let n := String.length file in
  let k := String.length suffix in
  (k <=? n)%nat && String.eqb (substring (n - k) k file) suffix.

(** The name [np.save] really writes to: [.npy] is appended unless the name
    already ends with it. *)
Definition npy_name (file : string) : string :=
  if endswith file ".npy" then file else (file ++ ".npy")%string.

(** [np.save(file, arr)]. *)
Definition save (file : string) (arr : list complex) : M unit :=
  fun w =>
    let name := npy_name file in
    if writable w name
    then (Returned tt, write_file w name (NpyArray arr))
    else (Raised OSError, w).

(** [np.load(file, 'r')]; the name is used as it is given. *)
Definition load (file : string) : M (list complex) :=
  fun w =>
    match files w !! file with
    | None => (Raised FileNotFoundError, w)
    | Some NotNpy => (Raised ValueError, w)
    | Some (NpyArray a) => (Returned a, w)
    end.

(** [np.linspace(start, stop, n + 1)], computed in binary64 as numpy does:
    [step = (stop - start) / n], the samples [arange(0, n + 1) * step + start]
    (or [arange(0, n + 1) / n * (stop - start) + start] when the step
    rounds to zero), and the last sample replaced by [stop] itself. *)
Definition linspace (start stop : float) (n : nat) : list Q :=
  let div := float_of_nat n in
  let delta := (stop - start)%float in
  let step := (delta / div)%float in
  map (fun i =>
         let y := float_of_nat i in
         double (if (step =? 0)%float
                 then (y / div * delta + start)%float
                 else (y * step + start)%float))
      (seq 0 n)
  ++ [double stop].

(** [np.searchsorted(a, v, side='right')] on a sorted [a]: the index [i]
    with [a[i-1] <= v < a[i]], that is how many leading edges are [<= v]. *)
Fixpoint searchsorted_right (a : list Q) (v : Q) : nat :=
  match a with
  | [] => O
  | e :: a' => if Qle_bool e v then S (searchsorted_right a' v) else O
  end.

(** The bin number of one coordinate in [histogramdd]: the search, then
    [Ncount[i][on_edge] -= 1] for a value equal to the rightmost edge.
    Number 0 and number [len(edges)] are the two outlier bins. *)
Definition bin_number (edges : list Q) (v : Q) : nat :=
  let i := searchsorted_right edges v in
  if Qeq_bool v (List.last edges 0%Q) then (i - 1)%nat else i.

(** [np.ravel_multi_index((ix, iy), (nx, ny))], row-major. *)
Definition ravel_multi_index (ix iy ny : nat) : nat := (ix * ny + iy)%nat.

(** [np.bincount(xs, minlength=m)]. *)
Definition bincount (xs : list nat) (minlength : nat) : list nat :=
  let len := match xs with
             | [] => minlength
             | _ :: _ => Nat.max minlength (S (list_max xs))
             end in
  map (fun k => count_occ Nat.eq_dec xs k) (seq 0 len).

(** The rows of [flat.reshape((rows, cols))]. *)
Fixpoint rows_of (flat : list nat) (rows cols : nat) : list (list nat) :=
  match rows with
  | O => []
  | S r => firstn cols flat :: rows_of (skipn cols flat) r cols
  end.

Definition reshape (flat : list nat) (rows cols : nat) : result (list (list nat)) :=
  if (length flat =? rows * cols)%nat
  then Returned (rows_of flat rows cols)
  else Raised ValueError.

(** The slice [a[1:-1]]. *)
Definition core {A : Type} (a : list A) : list A := removelast (tl a).

(** [np.histogram2d(x, y, bins=bins, range=[[xmin, xmax], [ymin, ymax]])]
    for an integer [bins]: the counts (whole numbers) and the two edge
    arrays.  Each axis gets [bins] bins and one outlier bin at each end;
    the outlier rows and columns are cut off at the end.  The arrays of
    [(bins + 2) * (bins + 2)] counts have to fit in the memory of the
    machine: numpy raises [MemoryError] when they do not. *)
Definition histogram2d (x y : list Q) (bins : Z) (xmin xmax ymin ymax : float)
  : M (list (list nat) * list Q * list Q) :=
  fun w =>
    if negb (length x =? length y)%nat then (Raised ValueError, w)
    else if bins <? 1 then (Raised ValueError, w)
    else if negb (fits w bins) then (Raised MemoryError, w)
    else
      let n := Z.to_nat bins in
      let xedges := linspace xmin xmax n in
      let yedges := linspace ymin ymax n in
      let nbin_x := S (length xedges) in
      let nbin_y := S (length yedges) in
      let Ncount_x := map (bin_number xedges) x in
      let Ncount_y := map (bin_number yedges) y in
      let xy := map (fun p => ravel_multi_index (fst p) (snd p) nbin_y)
                    (combine Ncount_x Ncount_y) in
      match reshape (bincount xy (nbin_x * nbin_y)) nbin_x nbin_y with
      | Raised e => (Raised e, w)
      | Returned hist => (Returned (map core (core hist), xedges, yedges), w)
      end.

(** [np.log(img + 1)], cell by cell. *)
Definition log_plus_1 (img : list (list nat)) : list (list R) :=
  map (map (fun c => ln (INR c + 1))) img.

(** [img.size]. *)
Definition size {A : Type} (img : list (list A)) : nat := length (concat img).

(** [np.any(img > 0)]. *)
Definition any_positive (img : list (list R)) : bool :=
  existsb (existsb (fun v => if Rlt_dec 0 v then true else false)) img.

End np.

Arguments np.linspace : simpl never.

(** ** The matplotlib calls of the program *)

Module ax.

(** [ax.imshow(img, cmap=color_map, ...)]: a name that is not in the
    registry of colour maps is a [ValueError]. *)
Definition imshow (color_map : string) : M unit :=
  fun w =>
    if colormaps w color_map
    then (Returned tt, add_events w [Imshow color_map])
    else (Raised ValueError, w).

End ax.

Module plt.

(** [plt.savefig(output, dpi=dpi)]: matplotlib refuses a name whose format
    it does not support or a resolution it cannot render ([ValueError]);
    otherwise the picture is written, when the path can be. *)
Definition savefig (output : string) (dpi : Z) : M unit :=
  fun w =>
    match picture_file w output dpi with
    | None => (Raised ValueError, w)
    | Some name =>
        if writable w name
        then (Returned tt, add_events (write_file w name NotNpy) [Savefig output dpi])
        else (Raised OSError, w)
    end.

End plt.

(** ** The core of [main.py] *)

(** 热图范围常量 *)
Definition X_MAX : float := 1.8.
Definition X_MIN : float := (-1.8).
Definition Y_MAX : float := 1.8.
Definition Y_MIN : float := (-1.8).

(** A progress callback, when one is supplied. *)
Definition callback : Type := option (Z -> Z -> M unit).

(** The callback that only records its call. *)
Definition recording_callback : callback :=
  Some (fun current total => emit (Progress current total)).

Definition call (progress_callback : callback) (current total : Z) : M unit :=
  match progress_callback with
  | Some f => f current total
  | None => ret tt
  end.

Section Core.

(** [np.roots]: the roots of a polynomial given by its coefficients, or the
    exception the eigenvalue solver raised. *)
Variable np_roots : list Z -> result (list complex).

(** 计算单个多项式的根。 *)
Definition compute_roots (poly_coeffs : list Z) : M (list complex) :=
  try_except
    (roots <- np.roots np_roots poly_coeffs ;;
     logging DEBUG "Computed roots for polynomial coefficients" ;;
     ret roots)
    Exception
    (fun e =>
       logging ERROR "Error computing roots for coefficients" ;;
       ret []).

(** [product([-1, 1], repeat=degree)] under the generator of [save_roots];
    a negative [repeat] is a [ValueError]. *)
Definition coeff_combinations (degree : Z) : M (list (list Z)) :=
  if degree <? 0 then raise ValueError
  else ret (Enumerator.coeff_combinations (Z.to_nat degree)).

(** The loop [for roots_batch in pool.imap(compute_roots, coeff_combinations)]:
    [pool.imap] hands the results over in the order of the inputs, and the
    log entry of a worker is put where its result is taken.  [roots] and
    [processed] are the two variables the loop updates. *)
Fixpoint imap_loop (progress_callback : callback) (total_polys : Z)
    (todo : list (list Z)) (roots : list (list complex)) (processed : Z)
  : M (list (list complex)) :=
  match todo with
  | [] => ret roots
  | poly_coeffs :: todo' =>
      roots_batch <- compute_roots poly_coeffs ;;
      let roots := roots ++ [roots_batch] in
      let processed := processed + 1 in
      call progress_callback processed total_polys ;;
      (if processed mod 10000 =? 0
       then logging INFO "Processed polynomials" else ret tt) ;;
      imap_loop progress_callback total_polys todo' roots processed
  end.

(** 计算并保存所有可能系数为-1或1的多项式的根。  The function returns [None]
    on every path, here [tt].  For a negative degree [2 ** degree] is a
    float that nothing reads before [product] raises. *)
Definition save_roots (degree : Z) (datafile : string) (progress_callback : callback)
  : M unit :=
  try_except
    (let total_polys := 2 ^ degree in
     logging INFO "Starting to save roots" ;;
     combos <- coeff_combinations degree ;;
     roots <- imap_loop progress_callback total_polys combos [] 0 ;;
     roots <- lift (np.concatenate roots) ;;
     np.save datafile roots ;;
     logging INFO "Successfully saved roots")
    Exception
    (fun e => logging ERROR "Error in save_roots").

End Core.

(** 生成热图数据。  [np.array([])] is the grid with no row. *)
Definition heat_map (size : Z) (datafile : string) (progress_callback : callback)
  : M (list (list R)) :=
  try_except
    (logging INFO "Starting heatmap generation" ;;
     f <- np.load datafile ;;
     let x := map real f in
     let y := map imag f in
     h <- np.histogram2d x y size X_MIN X_MAX Y_MIN Y_MAX ;;
     let '(img, xedges, yedges) := h in
     call progress_callback size size ;;
     let img := np.log_plus_1 img in
     logging DEBUG "Heatmap generated" ;;
     ret img)
    Exception
    (fun e =>
       logging ERROR "Error in heat_map" ;;
       ret []).

(** ** The parameter checks and the display path of [PolyRootFrame] *)

(** The widgets the handlers read. *)
Record frame : Type := Frame {
  txt_degree : string;
  txt_size : string;
  txt_dpi : string;
  cmb_colormap : string;
  txt_output : string
}.

(** [f"{n}"] for an integer. *)
Definition str (n : Z) : string := DecimalString.NilZero.string_of_int (Z.to_int n).

(** [f"roots_degree_{degree}.npy"]. *)
Definition roots_file (degree : Z) : string :=
  ("roots_degree_" ++ str degree ++ ".npy")%string.

Section Gui.

Variable np_roots : list Z -> result (list complex).

(** The builtin [int] on the text of a field: the integer read, or [None]
    where [int] raises [ValueError]. *)
Variable py_int : string -> option Z.

Definition int (text : string) : M Z :=
  match py_int text with
  | Some n => ret n
  | None => raise ValueError
  end.

(** The [try] block of [GetDegree]. *)
Definition GetDegree_try (self : frame) : M (option Z) :=
  degree <- int (txt_degree self) ;;
  if (degree <? 1) || (degree >? 25)
  then raise ValueError
  else logging DEBUG "User input degree" ;; ret (Some degree).

Definition GetDegree (self : frame) : M (option Z) :=
  try_except (GetDegree_try self) only_ValueError
    (fun e =>
       logging ERROR "Invalid degree input" ;;
       emit (Dialog ICON_ERROR) ;;
       ret None).

(** The [try] block of [GetSizeValue]. *)
Definition GetSizeValue_try (self : frame) : M (option Z) :=
  size <- int (txt_size self) ;;
  if (size <? 100) || (size >? 10000)
  then raise ValueError
  else logging DEBUG "User input size" ;; ret (Some size).

Definition GetSizeValue (self : frame) : M (option Z) :=
  try_except (GetSizeValue_try self) only_ValueError
    (fun e =>
       logging ERROR "Invalid size input" ;;
       emit (Dialog ICON_ERROR) ;;
       ret None).

Definition GetDPI (self : frame) : M (option Z) :=
  try_except
    (dpi <- int (txt_dpi self) ;;
     if (dpi <? 50) || (dpi >? 10000)
     then raise ValueError
     else logging DEBUG "User input DPI" ;; ret (Some dpi))
    only_ValueError
    (fun e =>
       logging ERROR "Invalid DPI input" ;;
       emit (Dialog ICON_ERROR) ;;
       ret None).

(** [os.path.exists(datafile)]. *)
Definition path_exists (datafile : string) : M bool :=
  fun w => (Returned (bool_decide (is_Some (files w !! datafile))), w).

(** The button "Roots"; [answer] is whether the user confirms the dialog. *)
Definition OnSaveRoots (self : frame) (answer : bool) : M unit :=
  degree <- GetDegree self ;;
  match degree with
  | None => ret tt
  | Some degree =>
      let datafile := roots_file degree in
      emit (Dialog CONFIRM) ;;
      if answer
      then emit (GaugeSet 0) ;; emit (ThreadStart (JobSaveRoots degree datafile))
      else ret tt
  end.

(** The button "Heatmap". *)
Definition OnGenerateHeatmap (self : frame) : M unit :=
  degree <- GetDegree self ;;
  match degree with
  | None => ret tt
  | Some degree =>
      size <- GetSizeValue self ;;
      match size with
      | None => ret tt
      | Some size =>
          let datafile := roots_file degree in
          there <- path_exists datafile ;;
          if negb there then emit (Dialog ICON_ERROR)
          else
            let color_map := cmb_colormap self in
            let output := txt_output self in
            dpi <- GetDPI self ;;
            match dpi with
            | None => ret tt
            | Some dpi =>
                emit (GaugeSet 0) ;;
                emit (ThreadStart (JobGenerateHeatmap size datafile color_map output dpi))
            end
      end
  end.

(** The button "All". *)
Definition OnSaveAndGenerate (self : frame) (answer : bool) : M unit :=
  degree <- GetDegree self ;;
  match degree with
  | None => ret tt
  | Some degree =>
      size <- GetSizeValue self ;;
      match size with
      | None => ret tt
      | Some size =>
          let datafile := roots_file degree in
          let color_map := cmb_colormap self in
          let output := txt_output self in
          dpi <- GetDPI self ;;
          match dpi with
          | None => ret tt
          | Some dpi =>
              emit (Dialog CONFIRM) ;;
              if answer
              then emit (GaugeSet 0) ;;
                   emit (ThreadStart
                           (JobSaveAndGenerate degree size datafile color_map output dpi))
              else ret tt
          end
      end
  end.

(** [DisplayHeatmap]: the drawing calls are events; the colour norm they
    are given is not part of the model. *)
Definition DisplayHeatmap (img : list (list R)) (color_map : string) : M unit :=
  try_except
    (emit FigureClear ;;
     (if np.any_positive img
      then ax.imshow color_map ;; logging DEBUG "Heatmap displayed successfully."
      else logging WARNING "Heatmap data contains no positive values.") ;;
     emit CanvasDraw)
    Exception
    (fun e =>
       logging ERROR "Error in DisplayHeatmap" ;;
       emit (Dialog ICON_ERROR)).

(** The callbacks the jobs pass down: the call is recorded and logged; the
    percentage put on the gauge is a float computation left out. *)
Definition progress_callback_save : callback :=
  Some (fun current total =>
          emit (Progress current total) ;; logging DEBUG "Saving roots progress").

Definition progress_callback_heat : callback :=
  Some (fun current total =>
          emit (Progress current total) ;; logging DEBUG "Generating heatmap progress").

(** The job behind "Roots". *)
Definition RunSaveRoots (degree : Z) (datafile : string) : M unit :=
  try_except
    (save_roots np_roots degree datafile progress_callback_save ;;
     emit (Dialog ICON_INFORMATION))
    Exception
    (fun e =>
       logging ERROR "Error in RunSaveRoots" ;;
       emit (Dialog ICON_ERROR)).

(** The job behind "Heatmap".  The call handed to [wx.CallAfter] is run
    where it is posted. *)
Definition RunGenerateHeatmap (size : Z) (datafile color_map output : string) (dpi : Z)
  : M unit :=
  try_except
    (img <- heat_map size datafile progress_callback_heat ;;
     (if (np.size img =? 0)%nat then raise ValueError else ret tt) ;;
     DisplayHeatmap img color_map ;;
     plt.savefig output dpi ;;
     logging INFO "Heatmap saved" ;;
     emit (Dialog ICON_INFORMATION))
    Exception
    (fun e =>
       logging ERROR "Error in RunGenerateHeatmap" ;;
       emit (Dialog ICON_ERROR)).

(** The job behind "All". *)
Definition RunSaveAndGenerate (degree size : Z) (datafile color_map output : string)
    (dpi : Z) : M unit :=
  try_except
    (save_roots np_roots degree datafile progress_callback_save ;;
     img <- heat_map size datafile progress_callback_heat ;;
     (if (np.size img =? 0)%nat then raise ValueError else ret tt) ;;
     DisplayHeatmap img color_map ;;
     plt.savefig output dpi ;;
     logging INFO "Heatmap saved" ;;
     emit (Dialog ICON_INFORMATION))
    Exception
    (fun e =>
       logging ERROR "Error in RunSaveAndGenerate" ;;
       emit (Dialog ICON_ERROR)).

End Gui.

(** ** Vocabulary of the properties *)

(** A machine with the memory for the sizes the frame lets through, a
    matplotlib that knows the colour maps listed here and writes a picture
    under the name it is given when the name ends with [.png] or [.pdf]. *)
Definition roomy (bins : Z) : bool := bins <=? 10000.

Definition catalogue (color_map : string) : bool :=
  existsb (String.eqb color_map) ["afmhot"; "gray"; "hot"; "viridis"].

Definition png_or_pdf (output : string) (dpi : Z) : option string :=
  if np.endswith output ".png" || np.endswith output ".pdf" then Some output else None.

(** A world with no file, where every path may be written, and no event yet. *)
Definition empty_world : world :=
  {| files := ∅; writable := fun _ => true; fits := roomy;
     colormaps := catalogue; picture_file := png_or_pdf; trace := [] |}.

(** What one polynomial contributes to the collection: its roots, or nothing
    when the solver raised. *)
Definition roots_batch (np_roots : list Z -> result (list complex))
    (poly_coeffs : list Z) : list complex :=
  match np_roots poly_coeffs with
  | Returned roots => roots
  | Raised _ => []
  end.

(** The root collection of a degree: the batches in enumeration order. *)
Definition root_collection (np_roots : list Z -> result (list complex))
    (degree : nat) : list complex :=
  concat (map (roots_batch np_roots) (Enumerator.coeff_combinations degree)).

(** Every individual root computation of the degree succeeds. *)
Definition all_solves_succeed (np_roots : list Z -> result (list complex))
    (degree : nat) : Prop :=
  forall v, In v (Enumerator.coeff_combinations degree) ->
            exists roots, np_roots v = Returned roots.

(** What [np.roots] promises about the number of roots: a coefficient array
    whose first and last entries are not zero has one root less than it has
    coefficients. *)
Definition counts_roots (np_roots : list Z -> result (list complex)) : Prop :=
  forall p roots,
    np_roots p = Returned roots ->
    hd 0 p <> 0 -> List.last p 0 <> 0 ->
    length roots = (length p - 1)%nat.

(** A callback that only reports: it returns, and leaves the files alone. *)
Definition passive (progress_callback : callback) : Prop :=
  forall f, progress_callback = Some f ->
  forall current total w, exists evs,
    f current total w = (Returned tt, add_events w evs).

(** A solver for the degrees 0, 1 and 2, used to run the model: no root
    for a constant, the exact root of a linear polynomial, and the roots of
    the four quadratics as the doubles nearest to their first six decimals;
    it gives up on every other input. *)
Definition small_solver (p : list Z) : result (list complex) :=
  match p with
  | [_] => Returned []
  | [1; c] => Returned [Complex (inject_Z (- c)) 0]
  | [1; 1; 1] => Returned [Complex (double (-0.5)) (double 0.866025);
                           Complex (double (-0.5)) (double (-0.866025))]
  | [1; 1; -1] => Returned [Complex (double (-1.618034)) 0; Complex (double 0.618034) 0]
  | [1; -1; 1] => Returned [Complex (double 0.5) (double 0.866025);
                            Complex (double 0.5) (double (-0.866025))]
  | [1; -1; -1] => Returned [Complex (double 1.618034) 0; Complex (double (-0.618034)) 0]
  | _ => Raised LinAlgError
  end.

(** The world [save_roots] leaves behind for a degree that is not negative:
    the collection under the [.npy] name when that path can be written, no
    file change otherwise; events are added in both cases. *)
Definition saved (np_roots : list Z -> result (list complex))
    (d : Z) (datafile : string) (w : world) (evs : list event) : world :=
  if writable w (np.npy_name datafile)
  then add_events
         (write_file w (np.npy_name datafile)
            (NpyArray (root_collection np_roots (Z.to_nat d))))
         evs
  else add_events w evs.

(** Two complex numbers agree to 1e-6 in each component. *)
Definition close (a b : complex) : Prop :=
  (Qabs (real a - real b) <= 0.000001)%Q /\ (Qabs (imag a - imag b) <= 0.000001)%Q.

(** The window of the heat map, both ends included. *)
Definition in_window (c : complex) : bool :=
  Qle_bool (double X_MIN) (real c) && Qle_bool (real c) (double X_MAX) &&
  Qle_bool (double Y_MIN) (imag c) && Qle_bool (imag c) (double Y_MAX).

(** The edges do not decrease along the array. *)
Definition nondecreasing (edges : list Q) : Prop :=
  forall i j, (i <= j < length edges)%nat -> (nth i edges 0 <= nth j edges 0)%Q.

(** What [np.linspace] promises of the [n + 1] edges it computes from
    [start] to [stop]: the first one is [start] and they do not decrease
    (the last one is [stop] by the last assignment of the function).  The
    search of [np.histogram2d] relies on it. *)
Definition edges_in_order (start stop : float) (n : nat) : Prop :=
  (nth 0 (np.linspace start stop n) 0 == double start)%Q /\
  nondecreasing (np.linspace start stop n).

(** The same for the two axes of the window. *)
Definition grid_in_order (n : nat) : Prop :=
  edges_in_order X_MIN X_MAX n /\ edges_in_order Y_MIN Y_MAX n.

(** The check of [edges_in_order] by computation, for a given size. *)
Fixpoint ascending (edges : list Q) : bool :=
  match edges with
  | a :: (b :: _) as rest => Qle_bool a b && ascending rest
  | _ => true
  end.

Definition edges_in_order_check (start stop : float) (n : nat) : bool :=
  Qeq_bool (nth 0 (np.linspace start stop n) 0%Q) (double start) &&
  ascending (np.linspace start stop n).

(** The point falls in the cell of row [i] and column [j] of an [n] by [n]
    grid: its bin numbers, among the edges [np.histogram2d] computes, are
    [i + 1] and [j + 1], the outlier bin 0 of each axis put aside. *)
Definition falls_in (n i j : nat) (c : complex) : bool :=
  (np.bin_number (np.linspace X_MIN X_MAX n) (real c) =? S i)%nat &&
  (np.bin_number (np.linspace Y_MIN Y_MAX n) (imag c) =? S j)%nat.

(** How many points of the collection fall in a cell. *)
Definition cell_count (n : nat) (f : list complex) (i j : nat) : nat :=
  length (List.filter (falls_in n i j) f).

(** The grid of the cell counts. *)
Definition histogram (n : nat) (f : list complex) : list (list nat) :=
  map (fun i => map (fun j => cell_count n f i j) (seq 0 n)) (seq 0 n).

(** The sum of all cells of a grid. *)
Definition total (hist : list (list nat)) : nat := list_sum (map list_sum hist).

(** The edge number [i] among the [n + 1] edges [np.histogram2d] computes
    from [start] to [stop]. *)
Definition edge (start stop : float) (n i : nat) : Q :=
  nth i (np.linspace start stop n) 0%Q.

(** The flat indices [xy] that [histogramdd] hands to [np.bincount]: the two
    bin numbers of each point, row-major over [n + 2] bins an axis. *)
Definition flat_indices (n : nat) (f : list complex) : list nat :=
  map (fun p => np.ravel_multi_index (fst p) (snd p) (S (S n)))
    (combine (map (np.bin_number (np.linspace X_MIN X_MAX n)) (map real f))
             (map (np.bin_number (np.linspace Y_MIN Y_MAX n)) (map imag f))).

(** The point has a bin number from 1 to [n] on both axes: it is in no
    outlier bin. *)
Definition in_grid (n : nat) (c : complex) : bool :=
  let ix := np.bin_number (np.linspace X_MIN X_MAX n) (real c) in
  let iy := np.bin_number (np.linspace Y_MIN Y_MAX n) (imag c) in
  (1 <=? ix)%nat && (ix <=? n)%nat && ((1 <=? iy)%nat && (iy <=? n)%nat).

(** The array of the repository's heat-map test, [1+1j, -1-1j]; an array
    with two more points, one on the corner of the window and one right of
    it; an array whose points are all outside the window. *)
Definition test_roots : list complex := [Complex 1 1; Complex (-1) (-1)].

Definition more_roots : list complex :=
  [Complex 1 1; Complex (-1) (-1); Complex (double X_MAX) (double Y_MIN);
   Complex (double 1.9) 0].

Definition far_roots : list complex := [Complex (double 1.9) 0; Complex 0 (-2)].

(** A world holding these arrays and a file with the empty array. *)
Definition test_world : world :=
  {| files := {[ "test_roots.npy" := NpyArray test_roots;
                 "more_roots.npy" := NpyArray more_roots;
                 "far_roots.npy" := NpyArray far_roots;
                 "no_roots.npy" := NpyArray [] ]};
     writable := fun _ => true; fits := roomy;
     colormaps := catalogue; picture_file := png_or_pdf;
     trace := [] |}.

(** A world where no path may be written. *)
Definition readonly_world : world :=
  {| files := ∅; writable := fun _ => false; fits := roomy;
     colormaps := catalogue; picture_file := png_or_pdf; trace := [] |}.

(** A world where the data file of degree 1 is left from an earlier run and
    can no longer be written, while pictures can. *)
Definition stale_world : world :=
  {| files := {[ "roots_degree_1.npy" := NpyArray test_roots ]};
     writable := fun name => np.endswith name ".png"; fits := roomy;
     colormaps := catalogue; picture_file := png_or_pdf; trace := [] |}.

(** The statement raises: an exception reaches its caller. *)
Definition raises {A : Type} (m : M A) (w : world) : Prop :=
  exists e w', m w = (Raised e, w').

(** The event reports an error: an error dialog or an error log entry. *)
Definition is_error_report (ev : event) : bool :=
  match ev with
  | Dialog ICON_ERROR => true
  | Log ERROR _ => true
  | _ => false
  end.

(** A reader of plain decimal numerals, used to run the model of the frame:
    an optional minus sign, then ASCII digits.  The builtin [int] reads such
    texts to the same integers. *)
Fixpoint read_digits (s : string) (acc : Z) : option Z :=
  match s with
  | EmptyString => Some acc
  | String c s' =>
      let n := Z.of_nat (nat_of_ascii c) in
      if (48 <=? n) && (n <=? 57) then read_digits s' (10 * acc + (n - 48)) else None
  end.

Definition decimal_int (s : string) : option Z :=
  match s with
  | EmptyString => None
  | String "-"%char EmptyString => None
  | String "-"%char s' => option_map Z.opp (read_digits s' 0)
  | _ => read_digits s 0
  end.

(** The frame as [InitUI] fills it, with a degree and a size typed in. *)
Definition frame_with (degree size : string) : frame :=
  {| txt_degree := degree; txt_size := size; txt_dpi := "300";
     cmb_colormap := "afmhot"; txt_output := "polyroots.png" |}.

(** The coordinate [v] lies in bin [i] of the [n] bins from [start] to
    [stop]: from edge [i] on and below edge [i + 1], the last bin taking the
    last edge in. *)
Definition in_bin (start stop : float) (n i : nat) (v : Q) : Prop :=
  (edge start stop n i <= v)%Q /\
  ((v < edge start stop n (S i))%Q \/ (S i = n /\ (v == double stop)%Q)).

(** The call returned. *)
Definition returned {A : Type} (r : result A) : bool :=
  match r with
  | Returned _ => true
  | Raised _ => false
  end.

(** How many of the root computations of a degree return. *)
Definition solved_count (np_roots : list Z -> result (list complex)) (degree : nat) : nat :=
  length (List.filter (fun v => returned (np_roots v)) (Enumerator.coeff_combinations degree)).

(** The path holds an array [np.load] can read. *)
Definition readable (w : world) (datafile : string) : bool :=
  match files w !! datafile with
  | Some (NpyArray _) => true
  | _ => false
  end.

(** [heat_map] gets to bin the collection: the file is readable, the size
    is at least 1 and the arrays of the histogram fit in memory. *)
Definition binned (w : world) (size : Z) (datafile : string) : bool :=
  readable w datafile && (1 <=? size) && fits w size.

(** [small_solver], except that it does not converge on [x^2 - x + 1]. *)
Definition flaky_solver (p : list Z) : result (list complex) :=
  match p with
  | [1; -1; 1] => Raised LinAlgError
  | _ => small_solver p
  end.

(** The events of one call of [DisplayHeatmap] in a world. *)
Definition display_events (w : world) (img : list (list R)) (color_map : string)
  : list event :=
  if np.any_positive img
  then if colormaps w color_map
       then [FigureClear; Imshow color_map;
             Log DEBUG "Heatmap displayed successfully."; CanvasDraw]
       else [FigureClear; Log ERROR "Error in DisplayHeatmap"; Dialog ICON_ERROR]
  else [FigureClear; Log WARNING "Heatmap data contains no positive values.";
        CanvasDraw].

(** The path under which [plt.savefig] writes the picture in a world, when
    it does. *)
Definition picture_written (w : world) (output : string) (dpi : Z) : option string :=
  match picture_file w output dpi with
  | Some name => if writable w name then Some name else None
  | None => None
  end.

(** The events of the heat-map part of a job in a world: the binning, the
    display and the saving of the picture when [heat_map] gets to bin the
    collection, the two error entries and the error dialog otherwise.
    [error_msg] is the log text of the job. *)
Definition heat_job_events (error_msg : string) (size : Z)
    (datafile color_map output : string) (dpi : Z) (w : world) : list event :=
  match files w !! datafile with
  | Some (NpyArray f) =>
      if (1 <=? size) && fits w size
      then [Log INFO "Starting heatmap generation"; Progress size size;
            Log DEBUG "Generating heatmap progress"; Log DEBUG "Heatmap generated"]
           ++ display_events w (np.log_plus_1 (histogram (Z.to_nat size) f)) color_map
           ++ (match picture_written w output dpi with
               | Some _ => [Savefig output dpi; Log INFO "Heatmap saved";
                            Dialog ICON_INFORMATION]
               | None => [Log ERROR error_msg; Dialog ICON_ERROR]
               end)
      else [Log INFO "Starting heatmap generation"; Log ERROR "Error in heat_map";
            Log ERROR error_msg; Dialog ICON_ERROR]
  | _ => [Log INFO "Starting heatmap generation"; Log ERROR "Error in heat_map";
          Log ERROR error_msg; Dialog ICON_ERROR]
  end.

(** The world after the heat-map part of a job: the picture is the one
    file it can add; events are added in every case. *)
Definition pictured (size : Z) (datafile output : string) (dpi : Z) (w : world)
    (evs : list event) : world :=
  if binned w size datafile
  then match picture_written w output dpi with
       | Some name => add_events (write_file w name NotNpy) evs
       | None => add_events w evs
       end
  else add_events w evs.

(** The log entry [compute_roots] leaves for one polynomial. *)
Definition solve_log (np_roots : list Z -> result (list complex)) (v : list Z) : event :=
  match np_roots v with
  | Returned _ => Log DEBUG "Computed roots for polynomial coefficients"
  | Raised _ => Log ERROR "Error computing roots for coefficients"
  end.

(** The events of the loop of [save_roots] over [todo], for a callback
    whose call with (current, total) leaves the events [cb_events current
    total]: for each polynomial the log entry of its solve, the events of
    the callback, and the milestone entry every 10000 polynomials. *)
Fixpoint loop_events (np_roots : list Z -> result (list complex))
    (cb_events : Z -> Z -> list event) (total : Z) (todo : list (list Z))
    (processed : Z) : list event :=
  match todo with
  | [] => []
  | v :: todo' =>
      solve_log np_roots v
      :: cb_events (processed + 1) total
      ++ (if (processed + 1) mod 10000 =? 0
          then [Log INFO "Processed polynomials"] else [])
      ++ loop_events np_roots cb_events total todo' (processed + 1)
  end.

(** The callback returns, leaves the files alone, and its events are those
    of [cb_events]. *)
Definition emits (progress_callback : callback) (cb_events : Z -> Z -> list event) : Prop :=
  forall current total w,
    call progress_callback current total w
    = (Returned tt, add_events w (cb_events current total)).

(** The events of the callback of the job behind "Roots" and "All". *)
Definition save_callback_events (current total : Z) : list event :=
  [Progress current total; Log DEBUG "Saving roots progress"].

(** The log entry of a failed root computation. *)
Definition is_solve_error (ev : event) : bool :=
  match ev with
  | Log ERROR msg => String.eqb msg "Error computing roots for coefficients"
  | _ => false
  end.

(** What a getter of the frame answers for the integer read from its
    field, [None] standing for a text [int] refuses: the integer when it is
    within the bounds, nothing otherwise. *)
Definition checked (lo hi : Z) (value : option Z) : option Z :=
  match value with
  | Some n => if (n <? lo) || (n >? hi) then None else Some n
  | None => None
  end.

(** The field holds no integer within the bounds: its text is no integer,
    or the integer is below [lo] or above [hi]. *)
Definition out_of_bounds (lo hi : Z) (value : option Z) : Prop :=
  match value with
  | Some n => n < lo \/ hi < n
  | None => True
  end.

(** A log entry or an error dialog: what a handler that starts nothing
    leaves behind. *)
Definition is_report (ev : event) : bool :=
  match ev with
  | Log _ _ => true
  | Dialog ICON_ERROR => true
  | _ => false
  end.

(** What the statement raises, when it raises, is of class [Exception]:
    [except Exception] catches it. *)
Definition catchable {A : Type} (m : M A) : Prop :=
  forall w e w', m w = (Raised e, w') -> Exception e = true.

(** A callback that raises, when it does, an exception of class
    [Exception]. *)
Definition raises_only_Exception (progress_callback : callback) : Prop :=
  forall current total, catchable (call progress_callback current total).

(** A callback that is interrupted: [KeyboardInterrupt] is raised while it
    runs. *)
Definition interrupted_callback : callback :=
  Some (fun current total => raise KeyboardInterrupt).

(** * Properties *)

(** ** The enumeration *)

Section EnumeratorFacts.
Import Enumerator.

Lemma product_repeat_length {A : Type} (pool : list A) (r : nat) :
  length (product_repeat pool r) = (length pool ^ r)%nat.
Proof.
  induction r as [|r IH]; simpl; [reflexivity|].
  rewrite flat_map_constant_length with (c := length pool).
  - rewrite IH. lia.
  - intros x _. apply length_map.
Qed.

Lemma product_repeat_In {A : Type} (pool : list A) (r : nat) (v : list A) :
  In v (product_repeat pool r) <-> length v = r /\ Forall (fun c => In c pool) v.
Proof.
  revert v. induction r as [|r IH]; intros v; simpl.
  - split.
    + intros [<- | []]. split; [reflexivity | constructor].
    + intros [Hlen _]. left. symmetry. now apply length_zero_iff_nil.
  - rewrite in_flat_map. split.
    + intros (x & Hx & Hv). apply in_map_iff in Hv as (y & <- & Hy).
      apply IH in Hx as [Hlen Hall]. split.
      * rewrite length_app. simpl. lia.
      * apply List.Forall_app. split; [exact Hall | now constructor].
    + intros [Hlen Hall].
      destruct (exists_last (l := v)) as (x & y & ->).
      { intros ->. discriminate. }
      rewrite length_app in Hlen. simpl in Hlen.
      apply List.Forall_app in Hall as [Hx Hy].
      exists x. split.
      * apply IH. split; [lia | exact Hx].
      * apply in_map_iff. exists y. split; [reflexivity|].
        now inversion Hy.
Qed.

Lemma product_repeat_NoDup {A : Type} (pool : list A) (r : nat) :
  List.NoDup pool -> List.NoDup (product_repeat pool r).
Proof.
  intros Hpool. induction r as [|r IH]; simpl.
  - constructor; [intros [] | constructor].
  - induction IH as [|x l Hx Hl IHl]; simpl; [constructor|].
    apply List.NoDup_app.
    + apply Finite.Injective_map_NoDup; [|exact Hpool].
      intros y z Hyz. now apply app_inj_tail in Hyz.
    + exact IHl.
    + intros v Hv Hin. apply in_map_iff in Hv as (y & <- & _).
      apply in_flat_map in Hin as (x' & Hx' & Hin).
      apply in_map_iff in Hin as (y' & Heq & _).
      apply app_inj_tail in Heq as [-> _]. contradiction.
Qed.

Lemma map_seq_pairs {A : Type} (h : nat -> A) (n s : nat) :
  map h (seq (2 * s) (2 * n)) =
  flat_map (fun i => [h (2 * i)%nat; h (S (2 * i))]) (seq s n).
Proof.
  revert s. induction n as [|n IH]; intros s; [reflexivity|].
  replace (2 * S n)%nat with (S (S (2 * n))) by lia. simpl seq. simpl.
  f_equal. f_equal.
  replace (S (S (s + (s + 0)))) with (2 * S s)%nat by lia.
  apply IH.
Qed.

Lemma even_double (i : nat) : Nat.even (2 * i) = true.
Proof. rewrite Nat.even_mul. reflexivity. Qed.

Lemma even_succ_double (i : nat) : Nat.even (S (2 * i)) = false.
Proof. rewrite Nat.even_succ, Nat.odd_mul. reflexivity. Qed.

Lemma half_double (i : nat) : (2 * i / 2 = i)%nat.
Proof. rewrite Nat.mul_comm. now apply Nat.div_mul. Qed.

Lemma half_succ_double (i : nat) : (S (2 * i) / 2 = i)%nat.
Proof.
  replace (S (2 * i)) with (1 + i * 2)%nat by lia.
  rewrite Nat.div_add by discriminate. reflexivity.
Qed.

(** The enumeration visits the counters 0, 1, ..., 2^r - 1 in this order. *)
Lemma product_repeat_counters (r : nat) :
  product_repeat [-1; 1] r = map (decode_counter r) (seq 0 (2 ^ r)).
Proof.
  induction r as [|r IH]; [reflexivity|].
  cbn [product_repeat]. rewrite IH.
  change (2 ^ S r)%nat with (2 * 2 ^ r)%nat.
  pose proof (map_seq_pairs (decode_counter (S r)) (2 ^ r) 0) as E.
  change (2 * 0)%nat with 0%nat in E. rewrite E. clear E.
  rewrite flat_map_concat_map, map_map, <- flat_map_concat_map.
  apply flat_map_ext. intros i. cbn [decode_counter map].
  rewrite even_double, even_succ_double, half_double, half_succ_double.
  reflexivity.
Qed.

Lemma coeff_combinations_length (d : nat) :
  length (coeff_combinations d) = (2 ^ d)%nat.
Proof.
  unfold coeff_combinations. rewrite length_map, product_repeat_length. reflexivity.
Qed.

Lemma coeff_combinations_NoDup (d : nat) : List.NoDup (coeff_combinations d).
Proof.
  unfold coeff_combinations. apply Finite.Injective_map_NoDup.
  - intros x y Hxy. now injection Hxy.
  - apply product_repeat_NoDup.
    constructor; [simpl; intros [H | []]; discriminate|].
    constructor; [intros [] | constructor].
Qed.

Lemma coeff_combinations_In (d : nat) (v : list Z) :
  In v (coeff_combinations d) <-> is_coefficient_vector d v.
Proof.
  unfold coeff_combinations, is_coefficient_vector. rewrite in_map_iff. split.
  - intros (t & <- & Ht). apply product_repeat_In in Ht as [Hlen Hall].
    exists t. repeat split; [exact Hlen|].
    eapply List.Forall_impl; [|exact Hall]. simpl. intros c [<- | [<- | []]]; auto.
  - intros (t & -> & Hlen & Hall). exists t. split; [reflexivity|].
    apply product_repeat_In. split; [exact Hlen|].
    eapply List.Forall_impl; [|exact Hall]. simpl. intros c [-> | ->]; auto.
Qed.

Lemma coeff_combinations_length_each (d : nat) (v : list Z) :
  In v (coeff_combinations d) -> length v = S d.
Proof.
  intros H. apply coeff_combinations_In in H as (t & -> & Hlen & _).
  simpl. now rewrite Hlen.
Qed.

End EnumeratorFacts.

(** C1.  For every degree d in [1,25] the enumeration of [save_roots]
    returns, without touching the world, exactly 2^d coefficient vectors:
    they are pairwise distinct, each has length d+1, a vector is produced if
    and only if it is 1 followed by d entries taken from -1 and +1, and the
    k-th vector produced is the decoding of the counter k. *)
Theorem enumeration_complete (d : Z) (w : world) :
  1 <= d <= 25 ->
  exists vs,
    coeff_combinations d w = (Returned vs, w) /\
    Z.of_nat (length vs) = 2 ^ d /\
    List.NoDup vs /\
    Forall (fun v => Z.of_nat (length v) = d + 1) vs /\
    (forall v, In v vs <-> Enumerator.is_coefficient_vector (Z.to_nat d) v) /\
    vs = map (fun k => 1 :: Enumerator.decode_counter (Z.to_nat d) k)
             (seq 0 (Z.to_nat (2 ^ d))).
Proof.
  intros Hd. exists (Enumerator.coeff_combinations (Z.to_nat d)).
  assert (Hpow : Z.of_nat (2 ^ Z.to_nat d) = 2 ^ d).
  { rewrite Nat2Z.inj_pow, Z2Nat.id by lia. reflexivity. }
  repeat split.
  - unfold coeff_combinations. destruct (Z.ltb_spec d 0); [lia | reflexivity].
  - rewrite coeff_combinations_length. exact Hpow.
  - apply coeff_combinations_NoDup.
  - apply List.Forall_forall. intros v Hv.
    rewrite (coeff_combinations_length_each _ _ Hv). lia.
  - apply coeff_combinations_In.
  - apply coeff_combinations_In.
  - unfold Enumerator.coeff_combinations.
    rewrite product_repeat_counters, map_map.
    rewrite <- Hpow, Nat2Z.id. reflexivity.
Qed.

Lemma enumeration_complete_witness :
  1 <= 2 <= 25 /\
  exists vs,
    coeff_combinations 2 empty_world = (Returned vs, empty_world) /\
    Z.of_nat (length vs) = 2 ^ 2 /\
    List.NoDup vs /\
    Forall (fun v => Z.of_nat (length v) = 2 + 1) vs /\
    (forall v, In v vs <-> Enumerator.is_coefficient_vector (Z.to_nat 2) v) /\
    vs = map (fun k => 1 :: Enumerator.decode_counter (Z.to_nat 2) k)
             (seq 0 (Z.to_nat (2 ^ 2))).
Proof.
  split; [lia | apply (enumeration_complete 2 empty_world); lia].
Defined.

(** ** Running statements *)

(** Runs a straight-line statement on a world given by its events. *)
Ltac run_statements :=
  repeat (progress (unfold bind, logging, emit, ret, raise, lift, add_events, write_file; cbn));
  rewrite <- ?app_assoc; cbn [app]; try reflexivity.

Lemma add_events_nil (w : world) : add_events w [] = w.
Proof. destruct w. unfold add_events. simpl. now rewrite app_nil_r. Qed.

Lemma write_file_add_events (w : world) (evs : list event) (name : string)
    (content : file_content) :
  write_file (add_events w evs) name content = add_events (write_file w name content) evs.
Proof. reflexivity. Qed.

Lemma add_events_app (w : world) (a b : list event) :
  add_events (add_events w a) b = add_events w (a ++ b).
Proof. unfold add_events. simpl. now rewrite app_assoc. Qed.

Lemma bind_returned {A B : Type} (m : M A) (k : A -> M B) (w w' : world) (a : A) :
  m w = (Returned a, w') -> bind m k w = k a w'.
Proof. intros H. unfold bind. now rewrite H. Qed.

Lemma bind_raised {A B : Type} (m : M A) (k : A -> M B) (w w' : world) (e : exn) :
  m w = (Raised e, w') -> bind m k w = (Raised e, w').
Proof. intros H. unfold bind. now rewrite H. Qed.

Lemma progress_calls_app (a b : list event) :
  progress_calls (a ++ b) = progress_calls a ++ progress_calls b.
Proof. apply omap_app. Qed.

(** [except Exception] with a handler that only logs: the statement returns
    whatever exception of class [Exception] its body raises. *)
Lemma try_except_Exception_returns {A : Type} (body : M A) (handler : exn -> M A) (w : world) :
  (forall e w1, exists a w2, handler e w1 = (Returned a, w2)) ->
  (forall e w1, body w = (Raised e, w1) -> Exception e = true) ->
  exists a w', try_except body Exception handler w = (Returned a, w').
Proof.
  intros Hh Hb. unfold try_except. destruct (body w) as [[a | e] w1].
  - now exists a, w1.
  - rewrite (Hb e w1 eq_refl). apply Hh.
Qed.

(** What leaves [except Exception] as an exception is not of class
    [Exception]. *)
Lemma try_except_Exception_raises {A : Type} (body : M A) (handler : exn -> M A)
    (w w' : world) (e : exn) :
  (forall e w1, exists a w2, handler e w1 = (Returned a, w2)) ->
  try_except body Exception handler w = (Raised e, w') ->
  Exception e = false /\ body w = (Raised e, w').
Proof.
  intros Hh. unfold try_except. destruct (body w) as [[a | e1] w1]; [discriminate|].
  destruct (Exception e1) eqn:E.
  - destruct (Hh e1 w1) as (a & w2 & H). rewrite H. discriminate.
  - intros H. injection H as <- <-. now split.
Qed.

Section CoreFacts.

Variable np_roots : list Z -> result (list complex).

(** [compute_roots] never raises: it yields the batch and one log entry. *)
Lemma compute_roots_run (v : list Z) (w : world) :
  exists lvl msg,
    compute_roots np_roots v w =
    (Returned (roots_batch np_roots v), add_events w [Log lvl msg]).
Proof.
  unfold compute_roots, roots_batch, np.roots, try_except, bind, raise, logging, emit, ret.
  destruct (np_roots v) as [roots | e]; simpl; eauto.
Qed.

Lemma call_passive (cb : callback) (c t : Z) (w : world) :
  passive cb -> exists evs, call cb c t w = (Returned tt, add_events w evs).
Proof.
  intros Hp. destruct cb as [f|]; simpl.
  - now apply Hp.
  - exists []. now rewrite add_events_nil.
Qed.

(** The loop with a passive callback: every vector contributes its batch,
    in order, and only events are added to the world. *)
Lemma imap_loop_run (cb : callback) (total : Z) (todo : list (list Z)) :
  passive cb ->
  forall roots processed w, exists evs,
    imap_loop np_roots cb total todo roots processed w =
    (Returned (roots ++ map (roots_batch np_roots) todo), add_events w evs).
Proof.
  intros Hp. induction todo as [|v todo IH]; intros roots processed w.
  - exists []. simpl. now rewrite app_nil_r, add_events_nil.
  - cbn [imap_loop].
    destruct (compute_roots_run v w) as (lvl & msg & Hc).
    rewrite (bind_returned _ _ _ _ _ Hc).
    destruct (call_passive cb (processed + 1) total (add_events w [Log lvl msg]) Hp)
      as (evs1 & Hcall).
    rewrite (bind_returned _ _ _ _ _ Hcall).
    set (w2 := add_events (add_events w [Log lvl msg]) evs1).
    assert (Hlog : exists evs2,
      (if (processed + 1) mod 10000 =? 0
       then logging INFO "Processed polynomials" else ret tt) w2
      = (Returned tt, add_events w2 evs2)).
    { destruct ((processed + 1) mod 10000 =? 0).
      - now exists [Log INFO "Processed polynomials"].
      - exists []. now rewrite add_events_nil. }
    destruct Hlog as (evs2 & Hlog).
    rewrite (bind_returned _ _ _ _ _ Hlog).
    destruct (IH (roots ++ [roots_batch np_roots v]) (processed + 1)
                 (add_events w2 evs2)) as (evs3 & Hrec).
    rewrite Hrec. subst w2. rewrite !add_events_app.
    eexists. simpl. rewrite <- app_assoc. reflexivity.
Qed.

(** The calls a recording callback receives inside the loop. *)
Lemma imap_loop_progress (total : Z) (todo : list (list Z)) :
  forall roots processed w, exists r evs,
    imap_loop np_roots recording_callback total todo roots processed w =
    (Returned r, add_events w evs) /\
    progress_calls evs =
    map (fun i => (processed + Z.of_nat i, total)) (seq 1 (length todo)).
Proof.
  induction todo as [|v todo IH]; intros roots processed w.
  - exists roots, []. simpl. now rewrite add_events_nil.
  - cbn [imap_loop].
    destruct (compute_roots_run v w) as (lvl & msg & Hc).
    rewrite (bind_returned _ _ _ _ _ Hc).
    unfold recording_callback at 1. cbn [call].
    unfold bind at 1. unfold emit at 1.
    set (w2 := add_events (add_events w [Log lvl msg]) [Progress (processed + 1) total]).
    assert (Hlog : exists evs2,
      (if (processed + 1) mod 10000 =? 0
       then logging INFO "Processed polynomials" else ret tt) w2
      = (Returned tt, add_events w2 evs2) /\ progress_calls evs2 = []).
    { destruct ((processed + 1) mod 10000 =? 0).
      - now exists [Log INFO "Processed polynomials"].
      - exists []. now rewrite add_events_nil. }
    destruct Hlog as (evs2 & Hlog & Hnone).
    rewrite (bind_returned _ _ _ _ _ Hlog).
    destruct (IH (roots ++ [roots_batch np_roots v]) (processed + 1)
                 (add_events w2 evs2)) as (r & evs3 & Hrec & Hcalls).
    rewrite Hrec. subst w2. rewrite !add_events_app.
    eexists _, _. split; [reflexivity|].
    rewrite !progress_calls_app, Hnone, Hcalls. cbn [length seq map].
    simpl progress_calls. rewrite <- (seq_shift (length todo) 1), map_map. simpl. f_equal.
    apply map_ext. intros i. f_equal. lia.
Qed.

End CoreFacts.

Section SaveRootsFacts.

Variable np_roots : list Z -> result (list complex).

Lemma coeff_combinations_run (d : Z) (w : world) :
  0 <= d ->
  coeff_combinations d w = (Returned (Enumerator.coeff_combinations (Z.to_nat d)), w).
Proof.
  intros Hd. unfold coeff_combinations.
  destruct (Z.ltb_spec d 0); [lia | reflexivity].
Qed.

Lemma coeff_combinations_negative (d : Z) (w : world) :
  d < 0 -> coeff_combinations d w = (Raised ValueError, w).
Proof.
  intros Hd. unfold coeff_combinations.
  destruct (Z.ltb_spec d 0); [reflexivity | lia].
Qed.

Lemma coeff_combinations_nonempty (d : nat) :
  exists v vs, Enumerator.coeff_combinations d = v :: vs.
Proof.
  pose proof (coeff_combinations_length d) as Hlen.
  destruct (Enumerator.coeff_combinations d) as [|v vs]; [|eauto].
  simpl in Hlen. pose proof (Nat.pow_nonzero 2 d). lia.
Qed.

Lemma concatenate_batches (d : nat) :
  np.concatenate (map (roots_batch np_roots) (Enumerator.coeff_combinations d))
  = Returned (root_collection np_roots d).
Proof.
  unfold root_collection.
  destruct (coeff_combinations_nonempty d) as (v & vs & ->). reflexivity.
Qed.

Lemma save_roots_run (d : Z) (datafile : string) (cb : callback) (w : world) :
  passive cb -> 0 <= d ->
  exists evs,
    save_roots np_roots d datafile cb w = (Returned tt, saved np_roots d datafile w evs).
Proof.
  intros Hp Hd. unfold save_roots, try_except.
  unfold bind at 1. unfold logging at 1, emit at 1.
  unfold bind at 1. rewrite coeff_combinations_run by exact Hd.
  destruct (imap_loop_run np_roots cb (2 ^ d)
              (Enumerator.coeff_combinations (Z.to_nat d)) Hp [] 0
              (add_events w [Log INFO "Starting to save roots"])) as (evs & Hloop).
  rewrite (bind_returned _ _ _ _ _ Hloop). cbn [app].
  unfold bind at 1, lift at 1. rewrite concatenate_batches.
  unfold bind, np.save, logging, emit, saved. rewrite add_events_app. cbn [writable add_events].
  destruct (writable w (np.npy_name datafile)).
  - eexists. unfold add_events. cbn. rewrite <- app_assoc. reflexivity.
  - eexists. cbn. rewrite !add_events_app. reflexivity.
Qed.

Lemma root_collection_length (d : nat) :
  counts_roots np_roots -> all_solves_succeed np_roots d ->
  length (root_collection np_roots d) = (d * 2 ^ d)%nat.
Proof.
  intros Hc Hs. unfold root_collection.
  rewrite <- flat_map_concat_map.
  rewrite flat_map_constant_length with (c := d).
  - rewrite coeff_combinations_length. lia.
  - intros v Hv. unfold roots_batch.
    destruct (Hs v Hv) as (roots & Hr). rewrite Hr.
    apply coeff_combinations_In in Hv as (t & -> & Hlen & Hall).
    rewrite (Hc _ _ Hr).
    + simpl. lia.
    + simpl. discriminate.
    + assert (Hin : In (List.last (1 :: t) 0) (1 :: t)).
      { destruct (exists_last (l := 1 :: t)) as (x & y & Hxy); [discriminate|].
        rewrite Hxy, last_last. apply in_or_app. right. now left. }
      destruct Hin as [<- | Hin]; [discriminate|].
      rewrite List.Forall_forall in Hall. destruct (Hall _ Hin) as [-> | ->]; discriminate.
Qed.

End SaveRootsFacts.

(** C2.  For every degree d in [1,25], when every root computation of the
    degree succeeds (and [np.roots] returns one root less than it is given
    coefficients), the collection [save_roots] writes has d * 2^d entries;
    for degree 2 that is 8. *)
Theorem root_collection_size (np_roots : list Z -> result (list complex))
    (d : Z) (datafile : string) (cb : callback) (w : world) :
  counts_roots np_roots ->
  passive cb ->
  1 <= d <= 25 ->
  all_solves_succeed np_roots (Z.to_nat d) ->
  writable w (np.npy_name datafile) = true ->
  exists C,
    files (snd (save_roots np_roots d datafile cb w)) !! np.npy_name datafile
    = Some (NpyArray C) /\
    Z.of_nat (length C) = d * 2 ^ d /\
    (d = 2 -> length C = 8%nat).
Proof.
  intros Hc Hp Hd Hs Hw.
  destruct (save_roots_run np_roots d datafile cb w Hp) as (evs & Hrun); [lia|].
  rewrite Hrun. unfold saved. rewrite Hw. cbn [snd files].
  exists (root_collection np_roots (Z.to_nat d)).
  pose proof (root_collection_length np_roots (Z.to_nat d) Hc Hs) as Hlen.
  repeat split.
  - apply lookup_insert_eq.
  - rewrite Hlen, Nat2Z.inj_mul, Nat2Z.inj_pow, Z2Nat.id by lia. reflexivity.
  - intros ->. rewrite Hlen. reflexivity.
Qed.

Lemma small_solver_counts_roots : counts_roots small_solver.
Proof.
  intros p roots H _ _. unfold small_solver in H.
  repeat match type of H with
         | context [match ?x with _ => _ end] => destruct x
         end; try discriminate; injection H as <-; reflexivity.
Qed.

Lemma small_solver_succeeds_2 : all_solves_succeed small_solver 2.
Proof.
  intros v Hv. cbn in Hv.
  repeat destruct Hv as [<- | Hv]; try (eexists; reflexivity). destruct Hv.
Qed.

Lemma None_passive : passive None.
Proof. intros f H. discriminate. Qed.

Lemma recording_callback_passive : passive recording_callback.
Proof.
  intros f H c t w. injection H as <-. now exists [Progress c t].
Qed.

Lemma root_collection_size_witness :
  exists C,
    files (snd (save_roots small_solver 2 "roots_degree_2.npy" None empty_world))
      !! np.npy_name "roots_degree_2.npy"
    = Some (NpyArray C) /\
    Z.of_nat (length C) = 2 * 2 ^ 2 /\
    (2 = 2 -> length C = 8%nat).
Proof.
  apply (root_collection_size small_solver 2 "roots_degree_2.npy" None empty_world).
  - exact small_solver_counts_roots.
  - exact None_passive.
  - lia.
  - exact small_solver_succeeds_2.
  - reflexivity.
Defined.

(** ** Persistence *)

Lemma substring_whole (s : string) : substring 0 (String.length s) s = s.
Proof. induction s as [|c s IH]; simpl; [reflexivity | now rewrite IH]. Qed.

Lemma substring_app_skip (a s : string) :
  substring (String.length a) (String.length s) (a ++ s) = s.
Proof.
  induction a as [|c a IH]; simpl; [apply substring_whole | exact IH].
Qed.

Lemma string_length_app (a s : string) :
  String.length (a ++ s) = (String.length a + String.length s)%nat.
Proof. induction a as [|c a IH]; simpl; [reflexivity | now rewrite IH]. Qed.

Lemma endswith_app (a s : string) : np.endswith (a ++ s) s = true.
Proof.
  unfold np.endswith. rewrite string_length_app.
  replace (String.length a + String.length s - String.length s)%nat
    with (String.length a) by lia.
  rewrite substring_app_skip, String.eqb_refl, andb_true_r.
  apply Nat.leb_le. lia.
Qed.

(** The names the program uses already end with [.npy]: saving and loading
    address the same file. *)
Lemma npy_name_roots_file (degree : Z) : np.npy_name (roots_file degree) = roots_file degree.
Proof.
  unfold np.npy_name, roots_file.
  change ("roots_degree_" ++ str degree ++ ".npy")%string
    with ("roots_degree_" ++ (str degree ++ ".npy"))%string.
  replace ("roots_degree_" ++ (str degree ++ ".npy"))%string
    with (("roots_degree_" ++ str degree) ++ ".npy")%string.
  - now rewrite endswith_app.
  - reflexivity.
Qed.

Lemma close_refl (a : complex) : close a a.
Proof.
  assert (H : forall q : Q, (Qabs (q - q) <= 0.000001)%Q).
  { intros q. assert (E : (q - q == 0)%Q) by ring. rewrite E. discriminate. }
  split; apply H.
Qed.

Lemma Forall2_close_refl (C : list complex) : Forall2 close C C.
Proof. induction C; constructor; [apply close_refl | assumption]. Qed.

(** What [save_roots] wrote is what [np.load] reads under the [.npy] name
    of the data file; the files are touched by no other statement. *)
Lemma save_roots_then_load (np_roots : list Z -> result (list complex))
    (d : Z) (datafile : string) (cb : callback) (w : world) :
  passive cb -> 0 <= d -> writable w (np.npy_name datafile) = true ->
  let w' := snd (save_roots np_roots d datafile cb w) in
  files w' !! np.npy_name datafile
  = Some (NpyArray (root_collection np_roots (Z.to_nat d))) /\
  fits w' = fits w /\
  np.load (np.npy_name datafile) w'
  = (Returned (root_collection np_roots (Z.to_nat d)), w').
Proof.
  intros Hp Hd Hw.
  destruct (save_roots_run np_roots d datafile cb w Hp Hd) as (evs & Hrun).
  rewrite Hrun. unfold saved. rewrite Hw. cbn [snd].
  assert (Hfile : files (add_events
                           (write_file w (np.npy_name datafile)
                              (NpyArray (root_collection np_roots (Z.to_nat d)))) evs)
                  !! np.npy_name datafile
                  = Some (NpyArray (root_collection np_roots (Z.to_nat d)))).
  { cbn [files add_events write_file]. apply lookup_insert_eq. }
  split; [exact Hfile|]. split; [reflexivity|].
  unfold np.load. now rewrite Hfile.
Qed.

(** ** The histogram *)

Section HistogramFacts.

Lemma linspace_app (a b : float) (n : nat) :
  exists init, np.linspace a b n = init ++ [double b] /\ length init = n.
Proof.
  unfold np.linspace. cbv zeta. eexists. split; [reflexivity|].
  now rewrite length_map, length_seq.
Qed.

Lemma linspace_length (a b : float) (n : nat) : length (np.linspace a b n) = S n.
Proof.
  destruct (linspace_app a b n) as (init & -> & Hlen).
  rewrite length_app, Hlen. simpl. lia.
Qed.

Lemma searchsorted_right_le (a : list Q) (v : Q) :
  (np.searchsorted_right a v <= length a)%nat.
Proof. induction a as [|e a IH]; simpl; [lia|]. destruct (Qle_bool e v); lia. Qed.

Lemma bin_number_le (edges : list Q) (v : Q) :
  (np.bin_number edges v <= length edges)%nat.
Proof.
  unfold np.bin_number. pose proof (searchsorted_right_le edges v).
  destruct (Qeq_bool v (List.last edges 0%Q)); lia.
Qed.

Lemma removelast_map_seq {A : Type} (g : nat -> A) (s n : nat) :
  removelast (map g (seq s (S n))) = map g (seq s n).
Proof. rewrite seq_S, map_app. simpl. apply removelast_last. Qed.

Lemma core_map_seq {A : Type} (g : nat -> A) (n : nat) :
  np.core (map g (seq 0 (S (S n)))) = map g (seq 1 n).
Proof. unfold np.core. simpl tl. apply removelast_map_seq. Qed.

Lemma map_seq_from {A : Type} (g : nat -> A) (s n : nat) :
  map g (seq s n) = map (fun j => g (s + j)%nat) (seq 0 n).
Proof.
  induction n as [|n IH]; [reflexivity|].
  rewrite !seq_S, !map_app, IH. reflexivity.
Qed.

Lemma rows_of_map_seq (g : nat -> nat) (rows cols s : nat) :
  np.rows_of (map g (seq s (rows * cols))) rows cols =
  map (fun i => map (fun j => g (s + i * cols + j)%nat) (seq 0 cols)) (seq 0 rows).
Proof.
  revert s. induction rows as [|r IH]; intros s; [reflexivity|].
  cbn [np.rows_of]. replace (S r * cols)%nat with (cols + r * cols)%nat by lia.
  rewrite seq_app, map_app.
  rewrite firstn_app, skipn_app, length_map, length_seq, Nat.sub_diag.
  rewrite firstn_all2 by (rewrite length_map, length_seq; lia).
  rewrite skipn_all2 by (rewrite length_map, length_seq; lia).
  rewrite firstn_O, skipn_O, app_nil_r. cbn [app].
  rewrite IH. cbn [seq map]. f_equal.
  - rewrite map_seq_from. apply map_ext. intros j. f_equal. lia.
  - rewrite <- seq_shift, map_map. apply map_ext. intros i.
    apply map_ext. intros j. f_equal. lia.
Qed.

Lemma bincount_in_range (xs : list nat) (m : nat) :
  Forall (fun k => (k < m)%nat) xs ->
  np.bincount xs m = map (fun k => count_occ Nat.eq_dec xs k) (seq 0 m).
Proof.
  intros Hall. unfold np.bincount. destruct xs as [|x xs]; [reflexivity|].
  replace (Nat.max m (S (list_max (x :: xs)))) with m; [reflexivity|].
  assert (list_max (x :: xs) < m)%nat; [|lia].
  apply list_max_lt; [discriminate | exact Hall].
Qed.

(** The flat index of a point: its two bin numbers, row-major over
    [n + 2] bins an axis. *)
Lemma flat_index_bound (n : nat) (c : complex) :
  (np.ravel_multi_index
     (np.bin_number (np.linspace X_MIN X_MAX n) (real c))
     (np.bin_number (np.linspace Y_MIN Y_MAX n) (imag c)) (S (S n))
   < S (S n) * S (S n))%nat.
Proof.
  pose proof (bin_number_le (np.linspace X_MIN X_MAX n) (real c)) as Hx.
  pose proof (bin_number_le (np.linspace Y_MIN Y_MAX n) (imag c)) as Hy.
  rewrite linspace_length in Hx, Hy. unfold np.ravel_multi_index. nia.
Qed.

Lemma flat_indices_bound (n : nat) (f : list complex) :
  Forall (fun k => (k < S (S n) * S (S n))%nat) (flat_indices n f).
Proof.
  unfold flat_indices. induction f as [|c f IH]; simpl; constructor.
  - apply flat_index_bound.
  - exact IH.
Qed.

Lemma count_flat_index (n : nat) (f : list complex) (i j : nat) :
  (j < n)%nat ->
  count_occ Nat.eq_dec (flat_indices n f) (S i * S (S n) + S j)%nat
  = cell_count n f i j.
Proof.
  intros Hj. unfold flat_indices, cell_count.
  induction f as [|c f IH]; [reflexivity|].
  cbn [map combine fst snd count_occ List.filter]. rewrite IH. clear IH.
  pose proof (bin_number_le (np.linspace Y_MIN Y_MAX n) (imag c)) as Hy.
  rewrite linspace_length in Hy.
  unfold falls_in, np.ravel_multi_index.
  set (ix := np.bin_number (np.linspace X_MIN X_MAX n) (real c)) in *.
  set (iy := np.bin_number (np.linspace Y_MIN Y_MAX n) (imag c)) in *.
  clearbody ix iy.
  destruct (Nat.eq_dec (ix * S (S n) + iy)%nat (S i * S (S n) + S j)%nat) as [E | E].
  - assert (ix = S i).
    { destruct (Nat.lt_trichotomy ix (S i)) as [H | [H | H]]; [|exact H|].
      - assert (S ix * S (S n) <= S i * S (S n))%nat by (apply Nat.mul_le_mono_r; lia).
        lia.
      - assert (S (S i) * S (S n) <= ix * S (S n))%nat by (apply Nat.mul_le_mono_r; lia).
        lia. }
    subst ix. assert (iy = S j) as -> by lia.
    rewrite !Nat.eqb_refl. reflexivity.
  - destruct (Nat.eqb_spec ix (S i)) as [-> |]; [|reflexivity].
    destruct (Nat.eqb_spec iy (S j)) as [-> |]; [|reflexivity].
    contradiction.
Qed.

(** The grid [np.histogram2d] assembles from the flat counts is the grid
    of the cell counts. *)
Lemma histogram_assembled (n : nat) (f : list complex) :
  map np.core
    (np.core
       (np.rows_of
          (map (fun k => count_occ Nat.eq_dec (flat_indices n f) k)
             (seq 0 (S (S n) * S (S n))))
          (S (S n)) (S (S n))))
  = histogram n f.
Proof.
  rewrite (rows_of_map_seq _ (S (S n)) (S (S n)) 0).
  rewrite core_map_seq, map_map. unfold histogram.
  rewrite <- seq_shift, map_map. apply map_ext_in. intros i _.
  rewrite core_map_seq. rewrite <- seq_shift, map_map.
  apply map_ext_in. intros j Hj. apply in_seq in Hj.
  rewrite <- (count_flat_index n f i j) by lia. f_equal.
Qed.

(** [np.histogram2d] on the window, for a positive number of bins that the
    memory takes: the grid of the cell counts, [bins] rows of [bins]
    cells, and the edges of the two axes. *)
Lemma histogram2d_run (f : list complex) (bins : Z) (w : world) :
  1 <= bins -> fits w bins = true ->
  np.histogram2d (map real f) (map imag f) bins X_MIN X_MAX Y_MIN Y_MAX w
  = (Returned (histogram (Z.to_nat bins) f,
               np.linspace X_MIN X_MAX (Z.to_nat bins),
               np.linspace Y_MIN Y_MAX (Z.to_nat bins)), w).
Proof.
  intros Hb Hfits. unfold np.histogram2d.
  rewrite !length_map, Nat.eqb_refl, Hfits. cbn [negb].
  destruct (Z.ltb_spec bins 1); [lia|].
  set (n := Z.to_nat bins). rewrite !linspace_length.
  fold (flat_indices n f).
  rewrite bincount_in_range by apply flat_indices_bound.
  unfold np.reshape. rewrite length_map, length_seq, Nat.eqb_refl.
  now rewrite histogram_assembled.
Qed.

(** In every other case [np.histogram2d] raises an exception of class
    [Exception] and leaves the world as it was. *)
Lemma histogram2d_refuses (x y : list Q) (bins : Z) (w : world) :
  bins < 1 \/ fits w bins = false ->
  exists e,
    np.histogram2d x y bins X_MIN X_MAX Y_MIN Y_MAX w = (Raised e, w) /\
    Exception e = true.
Proof.
  intros Hbad. unfold np.histogram2d.
  destruct (negb (length x =? length y)%nat); [now exists ValueError|].
  destruct (Z.ltb_spec bins 1); [now exists ValueError|].
  destruct Hbad as [Hb | Hf]; [lia|]. rewrite Hf. now exists MemoryError.
Qed.








(** *** Bin numbers and the window *)

Lemma searchsorted_right_all (a : list Q) (v : Q) :
  Forall (fun e => (e <= v)%Q) a -> np.searchsorted_right a v = length a.
Proof.
  induction 1 as [|e a He _ IH]; simpl; [reflexivity|].
  apply Qle_bool_iff in He. now rewrite He, IH.
Qed.

Lemma searchsorted_right_stops (a : list Q) (b v : Q) :
  (v < b)%Q -> (np.searchsorted_right (a ++ [b]) v <= length a)%nat.
Proof.
  intros Hv. induction a as [|e a IH]; simpl.
  - destruct (Qle_bool b v) eqn:E; [|lia].
    apply Qle_bool_iff in E. exfalso. exact (Qlt_not_le _ _ Hv E).
  - destruct (Qle_bool e v); lia.
Qed.

Lemma linspace_last (a b : float) (n : nat) :
  List.last (np.linspace a b n) 0%Q = double b.
Proof. destruct (linspace_app a b n) as (init & -> & _). apply last_last. Qed.

Lemma linspace_nth_last (a b : float) (n : nat) :
  nth n (np.linspace a b n) 0%Q = double b.
Proof.
  destruct (linspace_app a b n) as (init & -> & Hlen).
  rewrite app_nth2 by lia. now rewrite Hlen, Nat.sub_diag.
Qed.

(** With the edges in order none of them is above the last one. *)
Lemma linspace_le_stop (a b : float) (n : nat) :
  edges_in_order a b n -> Forall (fun e => (e <= double b)%Q) (np.linspace a b n).
Proof.
  intros [_ Hsorted]. apply List.Forall_forall. intros e He.
  apply (In_nth _ _ 0%Q) in He as (i & Hi & <-).
  rewrite <- (linspace_nth_last a b n). apply Hsorted.
  rewrite linspace_length in *. lia.
Qed.

Lemma linspace_first (a b : float) (n : nat) :
  edges_in_order a b n ->
  exists e rest, np.linspace a b n = e :: rest /\ (e == double a)%Q.
Proof.
  intros [Hfirst _]. pose proof (linspace_length a b n) as Hlen.
  destruct (np.linspace a b n) as [|e rest]; [discriminate|].
  now exists e, rest.
Qed.

Lemma endpoints_in_order (a b : float) (n : nat) :
  edges_in_order a b n -> (double a <= double b)%Q.
Proof.
  intros [Hfirst Hsorted]. rewrite <- Hfirst, <- (linspace_nth_last a b n).
  apply Hsorted. rewrite linspace_length. lia.
Qed.

(** A coordinate is counted exactly when it lies between the first and the
    last edge, both included. *)
Lemma bin_number_inside (a b : float) (n : nat) (v : Q) :
  edges_in_order a b n -> (1 <= n)%nat ->
  let k := np.bin_number (np.linspace a b n) v in
  (1 <= k <= n)%nat <-> (double a <= v <= double b)%Q.
Proof.
  intros Hord Hn k. subst k. unfold np.bin_number. rewrite linspace_last.
  pose proof (searchsorted_right_le (np.linspace a b n) v) as Hle.
  pose proof (linspace_le_stop a b n Hord) as Hall.
  pose proof (endpoints_in_order a b n Hord) as Hab.
  rewrite linspace_length in Hle.
  destruct (linspace_first a b n Hord) as (e & rest & Hlin & He).
  assert (Hfirst : (1 <= np.searchsorted_right (np.linspace a b n) v)%nat
                   <-> (double a <= v)%Q).
  { rewrite Hlin. simpl. destruct (Qle_bool e v) eqn:E.
    - apply Qle_bool_iff in E. rewrite He in E. split; [easy | lia].
    - split; [lia|]. intros Hav. rewrite <- He in Hav.
      apply Qle_bool_iff in Hav. congruence. }
  assert (Hfull : (double b <= v)%Q ->
                  np.searchsorted_right (np.linspace a b n) v = S n).
  { intros Hbv. rewrite searchsorted_right_all, linspace_length; [reflexivity|].
    eapply List.Forall_impl; [|exact Hall]. intros x Hx. cbv beta in Hx.
    now apply Qle_trans with (double b). }
  destruct (Qeq_bool v (double b)) eqn:Eq.
  - apply Qeq_bool_iff in Eq.
    rewrite Hfull by (rewrite Eq; apply Qle_refl). split.
    + intros _. rewrite Eq. split; [exact Hab | apply Qle_refl].
    + intros _. lia.
  - assert (Hne : ~ (v == double b)%Q).
    { intros E. apply Qeq_bool_iff in E. congruence. }
    split.
    + intros [H1 H2]. split; [now apply Hfirst|].
      apply Qnot_lt_le. intros Hbv.
      rewrite Hfull in H2 by now apply Qlt_le_weak. lia.
    + intros [H1 H2]. split; [now apply Hfirst|].
      assert (Hlt : (v < double b)%Q).
      { apply Qle_lteq in H2 as [H2 | H2]; [exact H2 | contradiction]. }
      destruct (linspace_app a b n) as (init & -> & Hinit).
      etransitivity; [apply searchsorted_right_stops; exact Hlt|]. lia.
Qed.

Lemma in_grid_window (n : nat) (c : complex) :
  grid_in_order n -> (1 <= n)%nat -> in_grid n c = in_window c.
Proof.
  intros [Hx Hy] Hn.
  pose proof (bin_number_inside X_MIN X_MAX n (real c) Hx Hn) as Bx.
  pose proof (bin_number_inside Y_MIN Y_MAX n (imag c) Hy Hn) as By.
  cbv zeta in Bx, By. unfold in_grid, in_window.
  apply eq_true_iff_eq.
  rewrite !andb_true_iff, !Nat.leb_le, !Qle_bool_iff. tauto.
Qed.



(** The check by computation is sound. *)
Lemma ascending_nondecreasing (edges : list Q) :
  ascending edges = true -> nondecreasing edges.
Proof.
  induction edges as [|a edges IH]; intros H i j Hij; [simpl in Hij; lia|].
  assert (Htail : ascending edges = true).
  { destruct edges as [|b rest]; [reflexivity|].
    cbn [ascending] in H. now apply andb_true_iff in H. }
  assert (Hhead : forall k, (k < length edges)%nat -> (a <= nth k edges 0)%Q).
  { intros k Hk. destruct edges as [|b rest]; [simpl in Hk; lia|].
    cbn [ascending] in H. apply andb_true_iff in H as [Hab _].
    apply Qle_bool_iff in Hab. apply Qle_trans with b; [exact Hab|].
    apply (IH Htail O k). simpl in *. lia. }
  destruct i as [|i], j as [|j]; cbn [nth]; cbn [length] in Hij.
  - apply Qle_refl.
  - apply Hhead. lia.
  - lia.
  - apply (IH Htail i j). lia.
Qed.

Lemma edges_in_order_checked (start stop : float) (n : nat) :
  edges_in_order_check start stop n = true -> edges_in_order start stop n.
Proof.
  unfold edges_in_order_check, edges_in_order. intros H.
  apply andb_true_iff in H as [Hfirst Hsorted]. split.
  - now apply Qeq_bool_iff.
  - now apply ascending_nondecreasing.
Qed.

End HistogramFacts.

(** The edges of the window are in order for the size of the repository's
    test, 100, and for the size the frame proposes, 800. *)
Lemma grid_in_order_100 : grid_in_order 100.
Proof. split; apply edges_in_order_checked; vm_compute; reflexivity. Qed.

Lemma grid_in_order_800 : grid_in_order 800.
Proof. split; apply edges_in_order_checked; vm_compute; reflexivity. Qed.

(** *** The cells of the grid *)

Section CellFacts.

Lemma nondecreasing_tail (e : Q) (edges : list Q) :
  nondecreasing (e :: edges) ->
  nondecreasing edges /\ forall j, (j < length edges)%nat -> (e <= nth j edges 0)%Q.
Proof.
  intros H. split.
  - intros i j Hij. apply (H (S i) (S j)). simpl. lia.
  - intros j Hj. apply (H O (S j)). simpl. lia.
Qed.

(** The search returns [k] exactly when edge [k - 1] is the last one that
    is not above [v]. *)
Lemma searchsorted_right_spec (edges : list Q) (v : Q) (k : nat) :
  nondecreasing edges -> (k <= length edges)%nat ->
  np.searchsorted_right edges v = k <->
  (k = O \/ (nth (k - 1) edges 0 <= v)%Q) /\
  (k = length edges \/ (v < nth k edges 0)%Q).
Proof.
  revert k. induction edges as [|e edges IH]; intros k Hsorted Hk.
  - simpl in *. assert (k = O) by lia. subst k. split; auto.
  - apply nondecreasing_tail in Hsorted as [Htail Hhead].
    cbn [np.searchsorted_right length]. destruct (Qle_bool e v) eqn:E.
    + apply Qle_bool_iff in E. destruct k as [|k].
      * split; [discriminate|]. intros [_ [H | H]]; [discriminate|].
        simpl in H. exfalso. exact (Qlt_not_le _ _ H E).
      * cbn [length] in Hk. rewrite Nat.succ_inj_wd, (IH k Htail) by lia.
        cbn [nth]. rewrite Nat.sub_succ, Nat.sub_0_r.
        assert (Hk' : (nth k (e :: edges) 0 <= v)%Q <->
                      (k = O \/ (nth (k - 1) edges 0 <= v)%Q)).
        { destruct k as [|k]; cbn [nth].
          - split; auto.
          - rewrite Nat.sub_succ, Nat.sub_0_r. split; [auto|].
            intros [H | H]; [discriminate | exact H]. }
        rewrite <- Hk'. split.
        -- intros [H1 [H2 | H2]]; split; auto.
        -- intros [[H1 | H1] [H2 | H2]]; try discriminate; split; auto.
    + assert (Hev : (v < e)%Q).
      { apply Qnot_le_lt. intros H. apply Qle_bool_iff in H. congruence. }
      split.
      * intros <-. split; [now left | now right].
      * intros [[-> | H1] _]; [reflexivity|]. exfalso.
        destruct k as [|k]; [|cbn [length] in Hk].
        -- simpl in H1. exact (Qlt_not_le _ _ Hev H1).
        -- rewrite Nat.sub_succ, Nat.sub_0_r in H1.
           destruct k as [|k]; cbn [nth] in H1.
           ++ exact (Qlt_not_le _ _ Hev H1).
           ++ apply (Qlt_not_le _ _ Hev). eapply Qle_trans; [|exact H1].
              apply Hhead. lia.
Qed.

(** A coordinate has bin number [i + 1] exactly when it lies in bin [i]. *)
Lemma bin_number_cell (a b : float) (n i : nat) (v : Q) :
  edges_in_order a b n -> (i < n)%nat ->
  np.bin_number (np.linspace a b n) v = S i <-> in_bin a b n i v.
Proof.
  intros Hord Hi. pose proof Hord as [_ Hsorted].
  unfold np.bin_number, in_bin, edge. rewrite linspace_last.
  assert (Hle_stop : forall k, (k <= n)%nat ->
                               (nth k (np.linspace a b n) 0 <= double b)%Q).
  { intros k Hk. rewrite <- (linspace_nth_last a b n). apply Hsorted.
    rewrite linspace_length. lia. }
  destruct (Qeq_bool v (double b)) eqn:Eq.
  - apply Qeq_bool_iff in Eq.
    rewrite searchsorted_right_all, linspace_length.
    2:{ pose proof (linspace_le_stop a b n Hord) as Hall.
        eapply List.Forall_impl; [|exact Hall]. intros x Hx. cbv beta in Hx.
        rewrite Eq. exact Hx. }
    cbn [Nat.sub]. rewrite Nat.sub_0_r. split.
    + intros <-. split.
      * rewrite Eq. apply Hle_stop. lia.
      * right. split; [reflexivity | exact Eq].
    + intros [_ [H | [H _]]]; [|now symmetry]. exfalso.
      apply (Qlt_not_le _ _ H). rewrite Eq. apply Hle_stop. lia.
  - assert (Hne : ~ (v == double b)%Q).
    { intros E. apply Qeq_bool_iff in E. congruence. }
    rewrite (searchsorted_right_spec _ v (S i) Hsorted)
      by (rewrite linspace_length; lia).
    rewrite linspace_length, Nat.sub_succ, Nat.sub_0_r.
    split.
    + intros [[H1 | H1] [H2 | H2]]; try discriminate; try lia. split; auto.
    + intros [H1 [H2 | [_ H2]]]; [|contradiction]. split; auto.
Qed.

(** The cell of row [i] and column [j] is the box of bin [i] of the real
    axis and bin [j] of the imaginary axis. *)
Lemma falls_in_cell (n i j : nat) (c : complex) :
  grid_in_order n -> (i < n)%nat -> (j < n)%nat ->
  falls_in n i j c = true <->
  in_bin X_MIN X_MAX n i (real c) /\ in_bin Y_MIN Y_MAX n j (imag c).
Proof.
  intros [Hx Hy] Hi Hj. unfold falls_in.
  rewrite andb_true_iff, !Nat.eqb_eq.
  rewrite (bin_number_cell X_MIN X_MAX n i) by assumption.
  rewrite (bin_number_cell Y_MIN Y_MAX n j) by assumption.
  reflexivity.
Qed.

End CellFacts.

(** ** [heat_map] *)

Section HeatMapFacts.

(** With a readable file, a positive size and the memory for it the [try]
    block runs to its end: the value is the log transform of the grid of
    cell counts. *)
Lemma heat_map_run (size : Z) (datafile : string) (cb : callback) (f : list complex)
    (w : world) :
  files w !! datafile = Some (NpyArray f) -> 1 <= size -> fits w size = true ->
  passive cb ->
  exists evs,
    heat_map size datafile cb w
    = (Returned (np.log_plus_1 (histogram (Z.to_nat size) f)), add_events w evs).
Proof.
  intros Hf Hs Hfits Hp. unfold heat_map, try_except.
  unfold bind at 1, logging at 1, emit at 1.
  unfold bind at 1, np.load at 1. cbn [files add_events]. rewrite Hf.
  unfold bind at 1. rewrite histogram2d_run by assumption.
  destruct (call_passive cb size size (add_events w [Log INFO "Starting heatmap generation"]) Hp)
    as (evs & Hcall).
  rewrite (bind_returned _ _ _ _ _ Hcall).
  unfold bind, logging, emit, ret. rewrite !add_events_app. eauto.
Qed.

(** Without a readable file, with a size below 1 or without the memory for
    the size, the [except] branch answers: the empty array, whatever the
    callback is. *)
Lemma heat_map_fails (size : Z) (datafile : string) (cb : callback) (w : world) :
  (forall f, files w !! datafile = Some (NpyArray f) ->
             size < 1 \/ fits w size = false) ->
  heat_map size datafile cb w
  = (Returned [], add_events w [Log INFO "Starting heatmap generation";
                               Log ERROR "Error in heat_map"]).
Proof.
  intros Hbad. unfold heat_map, try_except.
  unfold bind at 1, logging at 1, emit at 1.
  unfold bind at 1, np.load at 1. cbn [files add_events].
  destruct (files w !! datafile) as [[f|]|] eqn:Hf.
  - specialize (Hbad f eq_refl).
    unfold bind at 1.
    destruct (histogram2d_refuses (map real f) (map imag f) size
                (add_events w [Log INFO "Starting heatmap generation"]) Hbad)
      as (e & -> & ->).
    unfold bind, logging, emit, ret. rewrite !add_events_app. reflexivity.
  - unfold bind, logging, emit, ret. rewrite !add_events_app. reflexivity.
  - unfold bind, logging, emit, ret. rewrite !add_events_app. reflexivity.
Qed.

Lemma histogram_shape (n : nat) (f : list complex) :
  length (histogram n f) = n /\ Forall (fun row => length row = n) (histogram n f).
Proof.
  unfold histogram. split.
  - now rewrite length_map, length_seq.
  - apply List.Forall_forall. intros row Hrow.
    apply in_map_iff in Hrow as (i & <- & _). now rewrite length_map, length_seq.
Qed.

Lemma histogram_nth (n : nat) (f : list complex) (i j : nat) :
  (i < n)%nat -> (j < n)%nat ->
  nth j (nth i (histogram n f) []) O = cell_count n f i j.
Proof.
  intros Hi Hj. unfold histogram.
  rewrite (nth_indep _ [] (map (fun j => cell_count n f 0 j) (seq 0 n)))
    by now rewrite length_map, length_seq.
  rewrite (map_nth (fun i => map (fun j => cell_count n f i j) (seq 0 n))), seq_nth by exact Hi.
  rewrite (nth_indep _ O (cell_count n f (0 + i) 0)) by now rewrite length_map, length_seq.
  rewrite (map_nth (fun j => cell_count n f (0 + i) j)), seq_nth by exact Hj.
  reflexivity.
Qed.

Lemma falls_in_grid (n i j : nat) (c : complex) :
  (i < n)%nat -> (j < n)%nat -> falls_in n i j c = true -> in_grid n c = true.
Proof.
  unfold falls_in, in_grid. intros Hi Hj H.
  apply andb_true_iff in H as [Hx Hy]. apply Nat.eqb_eq in Hx, Hy.
  rewrite Hx, Hy. rewrite !andb_true_iff, !Nat.leb_le. lia.
Qed.

(** The cells of the transformed grid, one by one. *)
Lemma log_grid_nth (n : nat) (f : list complex) (i j : nat) :
  (i < n)%nat -> (j < n)%nat ->
  nth j (nth i (np.log_plus_1 (histogram n f)) []) 0%R
  = ln (INR (cell_count n f i j) + 1).
Proof.
  intros Hi Hj. destruct (histogram_shape n f) as [Hlen Hrows].
  unfold np.log_plus_1.
  rewrite <- (histogram_nth n f i j Hi Hj).
  rewrite (nth_indep _ [] (map (fun c => ln (INR c + 1)) []))
    by now rewrite length_map, Hlen.
  rewrite (map_nth (map (fun c => ln (INR c + 1)))).
  assert (Hrow : length (nth i (histogram n f) []) = n).
  { rewrite List.Forall_forall in Hrows. apply Hrows, nth_In. now rewrite Hlen. }
  rewrite (nth_indep _ 0%R (ln (INR 0 + 1))) by now rewrite length_map, Hrow.
  now rewrite (map_nth (fun c => ln (INR c + 1))).
Qed.

End HeatMapFacts.

(** C3.  The collection C that [save_roots] computes and hands to
    [np.save] is the array [np.load] reads in [heat_map] under the name the
    file got: the same complex numbers in the same order, so each real and
    each imaginary part is preserved exactly, hence to within 1e-6, and
    what [heat_map] bins and returns is the histogram of the parts of C.
    This holds for every collection, the non-empty ones among them. *)
Theorem save_load_round_trip (np_roots : list Z -> result (list complex))
    (d size : Z) (datafile : string) (cb1 cb2 : callback) (w : world)
    (C : list complex) :
  root_collection np_roots (Z.to_nat d) = C ->
  passive cb1 ->
  passive cb2 ->
  0 <= d ->
  writable w (np.npy_name datafile) = true ->
  1 <= size ->
  fits w size = true ->
  let w' := snd (save_roots np_roots d datafile cb1 w) in
  exists C',
    np.load (np.npy_name datafile) w' = (Returned C', w') /\
    C' = C /\
    Forall2 close C C' /\
    map real C' = map real C /\ map imag C' = map imag C /\
    exists hist xedges yedges,
      np.histogram2d (map real C) (map imag C) size X_MIN X_MAX Y_MIN Y_MAX w'
      = (Returned (hist, xedges, yedges), w') /\
      fst (heat_map size (np.npy_name datafile) cb2 w') = Returned (np.log_plus_1 hist).
Proof.
  intros HC Hp1 Hp2 Hd Hw Hs Hfits w'.
  destruct (save_roots_then_load np_roots d datafile cb1 w Hp1 Hd Hw)
    as (Hfile & Hfits' & Hload).
  fold w' in Hfile, Hfits', Hload. rewrite HC in Hfile, Hload.
  assert (Hfits1 : fits w' size = true) by now rewrite Hfits'.
  exists C. split; [exact Hload|]. split; [reflexivity|].
  split; [apply Forall2_close_refl|]. split; [reflexivity|]. split; [reflexivity|].
  eexists _, _, _. split; [now apply histogram2d_run|].
  destruct (heat_map_run size (np.npy_name datafile) cb2 C w' Hfile Hs Hfits1 Hp2)
    as (evs & Hrun).
  now rewrite Hrun.
Qed.

Lemma save_load_round_trip_witness :
  let w' := snd (save_roots small_solver 2 "roots_degree_2.npy" None empty_world) in
  exists C',
    np.load (np.npy_name "roots_degree_2.npy") w' = (Returned C', w') /\
    C' = root_collection small_solver 2 /\
    Forall2 close (root_collection small_solver 2) C' /\
    map real C' = map real (root_collection small_solver 2) /\
    map imag C' = map imag (root_collection small_solver 2) /\
    exists hist xedges yedges,
      np.histogram2d (map real (root_collection small_solver 2))
        (map imag (root_collection small_solver 2)) 100 X_MIN X_MAX Y_MIN Y_MAX w'
      = (Returned (hist, xedges, yedges), w') /\
      fst (heat_map 100 (np.npy_name "roots_degree_2.npy") None w')
      = Returned (np.log_plus_1 hist).
Proof.
  apply (save_load_round_trip small_solver 2 100 "roots_degree_2.npy" None None
           empty_world (root_collection small_solver 2)).
  - reflexivity.
  - exact None_passive.
  - exact None_passive.
  - lia.
  - reflexivity.
  - lia.
  - reflexivity.
Defined.



(** C5.  For a readable collection and a size N of at least 1 that the
    memory takes (the sizes 100 to 10000 the frame lets through are at
    least 1), [heat_map] returns a grid of N rows of N cells, and the cell
    of row i and column j is ln(c + 1) for c the count of that cell in the
    histogram of [np.histogram2d]: the number of points of the collection
    whose bin numbers are those of the cell; c is a natural number, so the
    logarithm is never taken at 0 and no cell is negative. *)
Theorem heat_map_log_grid (size : Z) (datafile : string) (cb : callback)
    (f : list complex) (w : world) :
  1 <= size ->
  fits w size = true ->
  files w !! datafile = Some (NpyArray f) ->
  passive cb ->
  let N := Z.to_nat size in
  exists hist xedges yedges img,
    np.histogram2d (map real f) (map imag f) size X_MIN X_MAX Y_MIN Y_MAX w
    = (Returned (hist, xedges, yedges), w) /\
    fst (heat_map size datafile cb w) = Returned img /\
    length img = N /\
    Forall (fun row => length row = N) img /\
    np.size img = (N * N)%nat /\
    (forall i j, (i < N)%nat -> (j < N)%nat ->
       nth j (nth i img []) 0%R = ln (INR (nth j (nth i hist []) O) + 1) /\
       nth j (nth i hist []) O = cell_count N f i j) /\
    Forall (Forall (fun v => (0 <= v)%R)) img.
Proof.
  intros Hs Hfits Hf Hp N.
  destruct (heat_map_run size datafile cb f w Hf Hs Hfits Hp) as (evs & Hrun).
  exists (histogram N f), (np.linspace X_MIN X_MAX N), (np.linspace Y_MIN Y_MAX N),
         (np.log_plus_1 (histogram N f)).
  destruct (histogram_shape N f) as [Hlen Hrows].
  split; [now apply histogram2d_run|].
  split; [now rewrite Hrun|].
  split; [unfold np.log_plus_1; now rewrite length_map|].
  split.
  { unfold np.log_plus_1. apply List.Forall_forall. intros row Hrow.
    apply in_map_iff in Hrow as (r & <- & Hr). rewrite length_map.
    rewrite List.Forall_forall in Hrows. now apply Hrows. }
  split.
  { unfold np.size, np.log_plus_1. rewrite <- flat_map_concat_map.
    rewrite flat_map_constant_length with (c := N).
    - now rewrite Hlen.
    - intros row Hrow. rewrite length_map.
      rewrite List.Forall_forall in Hrows. now apply Hrows. }
  split.
  { intros i j Hi Hj. rewrite log_grid_nth, histogram_nth by assumption. now split. }
  unfold np.log_plus_1. apply List.Forall_forall. intros row Hrow.
  apply in_map_iff in Hrow as (r & <- & _).
  apply List.Forall_forall. intros v Hv. apply in_map_iff in Hv as (c & <- & _).
  rewrite <- ln_1. pose proof (pos_INR c).
  destruct (Req_dec (INR c) 0) as [E | E].
  - rewrite E, Rplus_0_l. apply Rle_refl.
  - apply Rlt_le, ln_increasing; lra.
Qed.

Lemma heat_map_log_grid_witness :
  let N := Z.to_nat 100 in
  exists hist xedges yedges img,
    np.histogram2d (map real test_roots) (map imag test_roots)
      100 X_MIN X_MAX Y_MIN Y_MAX test_world
    = (Returned (hist, xedges, yedges), test_world) /\
    fst (heat_map 100 "test_roots.npy" None test_world) = Returned img /\
    length img = N /\
    Forall (fun row => length row = N) img /\
    np.size img = (N * N)%nat /\
    (forall i j, (i < N)%nat -> (j < N)%nat ->
       nth j (nth i img []) 0%R = ln (INR (nth j (nth i hist []) O) + 1) /\
       nth j (nth i hist []) O = cell_count N test_roots i j) /\
    Forall (Forall (fun v => (0 <= v)%R)) img.
Proof.
  apply (heat_map_log_grid 100 "test_roots.npy" None test_roots test_world).
  - lia.
  - reflexivity.
  - reflexivity.
  - exact None_passive.
Defined.

(** The origin at size 100: edge 50 of the axis is the double
    [50 * step - 1.8], a little above 0, so the origin is in row 49 and
    column 49 of the grid. *)
Example origin_at_size_100 :
  (0 < edge X_MIN X_MAX 100 50)%Q /\
  falls_in 100 49 49 (Complex 0 0) = true /\
  falls_in 100 50 50 (Complex 0 0) = false.
Proof. vm_compute. repeat split. Qed.

(** ** Progress reports *)

Section ProgressFacts.

Variable np_roots : list Z -> result (list complex).

Lemma trace_add_events (w : world) (evs : list event) :
  trace (add_events w evs) = trace w ++ evs.
Proof. reflexivity. Qed.

(** The calls the recording callback receives from [save_roots]: one after
    each vector, whether or not the file can be written afterwards. *)
Lemma save_roots_progress (degree : Z) (datafile : string) (w : world) :
  progress_calls (events_of (save_roots np_roots degree datafile recording_callback) w)
  = progress_calls (trace w)
    ++ map (fun k => (Z.of_nat k, 2 ^ degree)) (seq 1 (Z.to_nat (2 ^ degree))).
Proof.
  unfold events_of, save_roots, try_except.
  unfold bind at 1, logging at 1, emit at 1.
  unfold bind at 1.
  destruct (Z.ltb_spec degree 0) as [Hneg | Hpos].
  - rewrite coeff_combinations_negative by exact Hneg.
    rewrite Z.pow_neg_r by exact Hneg. cbn.
    rewrite !progress_calls_app. cbn. now rewrite !app_nil_r.
  - rewrite coeff_combinations_run by exact Hpos.
    destruct (imap_loop_progress np_roots (2 ^ degree)
                (Enumerator.coeff_combinations (Z.to_nat degree)) [] 0
                (add_events w [Log INFO "Starting to save roots"]))
      as (r & evs & Hloop & Hcalls).
    rewrite (bind_returned _ _ _ _ _ Hloop).
    rewrite coeff_combinations_length in Hcalls.
    change (fun i : nat => (0 + Z.of_nat i, 2 ^ degree))
      with (fun i : nat => (Z.of_nat i, 2 ^ degree)) in Hcalls.
    assert (Hpow : Z.to_nat (2 ^ degree) = (2 ^ Z.to_nat degree)%nat).
    { rewrite <- (Z2Nat.id degree) at 1 by exact Hpos.
      rewrite <- (Nat2Z.inj_pow 2), Nat2Z.id. reflexivity. }
    rewrite Hpow, <- Hcalls.
    unfold bind at 1, lift at 1.
    destruct r as [|batch r]; cbn [np.concatenate].
    + cbn. rewrite !progress_calls_app. cbn. now rewrite !app_nil_r.
    + unfold bind, np.save, logging, emit. cbn [writable add_events].
      destruct (writable w (np.npy_name datafile)); cbn;
        rewrite !progress_calls_app; cbn; now rewrite !app_nil_r.
Qed.

End ProgressFacts.

Lemma progress_calls_log (lvl : level) (msg : string) :
  progress_calls [Log lvl msg] = [].
Proof. reflexivity. Qed.

Lemma progress_calls_progress (current total : Z) :
  progress_calls [Progress current total] = [(current, total)].
Proof. reflexivity. Qed.

Lemma heat_map_progress (size : Z) (datafile : string) (f : list complex) (w : world) :
  files w !! datafile = Some (NpyArray f) -> 1 <= size -> fits w size = true ->
  progress_calls (events_of (heat_map size datafile recording_callback) w)
  = progress_calls (trace w) ++ [(size, size)].
Proof.
  intros Hf Hs Hfits. unfold events_of, heat_map, try_except.
  unfold bind at 1, logging at 1, emit at 1.
  unfold bind at 1, np.load at 1. cbn [files add_events]. rewrite Hf.
  unfold bind at 1. rewrite histogram2d_run by assumption.
  cbn. rewrite !progress_calls_app, !progress_calls_log, progress_calls_progress.
  now rewrite !app_nil_r.
Qed.

Lemma heat_map_no_progress (size : Z) (datafile : string) (cb : callback) (w : world) :
  (forall f, files w !! datafile = Some (NpyArray f) ->
             size < 1 \/ fits w size = false) ->
  progress_calls (events_of (heat_map size datafile cb) w) = progress_calls (trace w).
Proof.
  intros Hbad. unfold events_of. rewrite heat_map_fails by exact Hbad.
  cbn [snd]. rewrite trace_add_events, progress_calls_app.
  change (progress_calls [Log INFO "Starting heatmap generation";
                          Log ERROR "Error in heat_map"]) with (@nil (Z * Z)).
  now rewrite app_nil_r.
Qed.

(** C9.  With a callback that records its calls, [save_roots] calls it once
    after each of the 2^degree root computations, with the number of
    polynomials processed so far and their total number; [heat_map], when
    it gets to bin a readable collection with a size N of at least 1 that
    the memory takes, calls it exactly once, with (N, N). *)
Theorem progress_reported (np_roots : list Z -> result (list complex))
    (degree : Z) (rootsfile : string) (w1 : world)
    (size : Z) (datafile : string) (f : list complex) (w2 : world) :
  files w2 !! datafile = Some (NpyArray f) ->
  1 <= size ->
  fits w2 size = true ->
  progress_calls (events_of (save_roots np_roots degree rootsfile recording_callback) w1)
  = progress_calls (trace w1)
    ++ map (fun k => (Z.of_nat k, 2 ^ degree)) (seq 1 (Z.to_nat (2 ^ degree)))
  /\
  progress_calls (events_of (heat_map size datafile recording_callback) w2)
  = progress_calls (trace w2) ++ [(size, size)].
Proof.
  intros Hf Hs Hfits. split.
  - apply save_roots_progress.
  - now apply (heat_map_progress size datafile f).
Qed.

Lemma progress_reported_witness :
  progress_calls
    (events_of (save_roots small_solver 2 "roots_degree_2.npy" recording_callback)
       empty_world)
  = progress_calls (trace empty_world)
    ++ map (fun k => (Z.of_nat k, 2 ^ 2)) (seq 1 (Z.to_nat (2 ^ 2)))
  /\
  progress_calls (events_of (heat_map 100 "test_roots.npy" recording_callback) test_world)
  = progress_calls (trace test_world) ++ [(100, 100)].
Proof.
  apply (progress_reported small_solver 2 "roots_degree_2.npy" empty_world
           100 "test_roots.npy" test_roots test_world).
  - reflexivity.
  - lia.
  - reflexivity.
Defined.

(** The run of degree 2, evaluated: four calls, in order. *)
Example save_roots_progress_degree_2 :
  progress_calls
    (events_of (save_roots small_solver 2 "roots_degree_2.npy" recording_callback)
       empty_world)
  = [(1, 4); (2, 4); (3, 4); (4, 4)].
Proof. vm_compute. reflexivity. Qed.

(** ** Which exceptions leave the entry points *)

Section Catchable.

Lemma catchable_ret {A : Type} (a : A) : catchable (ret a).
Proof. intros w e w' H. discriminate. Qed.

Lemma catchable_emit (ev : event) : catchable (emit ev).
Proof. intros w e w' H. discriminate. Qed.

Lemma catchable_raise {A : Type} (e : exn) : Exception e = true -> catchable (@raise A e).
Proof. intros He w e' w' H. injection H as <- _. exact He. Qed.

Lemma catchable_bind {A B : Type} (m : M A) (k : A -> M B) :
  catchable m -> (forall a, catchable (k a)) -> catchable (bind m k).
Proof.
  intros Hm Hk w e w' H. unfold bind in H.
  destruct (m w) as [[a | e1] w1] eqn:Em.
  - exact (Hk a w1 e w' H).
  - injection H as <- <-. exact (Hm w e1 w1 Em).
Qed.

(** [except Exception] with a handler that returns: nothing is raised. *)
Lemma try_except_catchable {A : Type} (body : M A) (handler : exn -> M A) (w : world) :
  catchable body ->
  (forall e w1, exists a w2, handler e w1 = (Returned a, w2)) ->
  exists a w', try_except body Exception handler w = (Returned a, w').
Proof.
  intros Hb Hh. apply try_except_Exception_returns; [exact Hh|].
  intros e w1. apply Hb.
Qed.

Variable np_roots : list Z -> result (list complex).

Lemma compute_roots_catchable (v : list Z) : catchable (compute_roots np_roots v).
Proof.
  intros w e w' H. destruct (compute_roots_run np_roots v w) as (lvl & msg & Hrun).
  rewrite Hrun in H. discriminate.
Qed.

Lemma imap_loop_catchable (cb : callback) (total : Z) (todo : list (list Z)) :
  raises_only_Exception cb ->
  forall roots processed, catchable (imap_loop np_roots cb total todo roots processed).
Proof.
  intros Hcb. induction todo as [|v todo IH]; intros roots processed; cbn [imap_loop].
  - apply catchable_ret.
  - apply catchable_bind; [apply compute_roots_catchable|]. intros batch.
    apply catchable_bind; [apply Hcb|]. intros _.
    apply catchable_bind; [|intros _; apply IH].
    destruct ((processed + 1) mod 10000 =? 0); [apply catchable_emit | apply catchable_ret].
Qed.

Lemma save_catchable (datafile : string) (arr : list complex) :
  catchable (np.save datafile arr).
Proof.
  intros w e w' H. unfold np.save in H.
  destruct (writable w (np.npy_name datafile)); [discriminate|].
  now injection H as <- _.
Qed.

Lemma load_catchable (datafile : string) : catchable (np.load datafile).
Proof.
  intros w e w' H. unfold np.load in H.
  destruct (files w !! datafile) as [[a|]|]; try discriminate; now injection H as <- _.
Qed.

Lemma histogram2d_catchable (x y : list Q) (bins : Z) (xmin xmax ymin ymax : float) :
  catchable (np.histogram2d x y bins xmin xmax ymin ymax).
Proof.
  intros w e w' H. unfold np.histogram2d in H.
  destruct (negb (length x =? length y)%nat); [now injection H as <- _|].
  destruct (bins <? 1); [now injection H as <- _|].
  destruct (negb (fits w bins)); [now injection H as <- _|].
  cbv zeta in H. unfold np.reshape in H.
  match type of H with
  | context [if ?c then _ else _] => destruct c
  end; [discriminate | now injection H as <- _].
Qed.

(** With a callback that raises nothing but exceptions of class
    [Exception], [save_roots] returns. *)
Lemma save_roots_returns (degree : Z) (datafile : string) (cb : callback) (w : world) :
  raises_only_Exception cb ->
  exists w', save_roots np_roots degree datafile cb w = (Returned tt, w').
Proof.
  intros Hcb. unfold save_roots.
  match goal with
  | |- exists w', try_except ?body _ ?h w = _ =>
      destruct (try_except_catchable body h w) as ([] & w' & H)
  end.
  - apply catchable_bind; [apply catchable_emit|]. intros _.
    apply catchable_bind.
    { unfold coeff_combinations. destruct (degree <? 0);
        [now apply catchable_raise | apply catchable_ret]. }
    intros combos. apply catchable_bind; [now apply imap_loop_catchable|].
    intros roots. apply catchable_bind.
    { intros w0 e w1 H. unfold lift in H. destruct roots; cbn in H; [|discriminate].
      now injection H as <- _. }
    intros arr. apply catchable_bind; [apply save_catchable|]. intros _.
    apply catchable_emit.
  - intros e w1. now exists tt, (add_events w1 [Log ERROR "Error in save_roots"]).
  - now exists w'.
Qed.

End Catchable.

(** The same for [heat_map]. *)
Lemma heat_map_returns (size : Z) (datafile : string) (cb : callback) (w : world) :
  raises_only_Exception cb ->
  exists img w', heat_map size datafile cb w = (Returned img, w').
Proof.
  intros Hcb. unfold heat_map. apply try_except_catchable.
  - apply catchable_bind; [apply catchable_emit|]. intros _.
    apply catchable_bind; [apply load_catchable|]. intros f.
    apply catchable_bind; [apply histogram2d_catchable|]. intros [[img xedges] yedges].
    apply catchable_bind; [apply Hcb|]. intros _.
    apply catchable_bind; [apply catchable_emit|]. intros _. apply catchable_ret.
  - intros e w1. eexists _, _. reflexivity.
Qed.

Lemma None_raises_nothing : raises_only_Exception None.
Proof. intros c t. apply catchable_ret. Qed.

Lemma passive_raises_nothing (cb : callback) : passive cb -> raises_only_Exception cb.
Proof.
  intros Hp c t w e w' H. destruct (call_passive cb c t w Hp) as (evs & Hc).
  rewrite Hc in H. discriminate.
Qed.

Lemma returns_not_raises {A : Type} (m : M A) (w : world) :
  (exists a w', m w = (Returned a, w')) -> ~ raises m w.
Proof. intros (a & w1 & H) (e & w2 & H'). rewrite H in H'. discriminate. Qed.

(** C10, as the code has it.  The claim that the entry points let no
    exception through for every input does not hold: [except Exception]
    does not catch a [KeyboardInterrupt], so one raised while the progress
    callback runs leaves [save_roots], and [heat_map], as it is. *)
Lemma interrupt_leaves_entry_points :
  fst (save_roots small_solver 1 "roots_degree_1.npy" interrupted_callback empty_world)
  = Raised KeyboardInterrupt /\
  raises (save_roots small_solver 1 "roots_degree_1.npy" interrupted_callback) empty_world /\
  fst (heat_map 100 "test_roots.npy" interrupted_callback test_world)
  = Raised KeyboardInterrupt /\
  raises (heat_map 100 "test_roots.npy" interrupted_callback) test_world.
Proof.
  assert (Hsave : exists w',
            save_roots small_solver 1 "roots_degree_1.npy" interrupted_callback empty_world
            = (Raised KeyboardInterrupt, w')).
  { eexists. vm_compute. reflexivity. }
  assert (Hheat : exists w',
            heat_map 100 "test_roots.npy" interrupted_callback test_world
            = (Raised KeyboardInterrupt, w')).
  { eexists. unfold heat_map, try_except.
    unfold bind at 1, logging at 1, emit at 1.
    unfold bind at 1, np.load at 1.
    replace (files (add_events test_world [Log INFO "Starting heatmap generation"])
             !! "test_roots.npy") with (Some (NpyArray test_roots)) by reflexivity.
    unfold bind at 1. rewrite histogram2d_run by (lia || reflexivity).
    reflexivity. }
  destruct Hsave as (w1 & Hsave), Hheat as (w2 & Hheat).
  split; [|split; [|split]].
  - now rewrite Hsave.
  - now exists KeyboardInterrupt, w1.
  - now rewrite Hheat.
  - now exists KeyboardInterrupt, w2.
Qed.

(** C10, amended.  Whatever the degree, the size, the file name, the
    callback and the world, no exception of class [Exception] leaves
    [save_roots] or [heat_map]; with a callback that raises nothing else,
    [save_roots] returns (its value is [None] whether or not the file was
    written) and [heat_map] returns; and when the data file is missing or
    is not an array, what [heat_map] returns is the empty array, whatever
    the callback is. *)
Theorem entry_points_absorb_Exception (np_roots : list Z -> result (list complex))
    (degree size : Z) (datafile : string) (cb : callback) (w : world) :
  (forall e w', save_roots np_roots degree datafile cb w = (Raised e, w') ->
                Exception e = false) /\
  (forall e w', heat_map size datafile cb w = (Raised e, w') -> Exception e = false) /\
  (raises_only_Exception cb ->
   (exists w', save_roots np_roots degree datafile cb w = (Returned tt, w')) /\
   (exists img w', heat_map size datafile cb w = (Returned img, w'))) /\
  (files w !! datafile = None \/ files w !! datafile = Some NotNpy ->
   fst (heat_map size datafile cb w) = Returned []).
Proof.
  split; [|split; [|split]].
  - intros e w' H. unfold save_roots in H.
    apply try_except_Exception_raises in H; [tauto|].
    intros e1 w1. now exists tt, (add_events w1 [Log ERROR "Error in save_roots"]).
  - intros e w' H. unfold heat_map in H.
    apply try_except_Exception_raises in H; [tauto|].
    intros e1 w1. eexists _, _. reflexivity.
  - intros Hcb. split; [now apply save_roots_returns | now apply heat_map_returns].
  - intros Hbad. rewrite heat_map_fails; [reflexivity|].
    intros f Hf. destruct Hbad as [H | H]; rewrite H in Hf; discriminate.
Qed.

Lemma entry_points_absorb_Exception_witness :
  (exists w',
     save_roots small_solver 2 "roots_degree_2.npy" recording_callback empty_world
     = (Returned tt, w')) /\
  (exists img w',
     heat_map 100 "roots_degree_2.npy" recording_callback empty_world
     = (Returned img, w')).
Proof.
  destruct (entry_points_absorb_Exception small_solver 2 100 "roots_degree_2.npy"
              recording_callback empty_world) as (_ & _ & H & _).
  apply H. apply passive_raises_nothing. exact recording_callback_passive.
Defined.

(** ** The parameter checks of the frame *)

Lemma progress_callback_save_emits : emits progress_callback_save save_callback_events.
Proof.
  intros c t w. unfold progress_callback_save, save_callback_events.
  cbn [call]. run_statements.
Qed.

Lemma None_emits : emits None (fun _ _ => []).
Proof. intros c t w. cbn [call]. unfold ret. now rewrite add_events_nil. Qed.

Lemma recording_callback_emits :
  emits recording_callback (fun current total => [Progress current total]).
Proof. intros c t w. reflexivity. Qed.

(** [heat_map], event by event, when it gets to bin the collection. *)
Lemma heat_map_events (size : Z) (datafile : string) (cb : callback)
    (cb_events : Z -> Z -> list event) (f : list complex) (w : world) :
  files w !! datafile = Some (NpyArray f) -> 1 <= size -> fits w size = true ->
  emits cb cb_events ->
  heat_map size datafile cb w
  = (Returned (np.log_plus_1 (histogram (Z.to_nat size) f)),
     add_events w ([Log INFO "Starting heatmap generation"]
                   ++ cb_events size size ++ [Log DEBUG "Heatmap generated"])).
Proof.
  intros Hf Hs Hfits Hcb. unfold heat_map, try_except.
  unfold bind at 1, logging at 1, emit at 1.
  unfold bind at 1, np.load at 1. cbn [files add_events]. rewrite Hf.
  unfold bind at 1. rewrite histogram2d_run by assumption.
  rewrite (bind_returned _ _ _ _ _ (Hcb size size _)).
  unfold bind, logging, emit, ret. rewrite !add_events_app. reflexivity.
Qed.

Section FrameFacts.

Variable py_int : string -> option Z.

Lemma checked_Some (lo hi : Z) (value : option Z) (n : Z) :
  checked lo hi value = Some n <-> value = Some n /\ lo <= n <= hi.
Proof.
  unfold checked. destruct value as [m|]; [|split; [discriminate | intros [E _]; discriminate]].
  destruct (Z.ltb_spec m lo) as [Hlo | Hlo], (Z.gtb_spec m hi) as [Hhi | Hhi];
    cbn [orb]; split;
    try discriminate; try (intros [E ?]; injection E as ->; lia).
  - intros E. injection E as ->. split; [reflexivity | lia].
  - intros [E _]. exact E.
Qed.

Lemma GetDegree_run (self : frame) (w : world) :
  GetDegree py_int self w
  = (Returned (checked 1 25 (py_int (txt_degree self))),
     add_events w
       (match checked 1 25 (py_int (txt_degree self)) with
        | Some _ => [Log DEBUG "User input degree"]
        | None => [Log ERROR "Invalid degree input"; Dialog ICON_ERROR]
        end)).
Proof.
  unfold GetDegree, GetDegree_try, try_except, int, checked.
  destruct (py_int (txt_degree self)) as [n|]; [|run_statements].
  unfold bind at 1, ret at 1. destruct ((n <? 1) || (n >? 25)); run_statements.
Qed.

Lemma GetSizeValue_run (self : frame) (w : world) :
  GetSizeValue py_int self w
  = (Returned (checked 100 10000 (py_int (txt_size self))),
     add_events w
       (match checked 100 10000 (py_int (txt_size self)) with
        | Some _ => [Log DEBUG "User input size"]
        | None => [Log ERROR "Invalid size input"; Dialog ICON_ERROR]
        end)).
Proof.
  unfold GetSizeValue, GetSizeValue_try, try_except, int, checked.
  destruct (py_int (txt_size self)) as [n|]; [|run_statements].
  unfold bind at 1, ret at 1. destruct ((n <? 100) || (n >? 10000)); run_statements.
Qed.

Lemma GetDPI_run (self : frame) (w : world) :
  GetDPI py_int self w
  = (Returned (checked 50 10000 (py_int (txt_dpi self))),
     add_events w
       (match checked 50 10000 (py_int (txt_dpi self)) with
        | Some _ => [Log DEBUG "User input DPI"]
        | None => [Log ERROR "Invalid DPI input"; Dialog ICON_ERROR]
        end)).
Proof.
  unfold GetDPI, try_except, int, checked.
  destruct (py_int (txt_dpi self)) as [n|]; [|run_statements].
  unfold bind at 1, ret at 1. destruct ((n <? 50) || (n >? 10000)); run_statements.
Qed.


Lemma checked_out_of_bounds (lo hi : Z) (value : option Z) :
  out_of_bounds lo hi value <-> checked lo hi value = None.
Proof.
  unfold out_of_bounds, checked. destruct value as [n|]; [|tauto].
  destruct (Z.ltb_spec n lo), (Z.gtb_spec n hi); cbn [orb]; split;
    try discriminate; try reflexivity; try lia; auto.
Qed.

Lemma int_range_raises (text : string) (lo hi : Z) (k : Z -> M (option Z)) (w : world) :
  out_of_bounds lo hi (py_int text) ->
  (degree <- int py_int text ;;
   if (degree <? lo) || (degree >? hi) then raise ValueError else k degree) w
  = (Raised ValueError, w).
Proof.
  intros H. unfold bind, int, out_of_bounds in *.
  destruct (py_int text) as [n|]; [|reflexivity]. cbn.
  destruct (Z.ltb_spec n lo), (Z.gtb_spec n hi); try reflexivity. lia.
Qed.

Lemma OnSaveRoots_stops (self : frame) (answer : bool) (w : world) :
  checked 1 25 (py_int (txt_degree self)) = None ->
  OnSaveRoots py_int self answer w
  = (Returned tt, add_events w [Log ERROR "Invalid degree input"; Dialog ICON_ERROR]).
Proof.
  intros H. unfold OnSaveRoots.
  rewrite (bind_returned _ _ _ _ _ (GetDegree_run self w)). now rewrite H.
Qed.

Lemma OnGenerateHeatmap_stops_degree (self : frame) (w : world) :
  checked 1 25 (py_int (txt_degree self)) = None ->
  OnGenerateHeatmap py_int self w
  = (Returned tt, add_events w [Log ERROR "Invalid degree input"; Dialog ICON_ERROR]).
Proof.
  intros H. unfold OnGenerateHeatmap.
  rewrite (bind_returned _ _ _ _ _ (GetDegree_run self w)). now rewrite H.
Qed.

Lemma OnSaveAndGenerate_stops_degree (self : frame) (answer : bool) (w : world) :
  checked 1 25 (py_int (txt_degree self)) = None ->
  OnSaveAndGenerate py_int self answer w
  = (Returned tt, add_events w [Log ERROR "Invalid degree input"; Dialog ICON_ERROR]).
Proof.
  intros H. unfold OnSaveAndGenerate.
  rewrite (bind_returned _ _ _ _ _ (GetDegree_run self w)). now rewrite H.
Qed.

(** With a size out of bounds the two handlers that read it stop after
    the same events. *)
Lemma handlers_stop_size (self : frame) (answer : bool) (w : world) :
  checked 100 10000 (py_int (txt_size self)) = None ->
  exists evs,
    OnGenerateHeatmap py_int self w = (Returned tt, add_events w evs) /\
    OnSaveAndGenerate py_int self answer w = (Returned tt, add_events w evs) /\
    forallb is_report evs = true.
Proof.
  intros Hs. unfold OnGenerateHeatmap, OnSaveAndGenerate.
  rewrite !(bind_returned _ _ _ _ _ (GetDegree_run self w)).
  destruct (checked 1 25 (py_int (txt_degree self))) as [d|].
  - rewrite !(bind_returned _ _ _ _ _ (GetSizeValue_run self _)). rewrite Hs.
    eexists. split; [run_statements|]. split; [run_statements | reflexivity].
  - eexists. split; [run_statements|]. split; [run_statements | reflexivity].
Qed.

(** With a DPI out of bounds neither of them starts its job. *)
Lemma OnGenerateHeatmap_stops_dpi (self : frame) (w : world) :
  checked 50 10000 (py_int (txt_dpi self)) = None ->
  exists evs,
    OnGenerateHeatmap py_int self w = (Returned tt, add_events w evs) /\
    forallb is_report evs = true.
Proof.
  intros Hp. unfold OnGenerateHeatmap.
  rewrite (bind_returned _ _ _ _ _ (GetDegree_run self w)).
  destruct (checked 1 25 (py_int (txt_degree self))) as [d|];
    [|eexists; split; [run_statements | reflexivity]].
  rewrite (bind_returned _ _ _ _ _ (GetSizeValue_run self _)).
  destruct (checked 100 10000 (py_int (txt_size self))) as [s|];
    [|eexists; split; [run_statements | reflexivity]].
  unfold bind at 1, path_exists at 1.
  destruct (bool_decide _); cbn [negb];
    [|eexists; split; [run_statements | reflexivity]].
  rewrite (bind_returned _ _ _ _ _ (GetDPI_run self _)). rewrite Hp.
  eexists. split; [run_statements | reflexivity].
Qed.

Lemma OnSaveAndGenerate_stops_dpi (self : frame) (answer : bool) (w : world) :
  checked 50 10000 (py_int (txt_dpi self)) = None ->
  exists evs,
    OnSaveAndGenerate py_int self answer w = (Returned tt, add_events w evs) /\
    forallb is_report evs = true.
Proof.
  intros Hp. unfold OnSaveAndGenerate.
  rewrite (bind_returned _ _ _ _ _ (GetDegree_run self w)).
  destruct (checked 1 25 (py_int (txt_degree self))) as [d|];
    [|eexists; split; [run_statements | reflexivity]].
  rewrite (bind_returned _ _ _ _ _ (GetSizeValue_run self _)).
  destruct (checked 100 10000 (py_int (txt_size self))) as [s|];
    [|eexists; split; [run_statements | reflexivity]].
  rewrite (bind_returned _ _ _ _ _ (GetDPI_run self _)). rewrite Hp.
  eexists. split; [run_statements | reflexivity].
Qed.

End FrameFacts.

(** C6, as the code has it.  The claim that every out-of-bounds parameter
    is rejected before any computation does not hold for the entry points
    themselves: [save_roots] takes the degree 0 and [heat_map] the size 50
    as any other value; they compute, write and return without one error
    report. *)
Lemma core_takes_out_of_bounds :
  (exists w',
     save_roots small_solver 0 "roots_degree_0.npy" None empty_world = (Returned tt, w') /\
     files w' !! "roots_degree_0.npy" = Some (NpyArray []) /\
     existsb is_error_report (trace w') = false) /\
  (exists img w',
     heat_map 50 "test_roots.npy" None test_world = (Returned img, w') /\
     length img = 50%nat /\
     existsb is_error_report (trace w') = false).
Proof.
  split.
  - eexists. split; [vm_compute; reflexivity|]. split; reflexivity.
  - eexists _, _. split.
    + apply (heat_map_events 50 "test_roots.npy" None (fun _ _ => []) test_roots test_world);
        [reflexivity | lia | reflexivity | exact None_emits].
    + split; [|reflexivity].
      unfold np.log_plus_1. rewrite length_map. apply (histogram_shape (Z.to_nat 50)).
Qed.

(** C6, amended.  The bounds are those of the frame.  When the degree
    field holds no integer within [1,25] (0 and 26 among the values, and
    any text that is no integer), the [try] block of [GetDegree] raises
    [ValueError]; [GetDegree] answers [None] after an error log entry and an
    error dialog, and each of the three button handlers returns there: no
    gauge change, no thread started, no file touched.  A size that is no
    integer within [100,10000] (50 and 20000 among the values) is rejected
    in the same way by [GetSizeValue], and a DPI that is no integer within
    [50,10000] by [GetDPI]; the two handlers that read them return without
    starting their job, whatever the other fields hold. *)
Theorem out_of_bounds_rejected (py_int : string -> option Z) (self : frame)
    (answer : bool) (w : world) :
  (out_of_bounds 1 25 (py_int (txt_degree self)) ->
   let w' := add_events w [Log ERROR "Invalid degree input"; Dialog ICON_ERROR] in
   GetDegree_try py_int self w = (Raised ValueError, w) /\
   GetDegree py_int self w = (Returned None, w') /\
   OnSaveRoots py_int self answer w = (Returned tt, w') /\
   OnGenerateHeatmap py_int self w = (Returned tt, w') /\
   OnSaveAndGenerate py_int self answer w = (Returned tt, w'))
  /\
  (out_of_bounds 100 10000 (py_int (txt_size self)) ->
   GetSizeValue_try py_int self w = (Raised ValueError, w) /\
   GetSizeValue py_int self w
   = (Returned None, add_events w [Log ERROR "Invalid size input"; Dialog ICON_ERROR]) /\
   exists evs,
     OnGenerateHeatmap py_int self w = (Returned tt, add_events w evs) /\
     OnSaveAndGenerate py_int self answer w = (Returned tt, add_events w evs) /\
     forallb is_report evs = true)
  /\
  (out_of_bounds 50 10000 (py_int (txt_dpi self)) ->
   GetDPI py_int self w
   = (Returned None, add_events w [Log ERROR "Invalid DPI input"; Dialog ICON_ERROR]) /\
   exists evs1 evs2,
     OnGenerateHeatmap py_int self w = (Returned tt, add_events w evs1) /\
     OnSaveAndGenerate py_int self answer w = (Returned tt, add_events w evs2) /\
     forallb is_report evs1 = true /\ forallb is_report evs2 = true).
Proof.
  split; [|split].
  - intros Hout w'. subst w'. pose proof Hout as Hc.
    apply checked_out_of_bounds in Hc.
    split; [now apply int_range_raises|].
    split; [rewrite GetDegree_run; now rewrite Hc|].
    split; [now apply OnSaveRoots_stops|].
    split; [now apply OnGenerateHeatmap_stops_degree
           | now apply OnSaveAndGenerate_stops_degree].
  - intros Hout. pose proof Hout as Hc. apply checked_out_of_bounds in Hc.
    split; [now apply int_range_raises|].
    split; [rewrite GetSizeValue_run; now rewrite Hc|].
    now apply handlers_stop_size.
  - intros Hout. apply checked_out_of_bounds in Hout.
    split; [rewrite GetDPI_run; now rewrite Hout|].
    destruct (OnGenerateHeatmap_stops_dpi py_int self w Hout) as (evs1 & H1 & Hq1).
    destruct (OnSaveAndGenerate_stops_dpi py_int self answer w Hout) as (evs2 & H2 & Hq2).
    now exists evs1, evs2.
Qed.

Lemma out_of_bounds_rejected_witness :
  let self := {| txt_degree := "0"; txt_size := "50"; txt_dpi := "dpi";
                 cmb_colormap := "afmhot"; txt_output := "polyroots.png" |} in
  let w' := add_events empty_world [Log ERROR "Invalid degree input"; Dialog ICON_ERROR] in
  (GetDegree_try decimal_int self empty_world = (Raised ValueError, empty_world) /\
   GetDegree decimal_int self empty_world = (Returned None, w') /\
   OnSaveRoots decimal_int self true empty_world = (Returned tt, w') /\
   OnGenerateHeatmap decimal_int self empty_world = (Returned tt, w') /\
   OnSaveAndGenerate decimal_int self true empty_world = (Returned tt, w'))
  /\
  (GetSizeValue_try decimal_int self empty_world = (Raised ValueError, empty_world) /\
   GetSizeValue decimal_int self empty_world
   = (Returned None,
      add_events empty_world [Log ERROR "Invalid size input"; Dialog ICON_ERROR]) /\
   exists evs,
     OnGenerateHeatmap decimal_int self empty_world
     = (Returned tt, add_events empty_world evs) /\
     OnSaveAndGenerate decimal_int self true empty_world
     = (Returned tt, add_events empty_world evs) /\
     forallb is_report evs = true)
  /\
  (GetDPI decimal_int self empty_world
   = (Returned None,
      add_events empty_world [Log ERROR "Invalid DPI input"; Dialog ICON_ERROR]) /\
   exists evs1 evs2,
     OnGenerateHeatmap decimal_int self empty_world
     = (Returned tt, add_events empty_world evs1) /\
     OnSaveAndGenerate decimal_int self true empty_world
     = (Returned tt, add_events empty_world evs2) /\
     forallb is_report evs1 = true /\ forallb is_report evs2 = true).
Proof.
  destruct (out_of_bounds_rejected decimal_int
              {| txt_degree := "0"; txt_size := "50"; txt_dpi := "dpi";
                 cmb_colormap := "afmhot"; txt_output := "polyroots.png" |}
              true empty_world) as (Hdegree & Hsize & Hdpi).
  split; [apply Hdegree; left; reflexivity|].
  split; [apply Hsize; left; reflexivity | apply Hdpi; exact I].
Defined.

(** The four values of the specification, run through the handlers; with a
    valid degree the size is what stops the two handlers that read it. *)
Example degree_0_rejected :
  OnSaveRoots decimal_int (frame_with "0" "800") true empty_world
  = (Returned tt,
     add_events empty_world [Log ERROR "Invalid degree input"; Dialog ICON_ERROR]).
Proof. reflexivity. Qed.

Example degree_26_rejected :
  OnSaveAndGenerate decimal_int (frame_with "26" "800") true empty_world
  = (Returned tt,
     add_events empty_world [Log ERROR "Invalid degree input"; Dialog ICON_ERROR]).
Proof. reflexivity. Qed.

Example size_50_rejected :
  OnGenerateHeatmap decimal_int (frame_with "3" "50") empty_world
  = (Returned tt,
     add_events empty_world [Log DEBUG "User input degree";
                             Log ERROR "Invalid size input"; Dialog ICON_ERROR]).
Proof. reflexivity. Qed.

Example size_20000_rejected :
  OnSaveAndGenerate decimal_int (frame_with "3" "20000") true empty_world
  = (Returned tt,
     add_events empty_world [Log DEBUG "User input degree";
                             Log ERROR "Invalid size input"; Dialog ICON_ERROR]).
Proof. reflexivity. Qed.

(** A text that is no integer is refused as a value out of bounds is. *)
Example degree_text_rejected :
  OnSaveRoots decimal_int (frame_with "three" "800") true empty_world
  = (Returned tt,
     add_events empty_world [Log ERROR "Invalid degree input"; Dialog ICON_ERROR]).
Proof. reflexivity. Qed.

(** For comparison, values inside the bounds start the job. *)
Example in_bounds_starts_job :
  events_of (OnSaveAndGenerate decimal_int (frame_with "3" "800") true) empty_world
  = [Log DEBUG "User input degree"; Log DEBUG "User input size";
     Log DEBUG "User input DPI"; Dialog CONFIRM; GaugeSet 0;
     ThreadStart (JobSaveAndGenerate 3 800 "roots_degree_3.npy" "afmhot"
                    "polyroots.png" 300)].
Proof. reflexivity. Qed.

(** ** Failures and empty results *)

(** When the file cannot be written [save_roots] ends in its [except]
    branch: the last event is its error log entry and no file changes. *)
Lemma save_roots_unwritable (np_roots : list Z -> result (list complex))
    (degree : Z) (datafile : string) (cb : callback) (w : world) :
  passive cb -> 0 <= degree -> writable w (np.npy_name datafile) = false ->
  exists evs,
    save_roots np_roots degree datafile cb w
    = (Returned tt, add_events w (evs ++ [Log ERROR "Error in save_roots"])).
Proof.
  intros Hp Hd Hw. unfold save_roots, try_except.
  unfold bind at 1. unfold logging at 1, emit at 1.
  unfold bind at 1. rewrite coeff_combinations_run by exact Hd.
  destruct (imap_loop_run np_roots cb (2 ^ degree)
              (Enumerator.coeff_combinations (Z.to_nat degree)) Hp [] 0
              (add_events w [Log INFO "Starting to save roots"])) as (evs & Hloop).
  rewrite (bind_returned _ _ _ _ _ Hloop). cbn [app].
  unfold bind at 1, lift at 1. rewrite concatenate_batches.
  unfold bind, np.save, logging, emit.
  exists ([Log INFO "Starting to save roots"] ++ evs).
  cbn [writable add_events]. rewrite Hw. cbn.
  unfold add_events. cbn. now rewrite <- !app_assoc.
Qed.


Lemma progress_callback_save_passive : passive progress_callback_save.
Proof.
  intros g H c t w. injection H as <-.
  exists [Progress c t; Log DEBUG "Saving roots progress"].
  unfold bind, logging, emit, add_events. cbn. now rewrite <- app_assoc.
Qed.

Lemma progress_callback_heat_emits :
  emits progress_callback_heat
    (fun c t => [Progress c t; Log DEBUG "Generating heatmap progress"]).
Proof. intros c t w. unfold progress_callback_heat. cbn [call]. run_statements. Qed.

(** [heat_map] under the job's callback, event by event. *)
Lemma heat_map_run_job (size : Z) (datafile : string) (f : list complex) (w : world) :
  files w !! datafile = Some (NpyArray f) -> 1 <= size -> fits w size = true ->
  heat_map size datafile progress_callback_heat w
  = (Returned (np.log_plus_1 (histogram (Z.to_nat size) f)),
     add_events w [Log INFO "Starting heatmap generation"; Progress size size;
                   Log DEBUG "Generating heatmap progress";
                   Log DEBUG "Heatmap generated"]).
Proof.
  intros Hf Hs Hfits.
  now rewrite (heat_map_events size datafile progress_callback_heat _ f w Hf Hs Hfits
                 progress_callback_heat_emits).
Qed.

(** A cell of the transformed grid is positive exactly when its count is. *)
Lemma log_cell_positive (c : nat) :
  (if Rlt_dec 0 (ln (INR c + 1)) then true else false) = (0 <? c)%nat.
Proof.
  destruct c as [|c].
  - cbn [INR]. rewrite Rplus_0_l, ln_1.
    destruct (Rlt_dec 0 0) as [H | H]; [exfalso; lra | reflexivity].
  - pose proof (pos_INR c) as Hc. rewrite S_INR.
    destruct (Rlt_dec 0 (ln (INR c + 1 + 1))) as [H | H]; [reflexivity|].
    exfalso. apply H. rewrite <- ln_1. apply ln_increasing; lra.
Qed.

Lemma existsb_map_comp {A B : Type} (p : B -> bool) (g : A -> B) (l : list A) :
  existsb p (map g l) = existsb (fun x => p (g x)) l.
Proof. induction l as [|x l IH]; simpl; [reflexivity | now rewrite IH]. Qed.

Lemma existsb_ext_eq {A : Type} (p q : A -> bool) (l : list A) :
  (forall x, p x = q x) -> existsb p l = existsb q l.
Proof. intros H. induction l as [|x l IH]; simpl; [reflexivity | now rewrite H, IH]. Qed.

Lemma any_positive_log (hist : list (list nat)) :
  np.any_positive (np.log_plus_1 hist) = existsb (existsb (fun c => (0 <? c)%nat)) hist.
Proof.
  unfold np.any_positive, np.log_plus_1. rewrite existsb_map_comp.
  apply existsb_ext_eq. intros row. rewrite existsb_map_comp.
  apply existsb_ext_eq. intros c. apply log_cell_positive.
Qed.

Lemma filter_nil_iff {A : Type} (p : A -> bool) (l : list A) :
  List.filter p l = [] <-> forall x, In x l -> p x = false.
Proof.
  induction l as [|x l IH]; simpl; [tauto|].
  destruct (p x) eqn:E.
  - split; [discriminate|]. intros H. specialize (H x (or_introl eq_refl)). congruence.
  - rewrite IH. split.
    + intros H y [<- | Hy]; auto.
    + intros H y Hy. apply H. now right.
Qed.

(** With no point in the window every cell is empty. *)
Lemma cell_count_none_inside (n : nat) (f : list complex) (i j : nat) :
  grid_in_order n -> (i < n)%nat -> (j < n)%nat ->
  List.filter in_window f = [] -> cell_count n f i j = O.
Proof.
  intros Hord Hi Hj Hnone. unfold cell_count.
  replace (List.filter (falls_in n i j) f) with (@nil complex); [reflexivity|].
  symmetry. apply filter_nil_iff. intros c Hc.
  rewrite filter_nil_iff in Hnone. specialize (Hnone c Hc).
  destruct (falls_in n i j c) eqn:E; [|reflexivity].
  apply (falls_in_grid n i j c Hi Hj) in E.
  rewrite in_grid_window in E by (assumption || lia). congruence.
Qed.

Lemma histogram_none_inside (n : nat) (f : list complex) :
  grid_in_order n ->
  List.filter in_window f = [] ->
  np.any_positive (np.log_plus_1 (histogram n f)) = false.
Proof.
  intros Hord Hnone. rewrite any_positive_log.
  destruct (existsb _ (histogram n f)) eqn:E; [|reflexivity]. exfalso.
  apply existsb_exists in E as (row & Hrow & E).
  apply existsb_exists in E as (c & Hc & E).
  unfold histogram in Hrow. apply in_map_iff in Hrow as (i & <- & Hi).
  apply in_map_iff in Hc as (j & <- & Hj). apply in_seq in Hi, Hj.
  rewrite cell_count_none_inside in E by (assumption || lia). discriminate.
Qed.

Lemma log_grid_size (n : nat) (f : list complex) :
  np.size (np.log_plus_1 (histogram n f)) = (n * n)%nat.
Proof.
  destruct (histogram_shape n f) as [Hlen Hrows].
  unfold np.size, np.log_plus_1. rewrite <- flat_map_concat_map.
  rewrite flat_map_constant_length with (c := n); [now rewrite Hlen|].
  intros row Hrow. rewrite length_map.
  rewrite List.Forall_forall in Hrows. now apply Hrows.
Qed.

(** [DisplayHeatmap] never raises an exception of class [Exception]: what
    [ax.imshow] raises for a colour map it does not know ends in the error
    log and the error dialog. *)
Lemma DisplayHeatmap_run (img : list (list R)) (color_map : string) (w : world) :
  DisplayHeatmap img color_map w
  = (Returned tt, add_events w (display_events w img color_map)).
Proof.
  unfold DisplayHeatmap, try_except, display_events.
  destruct (np.any_positive img); [|run_statements].
  destruct (colormaps w color_map) eqn:Hc.
  - unfold bind, emit, logging, ax.imshow. cbn [colormaps add_events]. rewrite Hc.
    run_statements.
  - unfold bind, emit, logging, ax.imshow. cbn [colormaps add_events]. rewrite Hc.
    run_statements.
Qed.


Lemma savefig_writes (output : string) (dpi : Z) (name : string) (w : world) :
  picture_written w output dpi = Some name ->
  plt.savefig output dpi w
  = (Returned tt, add_events (write_file w name NotNpy) [Savefig output dpi]).
Proof.
  unfold picture_written, plt.savefig. destruct (picture_file w output dpi) as [n|];
    [|discriminate].
  destruct (writable w n); [|discriminate]. now intros [= ->].
Qed.

Lemma savefig_refuses (output : string) (dpi : Z) (w : world) :
  picture_written w output dpi = None ->
  exists e, plt.savefig output dpi w = (Raised e, w) /\ Exception e = true.
Proof.
  unfold picture_written, plt.savefig. destruct (picture_file w output dpi) as [n|].
  - destruct (writable w n); [discriminate|]. now exists OSError.
  - now exists ValueError.
Qed.

Lemma picture_written_add_events (w : world) (evs : list event) (output : string) (dpi : Z) :
  picture_written (add_events w evs) output dpi = picture_written w output dpi.
Proof. reflexivity. Qed.

(** The end of the two heat-map jobs, from the display on, inside the
    [try] of the job: the picture is written and announced, or the
    exception of [plt.savefig] is logged and shown. *)
Lemma job_end_run (error_msg : string) (img : list (list R))
    (color_map output : string) (dpi : Z) (w : world) :
  try_except
    (DisplayHeatmap img color_map ;;
     plt.savefig output dpi ;;
     logging INFO "Heatmap saved" ;;
     emit (Dialog ICON_INFORMATION))
    Exception
    (fun e => logging ERROR error_msg ;; emit (Dialog ICON_ERROR)) w
  = (Returned tt,
     match picture_written w output dpi with
     | Some name =>
         add_events (write_file w name NotNpy)
           (display_events w img color_map
            ++ [Savefig output dpi; Log INFO "Heatmap saved"; Dialog ICON_INFORMATION])
     | None =>
         add_events w (display_events w img color_map
                       ++ [Log ERROR error_msg; Dialog ICON_ERROR])
     end).
Proof.
  unfold try_except.
  rewrite (bind_returned _ _ _ _ _ (DisplayHeatmap_run img color_map w)).
  destruct (picture_written w output dpi) as [name|] eqn:Hpic.
  - rewrite (bind_returned _ _ _ _ _
               (savefig_writes output dpi name
                  (add_events w (display_events w img color_map)) Hpic)).
    run_statements.
  - destruct (savefig_refuses output dpi
                (add_events w (display_events w img color_map)) Hpic) as (e & He & Hexc).
    rewrite (bind_raised _ _ _ _ _ He), Hexc. run_statements.
Qed.

(** The statements of a job after [heat_map], for a grid that is not
    empty. *)
Lemma job_after_heat_map (error_msg : string) (img : list (list R))
    (color_map output : string) (dpi : Z) (w : world) :
  (np.size img =? 0)%nat = false ->
  try_except
    ((if (np.size img =? 0)%nat then raise ValueError else ret tt) ;;
     DisplayHeatmap img color_map ;;
     plt.savefig output dpi ;;
     logging INFO "Heatmap saved" ;;
     emit (Dialog ICON_INFORMATION))
    Exception
    (fun e => logging ERROR error_msg ;; emit (Dialog ICON_ERROR)) w
  = (Returned tt,
     match picture_written w output dpi with
     | Some name =>
         add_events (write_file w name NotNpy)
           (display_events w img color_map
            ++ [Savefig output dpi; Log INFO "Heatmap saved"; Dialog ICON_INFORMATION])
     | None =>
         add_events w (display_events w img color_map
                       ++ [Log ERROR error_msg; Dialog ICON_ERROR])
     end).
Proof.
  intros Hsize. rewrite <- (job_end_run error_msg img color_map output dpi w).
  unfold try_except. rewrite Hsize. unfold bind at 1, ret at 1. reflexivity.
Qed.

Lemma try_except_bind_returned {A B : Type} (m : M A) (k : A -> M B)
    (catches : exn -> bool) (handler : exn -> M B) (w w1 : world) (a : A) :
  m w = (Returned a, w1) ->
  try_except (bind m k) catches handler w = try_except (k a) catches handler w1.
Proof. intros H. unfold try_except, bind. now rewrite H. Qed.

Lemma size_positive (n : nat) (f : list complex) :
  (1 <= n)%nat -> (np.size (np.log_plus_1 (histogram n f)) =? 0)%nat = false.
Proof. intros Hn. rewrite log_grid_size. apply Nat.eqb_neq. nia. Qed.

(** The heat-map part of a job, in every world: [heat_map] and what
    follows it inside the [try] of the job. *)
Lemma heat_job_run (error_msg : string) (size : Z) (datafile color_map output : string)
    (dpi : Z) (w : world) :
  try_except
    (img <- heat_map size datafile progress_callback_heat ;;
     (if (np.size img =? 0)%nat then raise ValueError else ret tt) ;;
     DisplayHeatmap img color_map ;;
     plt.savefig output dpi ;;
     logging INFO "Heatmap saved" ;;
     emit (Dialog ICON_INFORMATION))
    Exception
    (fun e => logging ERROR error_msg ;; emit (Dialog ICON_ERROR)) w
  = (Returned tt,
     pictured size datafile output dpi w
       (heat_job_events error_msg size datafile color_map output dpi w)).
Proof.
  unfold pictured, heat_job_events, binned, readable.
  assert (Hfail :
    (forall f, files w !! datafile = Some (NpyArray f) ->
               size < 1 \/ fits w size = false) ->
    try_except
      (img <- heat_map size datafile progress_callback_heat ;;
       (if (np.size img =? 0)%nat then raise ValueError else ret tt) ;;
       DisplayHeatmap img color_map ;;
       plt.savefig output dpi ;;
       logging INFO "Heatmap saved" ;;
       emit (Dialog ICON_INFORMATION))
      Exception
      (fun e => logging ERROR error_msg ;; emit (Dialog ICON_ERROR)) w
    = (Returned tt,
       add_events w [Log INFO "Starting heatmap generation"; Log ERROR "Error in heat_map";
                     Log ERROR error_msg; Dialog ICON_ERROR])).
  { intros Hbad.
    rewrite (try_except_bind_returned _ _ _ _ _ _ _
               (heat_map_fails size datafile progress_callback_heat w Hbad)).
    unfold try_except. run_statements. }
  destruct (files w !! datafile) as [[f|]|] eqn:Hf;
    [|apply Hfail; intros f Hf'; discriminate
     |apply Hfail; intros f Hf'; discriminate].
  destruct (Z.leb_spec 1 size) as [Hs | Hs];
    [|cbn [andb]; apply Hfail; intros; left; lia].
  destruct (fits w size) eqn:Hfits;
    [|cbn [andb]; apply Hfail; intros; now right].
  cbn [andb].
  rewrite (try_except_bind_returned _ _ _ _ _ _ _
             (heat_map_run_job size datafile f w Hf Hs Hfits)).
  rewrite job_after_heat_map by (apply size_positive; lia).
  rewrite picture_written_add_events.
  destruct (picture_written w output dpi); run_statements.
Qed.

(** The job behind "Heatmap". *)
Lemma RunGenerateHeatmap_run (size : Z) (datafile color_map output : string) (dpi : Z)
    (w : world) :
  RunGenerateHeatmap size datafile color_map output dpi w
  = (Returned tt,
     pictured size datafile output dpi w
       (heat_job_events "Error in RunGenerateHeatmap" size datafile
          color_map output dpi w)).
Proof. apply heat_job_run. Qed.

(** The job behind "All", once [save_roots] returned. *)
Lemma RunSaveAndGenerate_run (np_roots : list Z -> result (list complex))
    (degree size : Z) (datafile color_map output : string) (dpi : Z) (w w1 : world) :
  save_roots np_roots degree datafile progress_callback_save w = (Returned tt, w1) ->
  RunSaveAndGenerate np_roots degree size datafile color_map output dpi w
  = (Returned tt,
     pictured size datafile output dpi w1
       (heat_job_events "Error in RunSaveAndGenerate" size datafile
          color_map output dpi w1)).
Proof.
  intros Hsave. unfold RunSaveAndGenerate.
  rewrite (try_except_bind_returned _ _ _ _ _ _ _ Hsave). apply heat_job_run.
Qed.

Lemma trace_pictured (size : Z) (datafile output : string) (dpi : Z) (w : world)
    (evs : list event) :
  trace (pictured size datafile output dpi w evs) = trace w ++ evs.
Proof.
  unfold pictured. destruct (binned w size datafile); [|reflexivity].
  now destruct (picture_written w output dpi).
Qed.

(** The same job on a missing or unreadable file: the empty array is
    turned into an error, logged and shown; nothing is drawn or saved. *)
Lemma RunGenerateHeatmap_unreadable (size : Z) (datafile color_map output : string)
    (dpi : Z) (w : world) :
  files w !! datafile = None \/ files w !! datafile = Some NotNpy ->
  RunGenerateHeatmap size datafile color_map output dpi w
  = (Returned tt,
     add_events w [Log INFO "Starting heatmap generation";
                   Log ERROR "Error in heat_map";
                   Log ERROR "Error in RunGenerateHeatmap";
                   Dialog ICON_ERROR]).
Proof.
  intros Hbad. rewrite RunGenerateHeatmap_run.
  unfold pictured, heat_job_events, binned, readable.
  destruct Hbad as [-> | ->]; reflexivity.
Qed.


(** C7, as the code has it.  The claim that an unwritable or unreadable
    file surfaces as an exception of the save or load operation does not
    hold: one run of each operation on such a file returns normally. *)
Lemma io_failure_not_surfaced :
  (writable readonly_world (np.npy_name "roots_degree_1.npy") = false /\
   ~ raises (save_roots small_solver 1 "roots_degree_1.npy" None) readonly_world) /\
  (files empty_world !! "roots_degree_3.npy" = None /\
   ~ raises (heat_map 100 "roots_degree_3.npy" None) empty_world).
Proof.
  split; (split; [reflexivity|]); apply returns_not_raises.
  - destruct (save_roots_returns small_solver 1 "roots_degree_1.npy" None readonly_world
                None_raises_nothing) as (w' & H).
    now exists tt, w'.
  - apply heat_map_returns. exact None_raises_nothing.
Qed.

(** C7, amended.  When the file cannot be written, [save_roots] catches the
    error, logs it as its last event and returns [None], leaving the files
    as they were; when the file is missing or is not an array, [heat_map]
    catches the error, logs it and returns the empty array, and it is by
    that empty array that the heat-map job recognises the failure: it logs
    and shows an error and neither draws nor saves. *)
Theorem io_failures_absorbed (np_roots : list Z -> result (list complex))
    (degree size : Z) (datafile color_map output : string) (dpi : Z)
    (cb : callback) (w : world) :
  passive cb ->
  0 <= degree ->
  (writable w (np.npy_name datafile) = false ->
   exists evs,
     save_roots np_roots degree datafile cb w
     = (Returned tt, add_events w (evs ++ [Log ERROR "Error in save_roots"])))
  /\
  (files w !! datafile = None \/ files w !! datafile = Some NotNpy ->
   heat_map size datafile cb w
   = (Returned [], add_events w [Log INFO "Starting heatmap generation";
                                Log ERROR "Error in heat_map"]) /\
   RunGenerateHeatmap size datafile color_map output dpi w
   = (Returned tt,
      add_events w [Log INFO "Starting heatmap generation";
                    Log ERROR "Error in heat_map";
                    Log ERROR "Error in RunGenerateHeatmap";
                    Dialog ICON_ERROR])).
Proof.
  intros Hp Hd. split.
  - intros Hw. now apply save_roots_unwritable.
  - intros Hbad. split.
    + apply heat_map_fails. intros f Hf.
      destruct Hbad as [H | H]; rewrite H in Hf; discriminate.
    + now apply RunGenerateHeatmap_unreadable.
Qed.

Lemma io_failures_absorbed_witness :
  (exists evs,
     save_roots small_solver 1 "roots_degree_1.npy" None readonly_world
     = (Returned tt,
        add_events readonly_world (evs ++ [Log ERROR "Error in save_roots"])))
  /\
  heat_map 100 "roots_degree_1.npy" None readonly_world
  = (Returned [], add_events readonly_world [Log INFO "Starting heatmap generation";
                                            Log ERROR "Error in heat_map"]) /\
  RunGenerateHeatmap 100 "roots_degree_1.npy" "afmhot" "polyroots.png" 300 readonly_world
  = (Returned tt,
     add_events readonly_world [Log INFO "Starting heatmap generation";
                                Log ERROR "Error in heat_map";
                                Log ERROR "Error in RunGenerateHeatmap";
                                Dialog ICON_ERROR]).
Proof.
  destruct (io_failures_absorbed small_solver 1 100 "roots_degree_1.npy" "afmhot"
              "polyroots.png" 300 None readonly_world None_passive ltac:(lia))
    as [Hsave Hload].
  split; [apply Hsave; reflexivity | apply Hload; left; reflexivity].
Defined.

(** The failed save, evaluated: the solves are done, then the write fails
    and only the log knows. *)
Example save_roots_unwritable_degree_1 :
  save_roots small_solver 1 "roots_degree_1.npy" None readonly_world
  = (Returned tt,
     add_events readonly_world
       [Log INFO "Starting to save roots";
        Log DEBUG "Computed roots for polynomial coefficients";
        Log DEBUG "Computed roots for polynomial coefficients";
        Log ERROR "Error in save_roots"]).
Proof. reflexivity. Qed.




(** ** Runs of the model *)

(** The four vectors of degree 2, in the order they are produced. *)
Example enumeration_degree_2 :
  Enumerator.coeff_combinations 2 = [[1; -1; -1]; [1; -1; 1]; [1; 1; -1]; [1; 1; 1]].
Proof. reflexivity. Qed.

(** [save_roots] for degree 2: eight roots under the name it was given. *)
Example save_roots_degree_2 :
  files (snd (save_roots small_solver 2 "roots_degree_2.npy" None empty_world))
    !! "roots_degree_2.npy"
  = Some (NpyArray [Complex (double 1.618034) 0; Complex (double (-0.618034)) 0;
                    Complex (double 0.5) (double 0.866025);
                    Complex (double 0.5) (double (-0.866025));
                    Complex (double (-1.618034)) 0; Complex (double 0.618034) 0;
                    Complex (double (-0.5)) (double 0.866025);
                    Complex (double (-0.5)) (double (-0.866025))]).
Proof. vm_compute. reflexivity. Qed.

(** A failed solve contributes no root and does not stop the batch: degree
    3 is beyond [small_solver], so all eight solves fail and the empty
    collection is saved. *)
Example save_roots_all_solves_fail :
  files (snd (save_roots small_solver 3 "roots_degree_3.npy" None empty_world))
    !! "roots_degree_3.npy"
  = Some (NpyArray []).
Proof. vm_compute. reflexivity. Qed.

(** A name without [.npy]: [np.save] writes next to it, and [np.load] of
    the name as given finds nothing. *)
Example save_appends_npy :
  let w := snd (np.save "roots" [Complex 1 0] empty_world) in
  files w !! "roots.npy" = Some (NpyArray [Complex 1 0]) /\
  fst (np.load "roots" w) = Raised FileNotFoundError.
Proof. vm_compute. split; reflexivity. Qed.

(** A grid of 4 by 4 cells: [1.8] belongs to the last cell of its axis,
    [-1.8] to the first, and the two points outside the window are in no
    cell.  The double [0.9] is below edge 3 of its axis, which is the
    double [3 * 0.9 - 1.8], so the point [0.9-0.9j] is counted in row 2. *)
Example histogram2d_4_by_4 :
  let f := [Complex 0 0; Complex (double 1.8) (double 1.8);
            Complex (double (-1.8)) (double (-1.8)); Complex (double 1.9) 0;
            Complex (double 0.9) (double (-0.9)); Complex (double 0.5) (double 0.5);
            Complex 0 2] in
  fst (fst (match fst (np.histogram2d (map real f) (map imag f) 4
                         X_MIN X_MAX Y_MIN Y_MAX empty_world) with
            | Returned h => h
            | Raised _ => ([], [], [])
            end))
  = [[1; 0; 0; 0]; [0; 0; 0; 0]; [0; 1; 2; 0]; [0; 0; 0; 1]]%nat.
Proof. vm_compute. reflexivity. Qed.

(** A size below 1 is refused by [np.histogram2d], and so is a size the
    memory does not take; [heat_map] answers with the empty array. *)
Example heat_map_size_0 :
  fst (heat_map 0 "test_roots.npy" None test_world) = Returned [].
Proof. reflexivity. Qed.

Example heat_map_size_too_large :
  fst (heat_map 1000000 "test_roots.npy" None test_world) = Returned [].
Proof. reflexivity. Qed.

(** A name whose format matplotlib does not write: the job ends with its
    error log entry and the error dialog, and no picture. *)
Example unknown_picture_format :
  exists evs,
    RunGenerateHeatmap 100 "far_roots.npy" "afmhot" "polyroots.xyz" 300 test_world
    = (Returned tt, add_events test_world evs) /\
    In (Log ERROR "Error in RunGenerateHeatmap") evs /\
    In (Dialog ICON_ERROR) evs /\
    ~ In (Savefig "polyroots.xyz" 300) evs.
Proof.
  eexists. split.
  - rewrite RunGenerateHeatmap_run. reflexivity.
  - unfold heat_job_events.
    replace (files test_world !! "far_roots.npy") with (Some (NpyArray far_roots))
      by reflexivity.
    unfold display_events.
    rewrite (histogram_none_inside (Z.to_nat 100) far_roots grid_in_order_100)
      by reflexivity.
    cbn. intuition discriminate.
Qed.

(** * Further properties of the code *)

(** ** What [save_roots] writes *)

Section SaveRootsMore.

Variable np_roots : list Z -> result (list complex).

Lemma solve_length (d : nat) (v : list Z) (roots : list complex) :
  counts_roots np_roots -> In v (Enumerator.coeff_combinations d) ->
  np_roots v = Returned roots -> length roots = d.
Proof.
  intros Hc Hv Hr.
  apply coeff_combinations_In in Hv as (t & -> & Hlen & Hall).
  rewrite (Hc _ _ Hr).
  - simpl. lia.
  - simpl. discriminate.
  - assert (Hin : In (List.last (1 :: t) 0) (1 :: t)).
    { destruct (exists_last (l := 1 :: t)) as (x & y & Hxy); [discriminate|].
      rewrite Hxy, last_last. apply in_or_app. right. now left. }
    destruct Hin as [<- | Hin]; [discriminate|].
    rewrite List.Forall_forall in Hall. destruct (Hall _ Hin) as [-> | ->]; discriminate.
Qed.

Lemma batches_length (d : nat) (vs : list (list Z)) :
  counts_roots np_roots ->
  (forall v, In v vs -> In v (Enumerator.coeff_combinations d)) ->
  length (concat (map (roots_batch np_roots) vs))
  = (d * length (List.filter (fun v => returned (np_roots v)) vs))%nat.
Proof.
  intros Hc Hvs. induction vs as [|v vs IH]; [simpl; lia|].
  cbn [map concat List.filter]. rewrite length_app, IH by (intros u Hu; apply Hvs; now right).
  unfold roots_batch. destruct (np_roots v) as [roots | e] eqn:Hr; cbn [returned length].
  - rewrite (solve_length d v roots Hc (Hvs v (or_introl eq_refl)) Hr). lia.
  - lia.
Qed.

Lemma root_collection_counts (d : nat) :
  counts_roots np_roots ->
  length (root_collection np_roots d) = (d * solved_count np_roots d)%nat.
Proof. intros Hc. unfold root_collection, solved_count. now apply batches_length. Qed.

End SaveRootsMore.

(** X1.  A root computation that fails costs the collection its roots and
    nothing else: for a degree d that is not negative and a path that can
    be written, [save_roots] writes the batches of all vectors in
    enumeration order, a failed one being empty, so the array has d times
    as many entries as there are computations that returned. *)
Theorem save_roots_counts_successes (np_roots : list Z -> result (list complex))
    (d : Z) (datafile : string) (cb : callback) (w : world) :
  counts_roots np_roots ->
  passive cb ->
  0 <= d ->
  writable w (np.npy_name datafile) = true ->
  exists C,
    files (snd (save_roots np_roots d datafile cb w)) !! np.npy_name datafile
    = Some (NpyArray C) /\
    C = concat (map (roots_batch np_roots) (Enumerator.coeff_combinations (Z.to_nat d))) /\
    length C = (Z.to_nat d * solved_count np_roots (Z.to_nat d))%nat.
Proof.
  intros Hc Hp Hd Hw.
  destruct (save_roots_run np_roots d datafile cb w Hp Hd) as (evs & Hrun).
  rewrite Hrun. unfold saved. rewrite Hw. cbn [snd files].
  exists (root_collection np_roots (Z.to_nat d)).
  split; [apply lookup_insert_eq|]. split; [reflexivity|].
  now apply root_collection_counts.
Qed.

Lemma flaky_solver_counts_roots : counts_roots flaky_solver.
Proof.
  intros p roots H _ _. unfold flaky_solver, small_solver in H.
  repeat match type of H with
         | context [match ?x with _ => _ end] => destruct x
         end; try discriminate; injection H as <-; reflexivity.
Qed.

Lemma save_roots_counts_successes_witness :
  exists C,
    files (snd (save_roots flaky_solver 2 "roots_degree_2.npy" None empty_world))
      !! np.npy_name "roots_degree_2.npy"
    = Some (NpyArray C) /\
    C = concat (map (roots_batch flaky_solver)
                  (Enumerator.coeff_combinations (Z.to_nat 2))) /\
    length C = (Z.to_nat 2 * solved_count flaky_solver (Z.to_nat 2))%nat.
Proof.
  apply (save_roots_counts_successes flaky_solver 2 "roots_degree_2.npy" None empty_world).
  - exact flaky_solver_counts_roots.
  - exact None_passive.
  - lia.
  - reflexivity.
Defined.

(** One failure among the four quadratics: six roots are left. *)
Example save_roots_one_failure :
  files (snd (save_roots flaky_solver 2 "roots_degree_2.npy" None empty_world))
    !! "roots_degree_2.npy"
  = Some (NpyArray [Complex (double 1.618034) 0; Complex (double (-0.618034)) 0;
                    Complex (double (-1.618034)) 0; Complex (double 0.618034) 0;
                    Complex (double (-0.5)) (double 0.866025);
                    Complex (double (-0.5)) (double (-0.866025))]).
Proof. vm_compute. reflexivity. Qed.

(** X2.  What the test of [save_roots] checks, in general: for a degree of
    at least 1 and a path that can be written, the file exists afterwards,
    and it holds at least one root as soon as one root computation of the
    degree returned. *)
Theorem saved_file_not_empty (np_roots : list Z -> result (list complex))
    (d : Z) (datafile : string) (cb : callback) (w : world) (v : list Z)
    (roots : list complex) :
  counts_roots np_roots ->
  passive cb ->
  1 <= d ->
  writable w (np.npy_name datafile) = true ->
  In v (Enumerator.coeff_combinations (Z.to_nat d)) ->
  np_roots v = Returned roots ->
  exists C,
    files (snd (save_roots np_roots d datafile cb w)) !! np.npy_name datafile
    = Some (NpyArray C) /\
    (0 < length C)%nat.
Proof.
  intros Hc Hp Hd Hw Hv Hr.
  destruct (save_roots_run np_roots d datafile cb w Hp) as (evs & Hrun); [lia|].
  rewrite Hrun. unfold saved. rewrite Hw. cbn [snd files].
  exists (root_collection np_roots (Z.to_nat d)).
  split; [apply lookup_insert_eq|].
  rewrite root_collection_counts by exact Hc.
  assert (0 < solved_count np_roots (Z.to_nat d))%nat.
  { unfold solved_count.
    assert (Hin : In v (List.filter (fun u => returned (np_roots u))
                          (Enumerator.coeff_combinations (Z.to_nat d)))).
    { apply filter_In. split; [exact Hv | now rewrite Hr]. }
    destruct (List.filter _ _); [destruct Hin | simpl; lia]. }
  nia.
Qed.

Lemma saved_file_not_empty_witness :
  exists C,
    files (snd (save_roots flaky_solver 2 "roots_degree_2_test.npy" None empty_world))
      !! np.npy_name "roots_degree_2_test.npy"
    = Some (NpyArray C) /\
    (0 < length C)%nat.
Proof.
  apply (saved_file_not_empty flaky_solver 2 "roots_degree_2_test.npy" None empty_world
           [1; 1; 1] [Complex (double (-0.5)) (double 0.866025);
                      Complex (double (-0.5)) (double (-0.866025))]).
  - exact flaky_solver_counts_roots.
  - exact None_passive.
  - lia.
  - reflexivity.
  - simpl. tauto.
  - reflexivity.
Defined.

Lemma save_roots_negative_run (np_roots : list Z -> result (list complex))
    (d : Z) (datafile : string) (cb : callback) (w : world) :
  d < 0 ->
  save_roots np_roots d datafile cb w
  = (Returned tt,
     add_events w [Log INFO "Starting to save roots"; Log ERROR "Error in save_roots"]).
Proof.
  intros Hd. unfold save_roots, try_except.
  unfold bind at 1. unfold logging at 1, emit at 1.
  unfold bind at 1. rewrite coeff_combinations_negative by exact Hd.
  run_statements.
Qed.

(** X3.  A negative degree stops [save_roots] at [product], before any
    root computation: the error is logged, the callback, whatever it is, is
    never called, and the files stay as they were. *)
Theorem save_roots_negative_degree (np_roots : list Z -> result (list complex))
    (d : Z) (datafile : string) (cb : callback) (w : world) :
  d < 0 ->
  save_roots np_roots d datafile cb w
  = (Returned tt,
     add_events w [Log INFO "Starting to save roots"; Log ERROR "Error in save_roots"]) /\
  files (snd (save_roots np_roots d datafile cb w)) = files w /\
  progress_calls (events_of (save_roots np_roots d datafile cb) w)
  = progress_calls (trace w).
Proof.
  intros Hd. unfold events_of. rewrite save_roots_negative_run by exact Hd.
  repeat split. cbn [snd]. rewrite trace_add_events, progress_calls_app.
  now rewrite app_nil_r.
Qed.

Lemma save_roots_negative_degree_witness :
  save_roots small_solver (-1) "roots_degree_-1.npy" recording_callback empty_world
  = (Returned tt,
     add_events empty_world
       [Log INFO "Starting to save roots"; Log ERROR "Error in save_roots"]) /\
  files (snd (save_roots small_solver (-1) "roots_degree_-1.npy" recording_callback
                empty_world)) = files empty_world /\
  progress_calls
    (events_of (save_roots small_solver (-1) "roots_degree_-1.npy" recording_callback)
       empty_world)
  = progress_calls (trace empty_world).
Proof.
  apply (save_roots_negative_degree small_solver (-1) "roots_degree_-1.npy"
           recording_callback empty_world).
  lia.
Defined.

Lemma npy_name_other (file : string) :
  np.endswith file ".npy" = false -> np.npy_name file <> file.
Proof.
  intros Hend. unfold np.npy_name. rewrite Hend. intros E.
  apply (f_equal String.length) in E. rewrite string_length_app in E.
  simpl in E. lia.
Qed.

(** X4.  [save_roots] touches one path only, the [.npy] name of its data
    file: every other file is as before, and so is what may be written. *)
Theorem save_roots_touches_one_file (np_roots : list Z -> result (list complex))
    (d : Z) (datafile : string) (cb : callback) (w : world) (other : string) :
  passive cb ->
  other <> np.npy_name datafile ->
  let w' := snd (save_roots np_roots d datafile cb w) in
  files w' !! other = files w !! other /\ writable w' = writable w.
Proof.
  intros Hp Hne w'. subst w'. destruct (Z_lt_le_dec d 0) as [Hd | Hd].
  - rewrite save_roots_negative_run by exact Hd. split; reflexivity.
  - destruct (save_roots_run np_roots d datafile cb w Hp Hd) as (evs & Hrun).
    rewrite Hrun. unfold saved.
    destruct (writable w (np.npy_name datafile)); cbn [snd files writable].
    + split; [|reflexivity]. apply lookup_insert_ne. congruence.
    + split; reflexivity.
Qed.

Lemma save_roots_touches_one_file_witness :
  let w' := snd (save_roots small_solver 1 "roots_degree_1.npy" None test_world) in
  files w' !! "test_roots.npy" = files test_world !! "test_roots.npy" /\
  writable w' = writable test_world.
Proof.
  apply (save_roots_touches_one_file small_solver 1 "roots_degree_1.npy" None test_world
           "test_roots.npy").
  - exact None_passive.
  - discriminate.
Defined.

(** X5.  The two stages compose through the file: after [save_roots] on a
    name that ends with [.npy] and can be written, [heat_map] on the same
    name returns the log grid of the histogram of the collection that was
    just computed, whatever the file held before. *)
Theorem save_then_heat_map (np_roots : list Z -> result (list complex))
    (d size : Z) (datafile : string) (cb1 cb2 : callback) (w : world) :
  passive cb1 ->
  passive cb2 ->
  0 <= d ->
  1 <= size ->
  fits w size = true ->
  np.endswith datafile ".npy" = true ->
  writable w datafile = true ->
  fst (heat_map size datafile cb2 (snd (save_roots np_roots d datafile cb1 w)))
  = Returned (np.log_plus_1
                (histogram (Z.to_nat size) (root_collection np_roots (Z.to_nat d)))).
Proof.
  intros Hp1 Hp2 Hd Hs Hfits Hend Hw.
  assert (Hname : np.npy_name datafile = datafile).
  { unfold np.npy_name. now rewrite Hend. }
  rewrite <- Hname in Hw.
  destruct (save_roots_then_load np_roots d datafile cb1 w Hp1 Hd Hw)
    as (Hfile & Hfits' & _).
  rewrite Hname in Hfile.
  match goal with
  | |- fst (heat_map _ _ _ ?w1) = _ =>
      destruct (heat_map_run size datafile cb2 (root_collection np_roots (Z.to_nat d)) w1)
        as (evs2 & Hheat)
  end.
  - exact Hfile.
  - exact Hs.
  - now rewrite Hfits'.
  - exact Hp2.
  - now rewrite Hheat.
Qed.

Lemma save_then_heat_map_witness :
  fst (heat_map 100 "roots_degree_2.npy" None
         (snd (save_roots small_solver 2 "roots_degree_2.npy" None empty_world)))
  = Returned (np.log_plus_1
                (histogram (Z.to_nat 100) (root_collection small_solver (Z.to_nat 2)))).
Proof.
  apply (save_then_heat_map small_solver 2 100 "roots_degree_2.npy" None None empty_world).
  - exact None_passive.
  - exact None_passive.
  - lia.
  - lia.
  - reflexivity.
  - reflexivity.
  - reflexivity.
Defined.

(** X6.  A data file name that does not end with [.npy] breaks the chain:
    [np.save] writes to the name with [.npy] appended, [np.load] looks for
    the name as given, so unless a file of that very name was already
    there, [heat_map] after [save_roots] returns the empty array, although
    the collection was written. *)
Theorem missing_suffix_breaks_chain (np_roots : list Z -> result (list complex))
    (d size : Z) (datafile : string) (cb1 cb2 : callback) (w : world) :
  passive cb1 ->
  0 <= d ->
  np.endswith datafile ".npy" = false ->
  files w !! datafile = None ->
  writable w (datafile ++ ".npy") = true ->
  let w' := snd (save_roots np_roots d datafile cb1 w) in
  files w' !! (datafile ++ ".npy")%string
  = Some (NpyArray (root_collection np_roots (Z.to_nat d))) /\
  fst (heat_map size datafile cb2 w') = Returned [].
Proof.
  intros Hp Hd Hend Hnone Hw w'. subst w'.
  assert (Hname : np.npy_name datafile = (datafile ++ ".npy")%string).
  { unfold np.npy_name. now rewrite Hend. }
  pose proof (npy_name_other datafile Hend) as Hother.
  destruct (save_roots_run np_roots d datafile cb1 w Hp Hd) as (evs & Hrun).
  rewrite Hrun. unfold saved. rewrite Hname in *. rewrite Hw.
  cbn [snd files add_events write_file].
  split; [apply lookup_insert_eq|].
  rewrite heat_map_fails; [reflexivity|].
  intros f Hf. cbn [files add_events write_file] in Hf.
  rewrite lookup_insert_ne in Hf by exact Hother.
  rewrite Hnone in Hf. discriminate.
Qed.

Lemma missing_suffix_breaks_chain_witness :
  let w' := snd (save_roots small_solver 2 "roots_degree_2" None empty_world) in
  files w' !! ("roots_degree_2" ++ ".npy")%string
  = Some (NpyArray (root_collection small_solver (Z.to_nat 2))) /\
  fst (heat_map 100 "roots_degree_2" None w') = Returned [].
Proof.
  apply (missing_suffix_breaks_chain small_solver 2 100 "roots_degree_2" None None
           empty_world).
  - exact None_passive.
  - lia.
  - reflexivity.
  - reflexivity.
  - reflexivity.
Defined.

(** ** What [heat_map] returns and what is drawn *)

Lemma readable_spec (w : world) (datafile : string) :
  readable w datafile = true <-> exists f, files w !! datafile = Some (NpyArray f).
Proof.
  unfold readable. destruct (files w !! datafile) as [[f|]|]; split;
    try discriminate; eauto; intros (f' & H); discriminate.
Qed.

(** X7.  The empty array is the mark of a failure and of nothing else:
    with a callback that only reports, [heat_map] returns, changes no file,
    and what it returns has size 0 exactly when the data file is missing or
    unreadable, the size is below 1, or the memory does not take the
    arrays of the size. *)
Theorem heat_map_empty_iff_failed (size : Z) (datafile : string) (cb : callback)
    (w : world) :
  passive cb ->
  exists img evs,
    heat_map size datafile cb w = (Returned img, add_events w evs) /\
    (np.size img = O <->
     readable w datafile = false \/ size < 1 \/ fits w size = false).
Proof.
  intros Hp. destruct (readable w datafile) eqn:Hr.
  - apply readable_spec in Hr as (f & Hf).
    destruct (Z_lt_le_dec size 1) as [Hs | Hs].
    + eexists _, _. split.
      * apply heat_map_fails. intros f' _. now left.
      * split; [auto | reflexivity].
    + destruct (fits w size) eqn:Hfits.
      * destruct (heat_map_run size datafile cb f w Hf Hs Hfits Hp) as (evs & Hrun).
        eexists _, _. split; [exact Hrun|]. rewrite log_grid_size. split.
        -- intros H. nia.
        -- intros [H | [H | H]]; [discriminate | lia | discriminate].
      * eexists _, _. split.
        -- apply heat_map_fails. intros f' _. now right.
        -- split; [auto | reflexivity].
  - eexists _, _. split.
    + apply heat_map_fails. intros f Hf.
      assert (readable w datafile = true) by (apply readable_spec; eauto). congruence.
    + split; [now left | reflexivity].
Qed.

Lemma heat_map_empty_iff_failed_witness :
  exists img evs,
    heat_map 100 "test_roots.npy" recording_callback test_world
    = (Returned img, add_events test_world evs) /\
    (np.size img = O <->
     readable test_world "test_roots.npy" = false \/ 100 < 1 \/
     fits test_world 100 = false).
Proof.
  apply (heat_map_empty_iff_failed 100 "test_roots.npy" recording_callback test_world).
  exact recording_callback_passive.
Defined.

(** A point of the window is in the cell its two bin numbers name. *)
Lemma window_point_has_cell (n : nat) (c : complex) :
  grid_in_order n -> (1 <= n)%nat -> in_window c = true ->
  exists i j, (i < n)%nat /\ (j < n)%nat /\ falls_in n i j c = true.
Proof.
  intros Hord Hn Hc. rewrite <- (in_grid_window n c Hord Hn) in Hc.
  unfold in_grid in Hc. cbv zeta in Hc.
  rewrite !andb_true_iff, !Nat.leb_le in Hc. destruct Hc as [[Hx1 Hx2] [Hy1 Hy2]].
  exists (np.bin_number (np.linspace X_MIN X_MAX n) (real c) - 1)%nat,
         (np.bin_number (np.linspace Y_MIN Y_MAX n) (imag c) - 1)%nat.
  split; [lia|]. split; [lia|]. unfold falls_in.
  rewrite andb_true_iff, !Nat.eqb_eq. lia.
Qed.

Lemma histogram_some_inside (n : nat) (f : list complex) (c : complex) :
  grid_in_order n -> (1 <= n)%nat -> In c f -> in_window c = true ->
  np.any_positive (np.log_plus_1 (histogram n f)) = true.
Proof.
  intros Hord Hn Hin Hc. rewrite any_positive_log.
  destruct (window_point_has_cell n c Hord Hn Hc) as (i & j & Hi & Hj & Hfalls).
  apply existsb_exists.
  exists (map (fun j => cell_count n f i j) (seq 0 n)). split.
  - unfold histogram.
    apply (in_map (fun i => map (fun j => cell_count n f i j) (seq 0 n))).
    apply in_seq. lia.
  - apply existsb_exists. exists (cell_count n f i j). split.
    + apply (in_map (fun j => cell_count n f i j)). apply in_seq. lia.
    + apply Nat.ltb_lt. unfold cell_count.
      assert (Hc' : In c (List.filter (falls_in n i j) f))
        by (apply filter_In; split; assumption).
      destruct (List.filter (falls_in n i j) f); [destruct Hc' | simpl; lia].
Qed.

(** The transformed grid has a positive cell exactly when a point of the
    collection lies in the window. *)
Lemma any_positive_iff_inside (n : nat) (f : list complex) :
  grid_in_order n -> (1 <= n)%nat ->
  np.any_positive (np.log_plus_1 (histogram n f)) = existsb in_window f.
Proof.
  intros Hord Hn. destruct (existsb in_window f) eqn:E.
  - apply existsb_exists in E as (c & Hin & Hc). now apply (histogram_some_inside n f c).
  - apply histogram_none_inside; [exact Hord|]. apply filter_nil_iff. intros c Hc.
    destruct (in_window c) eqn:Ec; [|reflexivity].
    assert (existsb in_window f = true) by (apply existsb_exists; eauto). congruence.
Qed.



(** A colour map matplotlib does not know: the picture is not drawn, the
    error is logged and shown by [DisplayHeatmap], and the job still saves
    the figure and announces it. *)
Example unknown_colour_map :
  RunGenerateHeatmap 100 "test_roots.npy" "no_such_map" "polyroots.png" 300 test_world
  = (Returned tt,
     add_events (write_file test_world "polyroots.png" NotNpy)
       [Log INFO "Starting heatmap generation"; Progress 100 100;
        Log DEBUG "Generating heatmap progress"; Log DEBUG "Heatmap generated";
        FigureClear; Log ERROR "Error in DisplayHeatmap"; Dialog ICON_ERROR;
        Savefig "polyroots.png" 300; Log INFO "Heatmap saved";
        Dialog ICON_INFORMATION]).
Proof.
  rewrite RunGenerateHeatmap_run. unfold pictured, heat_job_events.
  replace (binned test_world 100 "test_roots.npy") with true by reflexivity.
  replace (files test_world !! "test_roots.npy") with (Some (NpyArray test_roots))
    by reflexivity.
  replace (picture_written test_world "polyroots.png" 300) with (Some "polyroots.png")
    by reflexivity.
  unfold display_events.
  rewrite (any_positive_iff_inside (Z.to_nat 100) test_roots grid_in_order_100)
    by (simpl; lia).
  reflexivity.
Qed.

(** ** The three jobs *)

Lemma display_no_savefig (w : world) (img : list (list R)) (color_map output : string)
    (dpi : Z) :
  ~ In (Savefig output dpi) (display_events w img color_map).
Proof.
  unfold display_events.
  destruct (np.any_positive img); [destruct (colormaps w color_map)|];
    simpl; intuition discriminate.
Qed.

Lemma display_no_information (w : world) (img : list (list R)) (color_map : string) :
  ~ In (Dialog ICON_INFORMATION) (display_events w img color_map).
Proof.
  unfold display_events.
  destruct (np.any_positive img); [destruct (colormaps w color_map)|];
    simpl; intuition discriminate.
Qed.

(** The display reports no error when matplotlib knows the colour map. *)
Lemma display_no_error (w : world) (img : list (list R)) (color_map : string) :
  colormaps w color_map = true ->
  existsb is_error_report (display_events w img color_map) = false /\
  ~ In (Dialog ICON_ERROR) (display_events w img color_map).
Proof.
  intros Hc. unfold display_events. rewrite Hc.
  destruct (np.any_positive img); simpl; intuition discriminate.
Qed.

(** How the heat-map part of a job ends: with the picture and the
    information dialog when [heat_map] got to bin the collection and
    [plt.savefig] wrote the picture, with the error dialog and no picture
    otherwise. *)
Lemma heat_job_events_outcome (msg : string) (size : Z)
    (datafile color_map output : string) (dpi : Z) (w : world) :
  let evs := heat_job_events msg size datafile color_map output dpi w in
  let saved_picture :=
    binned w size datafile = true /\ is_Some (picture_written w output dpi) in
  (In (Savefig output dpi) evs <-> saved_picture) /\
  (In (Dialog ICON_INFORMATION) evs <-> saved_picture) /\
  (~ saved_picture -> In (Dialog ICON_ERROR) evs).
Proof.
  cbv zeta. unfold heat_job_events, binned, readable.
  assert (Hfail : forall (P : Prop), ~ P ->
    let evs := [Log INFO "Starting heatmap generation"; Log ERROR "Error in heat_map";
                Log ERROR msg; Dialog ICON_ERROR] in
    (In (Savefig output dpi) evs <-> P) /\
    (In (Dialog ICON_INFORMATION) evs <-> P) /\
    (~ P -> In (Dialog ICON_ERROR) evs)).
  { intros P HP. cbv zeta. simpl. repeat split; try tauto;
      intros H; repeat destruct H as [H | H]; try discriminate; tauto. }
  destruct (files w !! datafile) as [[f|]|]; cbn [andb];
    [|apply Hfail; intros [H _]; discriminate
     |apply Hfail; intros [H _]; discriminate].
  destruct ((1 <=? size) && fits w size) eqn:Hb;
    [|apply Hfail; intros [H _]; discriminate].
  set (D := display_events w (np.log_plus_1 (histogram (Z.to_nat size) f)) color_map).
  pose proof (display_no_savefig w (np.log_plus_1 (histogram (Z.to_nat size) f))
                color_map output dpi) as Hd1.
  pose proof (display_no_information w (np.log_plus_1 (histogram (Z.to_nat size) f))
                color_map) as Hd2.
  fold D in Hd1, Hd2.
  destruct (picture_written w output dpi) as [name|].
  - assert (Hyes : true = true /\ is_Some (Some name)) by (split; [reflexivity | eauto]).
    split; [|split]; try tauto.
    + split; [tauto|]. intros _. apply in_or_app. right. apply in_or_app. right. now left.
    + split; [tauto|]. intros _. apply in_or_app. right. apply in_or_app. right.
      simpl. tauto.
  - assert (Hno : ~ (true = true /\ is_Some (@None string))).
    { intros [_ [x Hx]]. discriminate. }
    split; [|split].
    + split; [|tauto]. intros H. exfalso.
      apply in_app_or in H as [H | H]; [simpl in H; intuition discriminate|].
      apply in_app_or in H as [H | H]; [tauto | simpl in H; intuition discriminate].
    + split; [|tauto]. intros H. exfalso.
      apply in_app_or in H as [H | H]; [simpl in H; intuition discriminate|].
      apply in_app_or in H as [H | H]; [tauto | simpl in H; intuition discriminate].
    + intros _. apply in_or_app. right. apply in_or_app. right. simpl. tauto.
Qed.

Lemma files_pictured (size : Z) (datafile output : string) (dpi : Z) (w : world)
    (evs : list event) :
  files (pictured size datafile output dpi w evs)
  = match picture_written w output dpi with
    | Some name => if binned w size datafile then <[name := NotNpy]> (files w)
                   else files w
    | None => files w
    end.
Proof.
  unfold pictured. destruct (binned w size datafile);
    now destruct (picture_written w output dpi).
Qed.

(** X9.  The job behind "Heatmap" saves the picture and shows the
    information dialog exactly when [heat_map] gets to bin the collection
    (the data file is readable, the size is at least 1 and the memory takes
    it) and [plt.savefig] accepts the name and can write the path;
    otherwise it shows the error dialog and saves nothing.  It returns in
    every case, and the picture is the one file it can change. *)
Theorem picture_saved_iff_binned (size : Z) (datafile color_map output : string)
    (dpi : Z) (w : world) :
  exists w' evs,
    RunGenerateHeatmap size datafile color_map output dpi w = (Returned tt, w') /\
    trace w' = trace w ++ evs /\
    let saved_picture :=
      binned w size datafile = true /\ is_Some (picture_written w output dpi) in
    (In (Savefig output dpi) evs <-> saved_picture) /\
    (In (Dialog ICON_INFORMATION) evs <-> saved_picture) /\
    (~ saved_picture -> In (Dialog ICON_ERROR) evs /\ files w' = files w) /\
    (forall name, saved_picture -> picture_written w output dpi = Some name ->
                  files w' = <[name := NotNpy]> (files w)).
Proof.
  eexists _, _. split; [apply RunGenerateHeatmap_run|].
  split; [apply trace_pictured|]. cbv zeta.
  pose proof (heat_job_events_outcome "Error in RunGenerateHeatmap" size datafile
                color_map output dpi w) as Hout.
  cbv zeta in Hout. destruct Hout as (H1 & H2 & H3).
  split; [exact H1|]. split; [exact H2|]. split.
  - intros Hno. split; [now apply H3|]. rewrite files_pictured.
    destruct (picture_written w output dpi) as [name|]; [|reflexivity].
    destruct (binned w size datafile); [|reflexivity].
    exfalso. apply Hno. split; [reflexivity | eauto].
  - intros name [Hb _] Hpic. rewrite files_pictured, Hpic, Hb. reflexivity.
Qed.

Lemma picture_saved_iff_binned_witness :
  exists w' evs,
    RunGenerateHeatmap 100 "test_roots.npy" "afmhot" "polyroots.png" 300 test_world
    = (Returned tt, w') /\
    trace w' = trace test_world ++ evs /\
    In (Savefig "polyroots.png" 300) evs /\
    In (Dialog ICON_INFORMATION) evs /\
    files w' = <["polyroots.png" := NotNpy]> (files test_world).
Proof.
  destruct (picture_saved_iff_binned 100 "test_roots.npy" "afmhot" "polyroots.png" 300
              test_world) as (w' & evs & Hrun & Htrace & H1 & H2 & _ & H4).
  assert (Hyes : binned test_world 100 "test_roots.npy" = true /\
                 is_Some (picture_written test_world "polyroots.png" 300)).
  { split; [reflexivity|]. exists "polyroots.png". reflexivity. }
  exists w', evs. split; [exact Hrun|]. split; [exact Htrace|].
  split; [now apply H1|]. split; [now apply H2|].
  apply H4; [exact Hyes | reflexivity].
Defined.

(** X10.  The job behind "Roots" has one ending: since [save_roots] never
    raises, the information dialog comes after it in every case, and the
    error branch of the job is never taken; when the file cannot be written
    the dialog follows the error log entry of [save_roots]. *)
Theorem roots_job_always_announces (np_roots : list Z -> result (list complex))
    (degree : Z) (datafile : string) (w : world) :
  (exists w1,
     save_roots np_roots degree datafile progress_callback_save w = (Returned tt, w1) /\
     RunSaveRoots np_roots degree datafile w
     = (Returned tt, add_events w1 [Dialog ICON_INFORMATION])) /\
  (0 <= degree -> writable w (np.npy_name datafile) = false ->
   exists evs,
     RunSaveRoots np_roots degree datafile w
     = (Returned tt,
        add_events w (evs ++ [Log ERROR "Error in save_roots";
                              Dialog ICON_INFORMATION]))).
Proof.
  split.
  - destruct (save_roots_returns np_roots degree datafile progress_callback_save w
                (passive_raises_nothing _ progress_callback_save_passive))
      as (w1 & Hsave).
    exists w1. split; [exact Hsave|].
    unfold RunSaveRoots, try_except. rewrite (bind_returned _ _ _ _ _ Hsave).
    reflexivity.
  - intros Hd Hw.
    destruct (save_roots_unwritable np_roots degree datafile progress_callback_save w
                progress_callback_save_passive Hd Hw) as (evs & Hsave).
    exists evs. unfold RunSaveRoots, try_except.
    rewrite (bind_returned _ _ _ _ _ Hsave). unfold emit.
    now rewrite add_events_app, <- app_assoc.
Qed.

Lemma roots_job_always_announces_witness :
  exists evs,
    RunSaveRoots small_solver 1 "roots_degree_1.npy" readonly_world
    = (Returned tt,
       add_events readonly_world (evs ++ [Log ERROR "Error in save_roots";
                                          Dialog ICON_INFORMATION])).
Proof.
  destruct (roots_job_always_announces small_solver 1 "roots_degree_1.npy" readonly_world)
    as [_ H].
  apply H; [lia | reflexivity].
Defined.

(** *** The events of [save_roots], one by one *)

Section SaveRootsEvents.

Variable np_roots : list Z -> result (list complex).

Lemma compute_roots_event (v : list Z) (w : world) :
  compute_roots np_roots v w
  = (Returned (roots_batch np_roots v), add_events w [solve_log np_roots v]).
Proof.
  unfold compute_roots, roots_batch, solve_log, np.roots, try_except, bind, raise,
    logging, emit, ret.
  destruct (np_roots v) as [roots | e]; reflexivity.
Qed.

Lemma imap_loop_events (cb : callback) (cb_events : Z -> Z -> list event) (total : Z)
    (todo : list (list Z)) :
  emits cb cb_events ->
  forall roots processed w,
    imap_loop np_roots cb total todo roots processed w
    = (Returned (roots ++ map (roots_batch np_roots) todo),
       add_events w (loop_events np_roots cb_events total todo processed)).
Proof.
  intros Hcb. induction todo as [|v todo IH]; intros roots processed w.
  - simpl. now rewrite app_nil_r, add_events_nil.
  - cbn [imap_loop loop_events map].
    rewrite (bind_returned _ _ _ _ _ (compute_roots_event v w)).
    rewrite (bind_returned _ _ _ _ _ (Hcb (processed + 1) total _)).
    rewrite !add_events_app.
    destruct ((processed + 1) mod 10000 =? 0).
    + unfold bind at 1, logging at 1, emit at 1. rewrite IH.
      rewrite !add_events_app. cbn [app]. rewrite <- ?app_assoc. reflexivity.
    + unfold bind at 1, ret at 1. rewrite IH.
      rewrite !add_events_app. cbn [app]. rewrite <- ?app_assoc. reflexivity.
Qed.

(** Every event of the loop is one of the callback or a log entry. *)
Lemma loop_events_kinds (cb_events : Z -> Z -> list event) (P : event -> Prop)
    (total : Z) (todo : list (list Z)) (processed : Z) :
  (forall lvl msg, P (Log lvl msg)) ->
  (forall c t, Forall P (cb_events c t)) ->
  Forall P (loop_events np_roots cb_events total todo processed).
Proof.
  intros Hlog Hcb. revert processed.
  induction todo as [|v todo IH]; intros processed; cbn [loop_events]; [constructor|].
  constructor; [unfold solve_log; destruct (np_roots v); apply Hlog|].
  apply List.Forall_app. split; [apply Hcb|].
  apply List.Forall_app. split; [|apply IH].
  destruct ((processed + 1) mod 10000 =? 0); repeat constructor. apply Hlog.
Qed.

(** The progress reports among the events of the loop. *)
Lemma loop_events_progress (cb_events : Z -> Z -> list event) (total : Z)
    (todo : list (list Z)) (processed : Z) :
  (forall c t, progress_calls (cb_events c t) = [(c, t)]) ->
  progress_calls (loop_events np_roots cb_events total todo processed)
  = map (fun i => (processed + Z.of_nat i, total)) (seq 1 (length todo)).
Proof.
  intros Hcb. revert processed.
  induction todo as [|v todo IH]; intros processed; [reflexivity|].
  cbn [loop_events length seq map].
  change (solve_log np_roots v :: ?l) with ([solve_log np_roots v] ++ l).
  rewrite !progress_calls_app, Hcb, IH.
  replace (progress_calls [solve_log np_roots v]) with (@nil (Z * Z))
    by (unfold solve_log; now destruct (np_roots v)).
  replace (progress_calls (if (processed + 1) mod 10000 =? 0
                           then [Log INFO "Processed polynomials"] else []))
    with (@nil (Z * Z)) by now destruct ((processed + 1) mod 10000 =? 0).
  cbn [app]. rewrite <- (seq_shift (length todo) 1), map_map.
  f_equal. apply map_ext. intros i. f_equal. lia.
Qed.

(** [save_roots], event by event, for a degree that is not negative. *)
Lemma save_roots_events (d : Z) (datafile : string) (cb : callback)
    (cb_events : Z -> Z -> list event) (w : world) :
  emits cb cb_events -> 0 <= d ->
  save_roots np_roots d datafile cb w
  = (Returned tt,
     saved np_roots d datafile w
       ([Log INFO "Starting to save roots"]
        ++ loop_events np_roots cb_events (2 ^ d)
             (Enumerator.coeff_combinations (Z.to_nat d)) 0
        ++ [if writable w (np.npy_name datafile)
            then Log INFO "Successfully saved roots"
            else Log ERROR "Error in save_roots"])).
Proof.
  intros Hcb Hd. unfold save_roots, try_except.
  unfold bind at 1. unfold logging at 1, emit at 1.
  unfold bind at 1. rewrite coeff_combinations_run by exact Hd.
  rewrite (bind_returned _ _ _ _ _
             (imap_loop_events cb cb_events (2 ^ d) _ Hcb [] 0 _)).
  cbn [app]. unfold bind at 1, lift at 1. rewrite concatenate_batches.
  unfold bind, np.save, logging, emit, saved. rewrite add_events_app.
  cbn [writable add_events].
  destruct (writable w (np.npy_name datafile)).
  - unfold add_events. cbn. now rewrite <- !app_assoc.
  - cbn. unfold add_events. cbn. now rewrite <- !app_assoc.
Qed.

End SaveRootsEvents.

Lemma loop_events_no_error (np_roots : list Z -> result (list complex))
    (cb_events : Z -> Z -> list event) (total : Z) (todo : list (list Z))
    (processed : Z) :
  (forall v, In v todo -> exists roots, np_roots v = Returned roots) ->
  (forall c t, existsb is_error_report (cb_events c t) = false) ->
  existsb is_error_report (loop_events np_roots cb_events total todo processed) = false.
Proof.
  intros Hs Hcb. revert processed.
  induction todo as [|v todo IH]; intros processed; [reflexivity|].
  cbn [loop_events existsb]. rewrite !existsb_app, Hcb, IH by (intros u Hu; apply Hs; now right).
  destruct (Hs v (or_introl eq_refl)) as (roots & Hr).
  unfold solve_log. rewrite Hr.
  now destruct ((processed + 1) mod 10000 =? 0).
Qed.

(** X11.  The job behind "All" on a data file name that ends with [.npy]
    and can be written, with a degree that is not negative, a size of at
    least 1 that the memory takes, a colour map matplotlib knows and a
    picture [plt.savefig] can write: the new collection is in the data
    file, the picture drawn from it is written and the information dialog
    is shown; no error dialog is shown, and when every root computation
    returned no error is logged either. *)
Theorem all_job_succeeds (np_roots : list Z -> result (list complex))
    (degree size : Z) (datafile color_map output : string) (dpi : Z) (name : string)
    (w : world) :
  0 <= degree ->
  1 <= size ->
  fits w size = true ->
  np.endswith datafile ".npy" = true ->
  writable w datafile = true ->
  colormaps w color_map = true ->
  picture_file w output dpi = Some name ->
  writable w name = true ->
  exists w' evs,
    RunSaveAndGenerate np_roots degree size datafile color_map output dpi w
    = (Returned tt, w') /\
    files w' = <[name := NotNpy]>
                 (<[datafile := NpyArray (root_collection np_roots (Z.to_nat degree))]>
                    (files w)) /\
    trace w' = trace w ++ evs /\
    In (Savefig output dpi) evs /\
    In (Dialog ICON_INFORMATION) evs /\
    ~ In (Dialog ICON_ERROR) evs /\
    (all_solves_succeed np_roots (Z.to_nat degree) ->
     existsb is_error_report evs = false).
Proof.
  intros Hd Hs Hfits Hend Hw Hcm Hpf Hwn.
  assert (Hname : np.npy_name datafile = datafile).
  { unfold np.npy_name. now rewrite Hend. }
  pose proof (save_roots_events np_roots degree datafile progress_callback_save
                save_callback_events w progress_callback_save_emits Hd) as Hsave.
  unfold saved in Hsave. rewrite Hname, Hw in Hsave.
  rewrite (RunSaveAndGenerate_run _ _ _ _ _ _ _ _ _ Hsave).
  match type of Hsave with
  | _ = (_, ?w0) => set (w1 := w0) in *
  end.
  set (loop := loop_events np_roots save_callback_events (2 ^ degree)
                 (Enumerator.coeff_combinations (Z.to_nat degree)) 0) in *.
  set (C := root_collection np_roots (Z.to_nat degree)) in *.
  assert (Hfile : files w1 !! datafile = Some (NpyArray C)).
  { unfold w1. cbn [files add_events write_file]. apply lookup_insert_eq. }
  assert (Hbin : binned w1 size datafile = true).
  { unfold binned, readable. rewrite Hfile.
    change (fits w1 size) with (fits w size). rewrite Hfits.
    destruct (Z.leb_spec 1 size); [reflexivity | lia]. }
  assert (Hpic : picture_written w1 output dpi = Some name).
  { unfold picture_written. change (picture_file w1 output dpi) with (picture_file w output dpi).
    rewrite Hpf. change (writable w1 name) with (writable w name). now rewrite Hwn. }
  unfold pictured. rewrite Hbin, Hpic.
  unfold heat_job_events. rewrite Hfile, Hpic.
  replace ((1 <=? size) && fits w1 size) with true
    by (unfold binned, readable in Hbin; rewrite Hfile in Hbin; now rewrite <- Hbin).
  set (D := display_events w1 (np.log_plus_1 (histogram (Z.to_nat size) C)) color_map).
  destruct (display_no_error w1 (np.log_plus_1 (histogram (Z.to_nat size) C)) color_map Hcm)
    as [Hd1 Hd2].
  fold D in Hd1, Hd2.
  assert (Hloop : Forall (fun ev => ev <> Dialog ICON_ERROR) loop).
  { apply loop_events_kinds; [discriminate|].
    intros c t. unfold save_callback_events. repeat constructor; discriminate. }
  set (heat := [Log INFO "Starting heatmap generation"; Progress size size;
                Log DEBUG "Generating heatmap progress"; Log DEBUG "Heatmap generated"]
               ++ D ++ [Savefig output dpi; Log INFO "Heatmap saved";
                        Dialog ICON_INFORMATION]).
  exists (add_events (write_file w1 name NotNpy) heat),
         (([Log INFO "Starting to save roots"] ++ loop
           ++ [Log INFO "Successfully saved roots"]) ++ heat).
  split; [reflexivity|]. split; [reflexivity|].
  split; [unfold w1; cbn [trace add_events write_file]; now rewrite <- !app_assoc|].
  assert (Hin : forall ev, In ev [Savefig output dpi; Log INFO "Heatmap saved";
                                  Dialog ICON_INFORMATION] ->
                           In ev (([Log INFO "Starting to save roots"] ++ loop
                                   ++ [Log INFO "Successfully saved roots"]) ++ heat)).
  { intros ev Hev. apply in_or_app. right. unfold heat.
    apply in_or_app. right. apply in_or_app. now right. }
  split; [apply Hin; simpl; tauto|].
  split; [apply Hin; simpl; tauto|].
  split.
  - intros H. apply in_app_or in H as [H | H].
    + cbn [app] in H. destruct H as [H | H]; [discriminate|].
      apply in_app_or in H as [H | H].
      * rewrite List.Forall_forall in Hloop. now apply (Hloop _ H).
      * destruct H as [H | []]. discriminate.
    + unfold heat in H. apply in_app_or in H as [H | H];
        [simpl in H; intuition discriminate|].
      apply in_app_or in H as [H | H]; [tauto | simpl in H; intuition discriminate].
  - intros Hall. unfold heat. rewrite !existsb_app, Hd1.
    unfold loop. rewrite loop_events_no_error; [reflexivity | exact Hall | reflexivity].
Qed.

Lemma all_job_succeeds_witness :
  exists w' evs,
    RunSaveAndGenerate small_solver 2 100 "roots_degree_2.npy" "afmhot" "polyroots.png"
      300 empty_world
    = (Returned tt, w') /\
    files w' = <["polyroots.png" := NotNpy]>
                 (<["roots_degree_2.npy" :=
                      NpyArray (root_collection small_solver (Z.to_nat 2))]>
                    (files empty_world)) /\
    trace w' = trace empty_world ++ evs /\
    In (Savefig "polyroots.png" 300) evs /\
    In (Dialog ICON_INFORMATION) evs /\
    ~ In (Dialog ICON_ERROR) evs /\
    (all_solves_succeed small_solver (Z.to_nat 2) ->
     existsb is_error_report evs = false).
Proof.
  apply (all_job_succeeds small_solver 2 100 "roots_degree_2.npy" "afmhot"
           "polyroots.png" 300 "polyroots.png" empty_world).
  - lia.
  - lia.
  - reflexivity.
  - reflexivity.
  - reflexivity.
  - reflexivity.
  - reflexivity.
  - reflexivity.
Defined.

(** X12.  When the data file cannot be written but holds an array from an
    earlier run, the job behind "All" goes on after the error log entry of
    [save_roots] and bins that earlier array: its picture is drawn, written
    and announced with the information dialog as if the roots had been
    saved.  The data file stays as it was. *)
Theorem all_job_uses_earlier_file (np_roots : list Z -> result (list complex))
    (degree size : Z) (datafile color_map output : string) (dpi : Z)
    (f : list complex) (name : string) (w : world) :
  0 <= degree ->
  writable w (np.npy_name datafile) = false ->
  files w !! datafile = Some (NpyArray f) ->
  1 <= size ->
  fits w size = true ->
  picture_written w output dpi = Some name ->
  exists evs,
    RunSaveAndGenerate np_roots degree size datafile color_map output dpi w
    = (Returned tt,
       add_events (write_file w name NotNpy)
         (evs ++ [Log ERROR "Error in save_roots";
                  Log INFO "Starting heatmap generation"; Progress size size;
                  Log DEBUG "Generating heatmap progress"; Log DEBUG "Heatmap generated"]
              ++ display_events w (np.log_plus_1 (histogram (Z.to_nat size) f)) color_map
              ++ [Savefig output dpi; Log INFO "Heatmap saved";
                  Dialog ICON_INFORMATION])) /\
    Forall (fun ev => (exists lvl msg, ev = Log lvl msg) \/
                      (exists c t, ev = Progress c t)) evs.
Proof.
  intros Hd Hw Hf Hs Hfits Hpic.
  pose proof (save_roots_events np_roots degree datafile progress_callback_save
                save_callback_events w progress_callback_save_emits Hd) as Hsave.
  unfold saved in Hsave. rewrite Hw in Hsave.
  rewrite (RunSaveAndGenerate_run _ _ _ _ _ _ _ _ _ Hsave).
  set (loop := loop_events np_roots save_callback_events (2 ^ degree)
                 (Enumerator.coeff_combinations (Z.to_nat degree)) 0).
  match goal with
  | |- context [pictured _ _ _ _ ?w0 _] => set (w1 := w0)
  end.
  assert (Hbin : binned w1 size datafile = true).
  { unfold binned, readable. change (files w1) with (files w). rewrite Hf.
    change (fits w1 size) with (fits w size). rewrite Hfits.
    destruct (Z.leb_spec 1 size); [reflexivity | lia]. }
  unfold pictured. rewrite Hbin.
  change (picture_written w1 output dpi) with (picture_written w output dpi).
  rewrite Hpic. unfold heat_job_events.
  change (files w1) with (files w). rewrite Hf.
  change (fits w1 size) with (fits w size). rewrite Hfits.
  change (picture_written w1 output dpi) with (picture_written w output dpi).
  rewrite Hpic.
  destruct (Z.leb_spec 1 size); [|lia]. cbn [andb].
  exists ([Log INFO "Starting to save roots"] ++ loop).
  split.
  - unfold w1. rewrite write_file_add_events, add_events_app.
    change (display_events (add_events w ?l)) with (display_events w).
    f_equal. f_equal. rewrite <- !app_assoc. reflexivity.
  - apply List.Forall_app. split; [constructor; [left; eauto | constructor]|].
    apply loop_events_kinds; [intros; left; eauto|].
    intros c t. unfold save_callback_events.
    constructor; [right; eauto|]. constructor; [left; eauto | constructor].
Qed.

Lemma all_job_uses_earlier_file_witness :
  exists evs,
    RunSaveAndGenerate small_solver 1 100 "roots_degree_1.npy" "afmhot" "polyroots.png"
      300 stale_world
    = (Returned tt,
       add_events (write_file stale_world "polyroots.png" NotNpy)
         (evs ++ [Log ERROR "Error in save_roots";
                  Log INFO "Starting heatmap generation"; Progress 100 100;
                  Log DEBUG "Generating heatmap progress"; Log DEBUG "Heatmap generated"]
              ++ display_events stale_world
                   (np.log_plus_1 (histogram (Z.to_nat 100) test_roots)) "afmhot"
              ++ [Savefig "polyroots.png" 300; Log INFO "Heatmap saved";
                  Dialog ICON_INFORMATION])) /\
    Forall (fun ev => (exists lvl msg, ev = Log lvl msg) \/
                      (exists c t, ev = Progress c t)) evs.
Proof.
  apply (all_job_uses_earlier_file small_solver 1 100 "roots_degree_1.npy" "afmhot"
           "polyroots.png" 300 test_roots "polyroots.png" stale_world).
  - lia.
  - reflexivity.
  - reflexivity.
  - lia.
  - reflexivity.
  - reflexivity.
Defined.

Lemma progress_calls_display (w : world) (img : list (list R)) (color_map : string) :
  progress_calls (display_events w img color_map) = [].
Proof.
  unfold display_events.
  destruct (np.any_positive img); [now destruct (colormaps w color_map) | reflexivity].
Qed.

Lemma pow2_to_nat (d : Z) : 0 <= d -> Z.to_nat (2 ^ d) = (2 ^ Z.to_nat d)%nat.
Proof.
  intros Hd. rewrite <- (Z2Nat.id d) at 1 by exact Hd.
  rewrite <- (Nat2Z.inj_pow 2), Nat2Z.id. reflexivity.
Qed.

(** X13.  The progress the job behind "All" reports, in the conditions of
    its success: one report after each root computation, counting from 1
    to 2^degree, and then the one report of the binning, (size, size);
    nothing is reported twice or out of this order. *)
Theorem all_job_progress (np_roots : list Z -> result (list complex))
    (degree size : Z) (datafile color_map output : string) (dpi : Z) (w : world) :
  0 <= degree ->
  1 <= size ->
  fits w size = true ->
  np.endswith datafile ".npy" = true ->
  writable w datafile = true ->
  progress_calls
    (events_of (RunSaveAndGenerate np_roots degree size datafile color_map output dpi) w)
  = progress_calls (trace w)
    ++ map (fun k => (Z.of_nat k, 2 ^ degree)) (seq 1 (Z.to_nat (2 ^ degree)))
    ++ [(size, size)].
Proof.
  intros Hd Hs Hfits Hend Hw.
  assert (Hname : np.npy_name datafile = datafile).
  { unfold np.npy_name. now rewrite Hend. }
  pose proof (save_roots_events np_roots degree datafile progress_callback_save
                save_callback_events w progress_callback_save_emits Hd) as Hsave.
  unfold saved in Hsave. rewrite Hname, Hw in Hsave.
  unfold events_of. rewrite (RunSaveAndGenerate_run _ _ _ _ _ _ _ _ _ Hsave).
  cbn [snd]. rewrite trace_pictured. cbn [trace add_events write_file].
  unfold heat_job_events. cbn [files fits add_events write_file].
  rewrite lookup_insert_eq, Hfits.
  destruct (Z.leb_spec 1 size) as [_ | Hlt]; [|lia]. cbn [andb].
  rewrite !progress_calls_app, progress_calls_display.
  rewrite loop_events_progress by reflexivity.
  rewrite coeff_combinations_length, pow2_to_nat by exact Hd.
  replace (progress_calls
             match picture_written _ output dpi with
             | Some _ => [Savefig output dpi; Log INFO "Heatmap saved";
                          Dialog ICON_INFORMATION]
             | None => [Log ERROR "Error in RunSaveAndGenerate"; Dialog ICON_ERROR]
             end) with (@nil (Z * Z)) by now destruct (picture_written _ output dpi).
  cbn. rewrite !app_nil_r, <- app_assoc. reflexivity.
Qed.

Lemma all_job_progress_witness :
  progress_calls
    (events_of (RunSaveAndGenerate small_solver 2 100 "roots_degree_2.npy" "afmhot"
                  "polyroots.png" 300) empty_world)
  = progress_calls (trace empty_world)
    ++ map (fun k => (Z.of_nat k, 2 ^ 2)) (seq 1 (Z.to_nat (2 ^ 2)))
    ++ [(100, 100)].
Proof.
  apply (all_job_progress small_solver 2 100 "roots_degree_2.npy" "afmhot"
           "polyroots.png" 300 empty_world).
  - lia.
  - lia.
  - reflexivity.
  - reflexivity.
  - reflexivity.
Defined.

Lemma loop_events_solve_errors (np_roots : list Z -> result (list complex))
    (cb_events : Z -> Z -> list event) (total : Z) (todo : list (list Z))
    (processed : Z) :
  (forall c t, List.filter is_solve_error (cb_events c t) = []) ->
  length (List.filter is_solve_error (loop_events np_roots cb_events total todo processed))
  = length (List.filter (fun v => negb (returned (np_roots v))) todo).
Proof.
  intros Hcb. revert processed.
  induction todo as [|v todo IH]; intros processed; [reflexivity|].
  cbn [loop_events].
  change (solve_log np_roots v :: ?l) with ([solve_log np_roots v] ++ l).
  rewrite !List.filter_app, !length_app, Hcb, IH.
  replace (List.filter is_solve_error
             (if (processed + 1) mod 10000 =? 0
              then [Log INFO "Processed polynomials"] else []))
    with (@nil event) by now destruct ((processed + 1) mod 10000 =? 0).
  unfold solve_log. cbn [List.filter]. destruct (np_roots v); reflexivity.
Qed.

Lemma filter_negb_length {A : Type} (p : A -> bool) (l : list A) :
  (length (List.filter (fun x => negb (p x)) l) + length (List.filter p l))%nat
  = length l.
Proof.
  induction l as [|x l IH]; [reflexivity|]. simpl. destruct (p x); simpl; lia.
Qed.

(** X14.  The log accounts for every root computation that failed: among
    the events of [save_roots] for a degree that is not negative there is
    one error entry of [compute_roots] for each vector whose computation
    raised, so these entries and the computations that returned add up to
    the 2^degree polynomials. *)
Theorem failed_solves_are_logged (np_roots : list Z -> result (list complex))
    (d : Z) (datafile : string) (cb : callback) (cb_events : Z -> Z -> list event)
    (w : world) :
  emits cb cb_events ->
  (forall c t, List.filter is_solve_error (cb_events c t) = []) ->
  0 <= d ->
  exists evs,
    trace (snd (save_roots np_roots d datafile cb w)) = trace w ++ evs /\
    (length (List.filter is_solve_error evs) + solved_count np_roots (Z.to_nat d))%nat
    = (2 ^ Z.to_nat d)%nat.
Proof.
  intros Hcb Hnone Hd.
  rewrite (save_roots_events np_roots d datafile cb cb_events w Hcb Hd).
  exists ([Log INFO "Starting to save roots"]
          ++ loop_events np_roots cb_events (2 ^ d)
               (Enumerator.coeff_combinations (Z.to_nat d)) 0
          ++ [if writable w (np.npy_name datafile)
              then Log INFO "Successfully saved roots"
              else Log ERROR "Error in save_roots"]).
  split.
  - unfold saved. destruct (writable w (np.npy_name datafile)); reflexivity.
  - rewrite !List.filter_app, !length_app, loop_events_solve_errors by exact Hnone.
    replace (List.filter is_solve_error
               [if writable w (np.npy_name datafile)
                then Log INFO "Successfully saved roots"
                else Log ERROR "Error in save_roots"])
      with (@nil event) by now destruct (writable w (np.npy_name datafile)).
    pose proof (filter_negb_length (fun v => returned (np_roots v))
                  (Enumerator.coeff_combinations (Z.to_nat d))) as E.
    rewrite coeff_combinations_length in E.
    cbn [List.filter is_solve_error length]. unfold solved_count. lia.
Qed.

Lemma failed_solves_are_logged_witness :
  exists evs,
    trace (snd (save_roots flaky_solver 2 "roots_degree_2.npy" None empty_world))
    = trace empty_world ++ evs /\
    (length (List.filter is_solve_error evs) + solved_count flaky_solver (Z.to_nat 2))%nat
    = (2 ^ Z.to_nat 2)%nat.
Proof.
  apply (failed_solves_are_logged flaky_solver 2 "roots_degree_2.npy" None
           (fun _ _ => []) empty_world).
  - exact None_emits.
  - reflexivity.
  - lia.
Defined.

(** ** The getters and the buttons *)

(** X15.  Each getter of the frame answers the integer of its field
    exactly when the text is an integer within the bounds of the field,
    [1,25] for the degree, [100,10000] for the size and [50,10000] for the
    DPI; in every other case, a text that is no integer included, it
    answers [None] after one error log entry and one error dialog.  It
    never raises and changes no file. *)
Theorem getters_check_bounds (py_int : string -> option Z) (self : frame) (w : world) :
  (exists r evs,
     GetDegree py_int self w = (Returned r, add_events w evs) /\
     (forall n, r = Some n <-> py_int (txt_degree self) = Some n /\ 1 <= n <= 25) /\
     (r = None -> evs = [Log ERROR "Invalid degree input"; Dialog ICON_ERROR]) /\
     (r <> None -> evs = [Log DEBUG "User input degree"])) /\
  (exists r evs,
     GetSizeValue py_int self w = (Returned r, add_events w evs) /\
     (forall n, r = Some n <-> py_int (txt_size self) = Some n /\ 100 <= n <= 10000) /\
     (r = None -> evs = [Log ERROR "Invalid size input"; Dialog ICON_ERROR]) /\
     (r <> None -> evs = [Log DEBUG "User input size"])) /\
  (exists r evs,
     GetDPI py_int self w = (Returned r, add_events w evs) /\
     (forall n, r = Some n <-> py_int (txt_dpi self) = Some n /\ 50 <= n <= 10000) /\
     (r = None -> evs = [Log ERROR "Invalid DPI input"; Dialog ICON_ERROR]) /\
     (r <> None -> evs = [Log DEBUG "User input DPI"])).
Proof.
  split; [|split].
  - eexists _, _. split; [apply GetDegree_run|].
    split; [intros n; apply checked_Some|].
    destruct (checked 1 25 (py_int (txt_degree self))); split; congruence.
  - eexists _, _. split; [apply GetSizeValue_run|].
    split; [intros n; apply checked_Some|].
    destruct (checked 100 10000 (py_int (txt_size self))); split; congruence.
  - eexists _, _. split; [apply GetDPI_run|].
    split; [intros n; apply checked_Some|].
    destruct (checked 50 10000 (py_int (txt_dpi self))); split; congruence.
Qed.

(** The DPI field at its two bounds and just outside of them. *)
Example dpi_bounds :
  map (fun text =>
         fst (GetDPI decimal_int
                {| txt_degree := "3"; txt_size := "800"; txt_dpi := text;
                   cmb_colormap := "afmhot"; txt_output := "polyroots.png" |}
                empty_world))
      ["49"; "50"; "10000"; "10001"; "300dpi"]
  = [Returned None; Returned (Some 50); Returned (Some 10000); Returned None;
     Returned None].
Proof. reflexivity. Qed.

(** Splits a membership in an explicit list of events. *)
Ltac in_events H :=
  simpl in H; repeat (destruct H as [H | H]; [try discriminate H|]); try contradiction.

(** X16.  The button "Roots" starts its job exactly when the degree field
    holds an integer within [1,25] and the user confirms; the job then gets
    that degree and the file name made from it.  In every other case
    nothing is started.  The handler returns and changes no file. *)
Theorem roots_button_starts_job (py_int : string -> option Z) (self : frame)
    (answer : bool) (w : world) :
  exists evs,
    OnSaveRoots py_int self answer w = (Returned tt, add_events w evs) /\
    forall j,
      In (ThreadStart j) evs <->
      answer = true /\
      exists d, py_int (txt_degree self) = Some d /\ 1 <= d <= 25 /\
                j = JobSaveRoots d (roots_file d).
Proof.
  unfold OnSaveRoots. rewrite (bind_returned _ _ _ _ _ (GetDegree_run py_int self w)).
  destruct (checked 1 25 (py_int (txt_degree self))) as [d|] eqn:Ed.
  - apply checked_Some in Ed as [Hd Hrange]. destruct answer.
    + eexists. split; [run_statements|]. intros j. split.
      * intros H. in_events H. injection H as <-. split; [reflexivity|]. eauto.
      * intros [_ (d' & Hd' & _ & ->)]. rewrite Hd in Hd'. injection Hd' as <-.
        simpl. tauto.
    + eexists. split; [run_statements|]. intros j. split.
      * intros H. in_events H.
      * intros [H _]. discriminate.
  - eexists. split; [run_statements|]. intros j. split.
    + intros H. in_events H.
    + intros [_ (d & Hd & Hrange & _)].
      assert (checked 1 25 (py_int (txt_degree self)) = Some d)
        by (apply checked_Some; auto).
      congruence.
Qed.

(** X17.  The button "Heatmap" starts its job exactly when the degree, the
    size and the DPI fields hold integers within their bounds and the data
    file of the degree exists; the job then gets these values, the file
    name made from the degree, and the colour map and output name of the
    frame.  In every other case nothing is started. *)
Theorem heatmap_button_starts_job (py_int : string -> option Z) (self : frame)
    (w : world) :
  exists evs,
    OnGenerateHeatmap py_int self w = (Returned tt, add_events w evs) /\
    forall j,
      In (ThreadStart j) evs <->
      exists d s p,
        py_int (txt_degree self) = Some d /\ 1 <= d <= 25 /\
        py_int (txt_size self) = Some s /\ 100 <= s <= 10000 /\
        is_Some (files w !! roots_file d) /\
        py_int (txt_dpi self) = Some p /\ 50 <= p <= 10000 /\
        j = JobGenerateHeatmap s (roots_file d) (cmb_colormap self) (txt_output self) p.
Proof.
  unfold OnGenerateHeatmap.
  rewrite (bind_returned _ _ _ _ _ (GetDegree_run py_int self w)).
  destruct (checked 1 25 (py_int (txt_degree self))) as [d|] eqn:Ed.
  2:{ eexists. split; [run_statements|]. intros j. split.
      - intros H. in_events H.
      - intros (d & s & p & Hd & Hrd & _).
        assert (checked 1 25 (py_int (txt_degree self)) = Some d)
          by (apply checked_Some; auto).
        congruence. }
  apply checked_Some in Ed as [Hd Hrd].
  rewrite (bind_returned _ _ _ _ _ (GetSizeValue_run py_int self _)).
  destruct (checked 100 10000 (py_int (txt_size self))) as [s|] eqn:Es.
  2:{ eexists. split; [run_statements|]. intros j. split.
      - intros H. in_events H.
      - intros (d' & s & p & _ & _ & Hs & Hrs & _).
        assert (checked 100 10000 (py_int (txt_size self)) = Some s)
          by (apply checked_Some; auto).
        congruence. }
  apply checked_Some in Es as [Hs Hrs].
  unfold bind at 1, path_exists at 1. cbn [files add_events].
  destruct (decide (is_Some (files w !! roots_file d))) as [Hex | Hex].
  2:{ rewrite bool_decide_eq_false_2 by exact Hex. cbn [negb].
      eexists. split; [run_statements|]. intros j. split.
      - intros H. in_events H.
      - intros (d' & s' & p & Hd' & _ & _ & _ & Hex' & _).
        rewrite Hd in Hd'. injection Hd' as <-. contradiction. }
  rewrite bool_decide_eq_true_2 by exact Hex. cbn [negb].
  rewrite (bind_returned _ _ _ _ _ (GetDPI_run py_int self _)).
  destruct (checked 50 10000 (py_int (txt_dpi self))) as [p|] eqn:Ep.
  2:{ eexists. split; [run_statements|]. intros j. split.
      - intros H. in_events H.
      - intros (d' & s' & p & _ & _ & _ & _ & _ & Hp & Hrp & _).
        assert (checked 50 10000 (py_int (txt_dpi self)) = Some p)
          by (apply checked_Some; auto).
        congruence. }
  apply checked_Some in Ep as [Hp Hrp].
  eexists. split; [run_statements|]. intros j. split.
  - intros H. in_events H. injection H as <-. exists d, s, p. auto 10.
  - intros (d' & s' & p' & Hd' & _ & Hs' & _ & _ & Hp' & _ & ->).
    rewrite Hd in Hd'. rewrite Hs in Hs'. rewrite Hp in Hp'.
    injection Hd' as <-. injection Hs' as <-. injection Hp' as <-.
    simpl. tauto.
Qed.

(** X18.  The button "All" starts its job exactly when the degree, the
    size and the DPI fields hold integers within their bounds and the user
    confirms; the job then gets these values, the file name made from the
    degree, and the colour map and output name of the frame.  The user is
    asked only after the three checks passed. *)
Theorem all_button_starts_job (py_int : string -> option Z) (self : frame)
    (answer : bool) (w : world) :
  exists evs,
    OnSaveAndGenerate py_int self answer w = (Returned tt, add_events w evs) /\
    (forall j,
       In (ThreadStart j) evs <->
       answer = true /\
       exists d s p,
         py_int (txt_degree self) = Some d /\ 1 <= d <= 25 /\
         py_int (txt_size self) = Some s /\ 100 <= s <= 10000 /\
         py_int (txt_dpi self) = Some p /\ 50 <= p <= 10000 /\
         j = JobSaveAndGenerate d s (roots_file d) (cmb_colormap self)
               (txt_output self) p) /\
    (In (Dialog CONFIRM) evs <->
     exists d s p,
       py_int (txt_degree self) = Some d /\ 1 <= d <= 25 /\
       py_int (txt_size self) = Some s /\ 100 <= s <= 10000 /\
       py_int (txt_dpi self) = Some p /\ 50 <= p <= 10000).
Proof.
  unfold OnSaveAndGenerate.
  rewrite (bind_returned _ _ _ _ _ (GetDegree_run py_int self w)).
  destruct (checked 1 25 (py_int (txt_degree self))) as [d|] eqn:Ed.
  2:{ eexists. split; [run_statements|].
      assert (Hno : ~ exists d, py_int (txt_degree self) = Some d /\ 1 <= d <= 25).
      { intros (d & Hd & Hrd).
        assert (checked 1 25 (py_int (txt_degree self)) = Some d)
          by (apply checked_Some; auto).
        congruence. }
      split; [intros j|]; (split; [intros H; in_events H|]).
      - intros [_ (d & s & p & Hd & Hrd & _)]. exfalso. apply Hno. eauto.
      - intros (d & s & p & Hd & Hrd & _). exfalso. apply Hno. eauto. }
  apply checked_Some in Ed as [Hd Hrd].
  rewrite (bind_returned _ _ _ _ _ (GetSizeValue_run py_int self _)).
  destruct (checked 100 10000 (py_int (txt_size self))) as [s|] eqn:Es.
  2:{ eexists. split; [run_statements|].
      assert (Hno : ~ exists s, py_int (txt_size self) = Some s /\ 100 <= s <= 10000).
      { intros (s & Hs & Hrs).
        assert (checked 100 10000 (py_int (txt_size self)) = Some s)
          by (apply checked_Some; auto).
        congruence. }
      split; [intros j|]; (split; [intros H; in_events H|]).
      - intros [_ (d' & s & p & _ & _ & Hs & Hrs & _)]. exfalso. apply Hno. eauto.
      - intros (d' & s & p & _ & _ & Hs & Hrs & _). exfalso. apply Hno. eauto. }
  apply checked_Some in Es as [Hs Hrs].
  rewrite (bind_returned _ _ _ _ _ (GetDPI_run py_int self _)).
  destruct (checked 50 10000 (py_int (txt_dpi self))) as [p|] eqn:Ep.
  2:{ eexists. split; [run_statements|].
      assert (Hno : ~ exists p, py_int (txt_dpi self) = Some p /\ 50 <= p <= 10000).
      { intros (p & Hp & Hrp).
        assert (checked 50 10000 (py_int (txt_dpi self)) = Some p)
          by (apply checked_Some; auto).
        congruence. }
      split; [intros j|]; (split; [intros H; in_events H|]).
      - intros [_ (d' & s' & p & _ & _ & _ & _ & Hp & Hrp & _)]. exfalso. apply Hno. eauto.
      - intros (d' & s' & p & _ & _ & _ & _ & Hp & Hrp). exfalso. apply Hno. eauto. }
  apply checked_Some in Ep as [Hp Hrp].
  assert (Hall : exists d s p,
             py_int (txt_degree self) = Some d /\ 1 <= d <= 25 /\
             py_int (txt_size self) = Some s /\ 100 <= s <= 10000 /\
             py_int (txt_dpi self) = Some p /\ 50 <= p <= 10000)
    by (exists d, s, p; auto 10).
  destruct answer.
  - eexists. split; [run_statements|]. split; [intros j|]; split.
    + intros H. in_events H. injection H as <-. split; [reflexivity|].
      exists d, s, p. auto 10.
    + intros [_ (d' & s' & p' & Hd' & _ & Hs' & _ & Hp' & _ & ->)].
      rewrite Hd in Hd'. rewrite Hs in Hs'. rewrite Hp in Hp'.
      injection Hd' as <-. injection Hs' as <-. injection Hp' as <-.
      simpl. tauto.
    + intros _. exact Hall.
    + intros _. simpl. tauto.
  - eexists. split; [run_statements|]. split; [intros j|]; split.
    + intros H. in_events H.
    + intros [H _]. discriminate.
    + intros _. exact Hall.
    + intros _. simpl. tauto.
Qed.

(** ** File names *)

Lemma string_app_inv_tail (a b s : string) :
  (a ++ s)%string = (b ++ s)%string -> a = b.
Proof.
  revert b. induction a as [|c a IH]; intros [|c' b] H.
  - reflexivity.
  - apply (f_equal String.length) in H. rewrite !string_length_app in H.
    cbn [String.length] in H. lia.
  - apply (f_equal String.length) in H. rewrite !string_length_app in H.
    cbn [String.length] in H. lia.
  - change (String c (a ++ s) = String c' (b ++ s))%string in H.
    injection H as -> H. f_equal. now apply IH.
Qed.

Lemma to_int_proper (z : Z) :
  Z.to_int z <> Decimal.Pos Decimal.Nil /\ Z.to_int z <> Decimal.Neg Decimal.Nil.
Proof.
  destruct z as [|p|p]; simpl; split; try discriminate;
    intros H; injection H as H; exact (Unsigned.to_uint_nonnil p H).
Qed.

Lemma str_inj (m n : Z) : str m = str n -> m = n.
Proof.
  unfold str. intros H.
  destruct (to_int_proper m) as [Hm1 Hm2], (to_int_proper n) as [Hn1 Hn2].
  pose proof (NilZero.isi (Z.to_int m) Hm1 Hm2) as Em.
  pose proof (NilZero.isi (Z.to_int n) Hn1 Hn2) as En.
  rewrite H, En in Em. injection Em as Em.
  rewrite <- (DecimalZ.of_to m), <- (DecimalZ.of_to n). now rewrite Em.
Qed.

(** X19.  The data files of two degrees are two files: the name made from
    the degree determines the degree, it already ends with [.npy], so
    [np.save] writes to that very name, and saving the roots of one degree
    leaves the file of every other degree as it was. *)
Theorem one_file_per_degree (np_roots : list Z -> result (list complex))
    (d1 d2 : Z) (cb : callback) (w : world) :
  passive cb ->
  d1 <> d2 ->
  roots_file d1 <> roots_file d2 /\
  np.npy_name (roots_file d1) = roots_file d1 /\
  files (snd (save_roots np_roots d1 (roots_file d1) cb w)) !! roots_file d2
  = files w !! roots_file d2.
Proof.
  intros Hp Hne.
  assert (Hfiles : roots_file d1 <> roots_file d2).
  { intros H. apply Hne. unfold roots_file in H.
    apply String.app_inj in H. apply string_app_inv_tail in H. now apply str_inj. }
  split; [exact Hfiles|]. split; [apply npy_name_roots_file|].
  destruct (Z_lt_le_dec d1 0) as [Hd | Hd].
  - now rewrite save_roots_negative_run by exact Hd.
  - destruct (save_roots_run np_roots d1 (roots_file d1) cb w Hp Hd) as (evs & Hrun).
    rewrite Hrun. unfold saved. rewrite npy_name_roots_file.
    destruct (writable w (roots_file d1)); cbn [snd files]; [|reflexivity].
    now apply lookup_insert_ne.
Qed.

Lemma one_file_per_degree_witness :
  roots_file 2 <> roots_file 3 /\
  np.npy_name (roots_file 2) = roots_file 2 /\
  files (snd (save_roots small_solver 2 (roots_file 2) None empty_world)) !! roots_file 3
  = files empty_world !! roots_file 3.
Proof.
  apply (one_file_per_degree small_solver 2 3 None empty_world).
  - exact None_passive.
  - discriminate.
Defined.

(** ** The cells of the picture *)

(** X20.  Which roots a cell of the picture counts: for a readable
    collection and a size N of at least 1 that the memory takes, with the
    edges of [np.linspace] in order, the cell of row i and column j of what
    [heat_map] returns is ln(c + 1) for c the number of roots whose real
    part lies in bin i and whose imaginary part lies in bin j, the bins of
    an axis being cut by the N + 1 edges [np.histogram2d] computes from
    -1.8 to 1.8; a bin holds its lower edge and not its upper edge, except
    the last bin, which holds 1.8. *)
Theorem heat_map_cell_is_box (size : Z) (datafile : string) (cb : callback)
    (f : list complex) (w : world) :
  1 <= size ->
  fits w size = true ->
  files w !! datafile = Some (NpyArray f) ->
  passive cb ->
  let N := Z.to_nat size in
  grid_in_order N ->
  exists hist img,
    np.histogram2d (map real f) (map imag f) size X_MIN X_MAX Y_MIN Y_MAX w
    = (Returned (hist, np.linspace X_MIN X_MAX N, np.linspace Y_MIN Y_MAX N), w) /\
    fst (heat_map size datafile cb w) = Returned img /\
    edge X_MIN X_MAX N N = double X_MAX /\
    edge Y_MIN Y_MAX N N = double Y_MAX /\
    forall i j, (i < N)%nat -> (j < N)%nat ->
      nth j (nth i img []) 0%R
      = ln (INR (length (List.filter (falls_in N i j) f)) + 1) /\
      forall c, falls_in N i j c = true <->
                in_bin X_MIN X_MAX N i (real c) /\ in_bin Y_MIN Y_MAX N j (imag c).
Proof.
  intros Hs Hfits Hf Hp N Hord.
  destruct (heat_map_run size datafile cb f w Hf Hs Hfits Hp) as (evs & Hrun).
  exists (histogram N f), (np.log_plus_1 (histogram N f)).
  split; [now apply histogram2d_run|].
  split; [now rewrite Hrun|].
  split; [apply linspace_nth_last|]. split; [apply linspace_nth_last|].
  intros i j Hi Hj. split; [|intros c; now apply falls_in_cell].
  fold (cell_count N f i j). now apply log_grid_nth.
Qed.

Lemma heat_map_cell_is_box_witness :
  let N := Z.to_nat 100 in
  exists hist img,
    np.histogram2d (map real test_roots) (map imag test_roots) 100
      X_MIN X_MAX Y_MIN Y_MAX test_world
    = (Returned (hist, np.linspace X_MIN X_MAX N, np.linspace Y_MIN Y_MAX N),
       test_world) /\
    fst (heat_map 100 "test_roots.npy" None test_world) = Returned img /\
    edge X_MIN X_MAX N N = double X_MAX /\
    edge Y_MIN Y_MAX N N = double Y_MAX /\
    forall i j, (i < N)%nat -> (j < N)%nat ->
      nth j (nth i img []) 0%R
      = ln (INR (length (List.filter (falls_in N i j) test_roots)) + 1) /\
      forall c, falls_in N i j c = true <->
                in_bin X_MIN X_MAX N i (real c) /\ in_bin Y_MIN Y_MAX N j (imag c).
Proof.
  apply (heat_map_cell_is_box 100 "test_roots.npy" None test_roots test_world).
  - lia.
  - reflexivity.
  - reflexivity.
  - exact None_passive.
  - exact grid_in_order_100.
Defined.
